(** * Testpilot: test orchestration and report synthesis

    A shallow embedding of the TypeScript sources

    - [src/reporter/reporter.ts]   (Reporter)
    - [src/tester/navigator.ts]    (NavigationTester)
    - [src/tester/clickTester.ts]  (ClickTester)
    - [src/tester/formTester.ts]   (FormTester, getTestValue)
    - [src/tester/visualChecker.ts] (VisualChecker.checkOverlaps)

    JavaScript strings are modelled as Rocq [string]s (sequences of
    8-bit characters); [toLowerCase] and [trim] act on the ASCII range.
    The browser driver ([src/browser/engine.ts]) is an interface: its
    operations take and return an abstract world, and every call is
    recorded in a trace. *)

From Stdlib Require Import ZArith Ascii String List Lia Bool.
From stdpp Require Import base gmap strings list pretty.

Local Open Scope string_scope.
Local Open Scope list_scope.

(** ** JavaScript string primitives *)

Module JS.

Definition chr (n : nat) : string := String (ascii_of_nat n) EmptyString.

(** The characters that cannot be written inside a literal. *)
Definition nl : string := chr 10.
Definition dquote : string := chr 34.

(** [s.includes(needle)] *)
Fixpoint includes (s needle : string) : bool :=
  String.prefix needle s
  || match s with
     | EmptyString => false
     | String _ rest => includes rest needle
     end.

Definition lower_ascii (c : ascii) : ascii :=
  let n := nat_of_ascii c in
  if (65 <=? n)%nat && (n <=? 90)%nat then ascii_of_nat (n + 32) else c.

(** [s.toLowerCase()] on ASCII text: the letters [A] to [Z] are
    lowered, every other character is left as it is. *)
Fixpoint toLowerCase (s : string) : string :=
  match s with
  | EmptyString => EmptyString
  | String c rest => String (lower_ascii c) (toLowerCase rest)
  end.

(** [xs.join(sep)] *)
Definition join (sep : string) (xs : list string) : string :=
  String.concat sep xs.

(** Truthiness of a string: the empty string is falsy. *)
Definition truthy (s : string) : bool :=
  match s with EmptyString => false | _ => true end.

(** Truthiness of an optional string property ([undefined] is falsy). *)
Definition truthy_opt (o : option string) : bool :=
  match o with Some s => truthy s | None => false end.

(** [a || b] on strings. *)
Definition or_else (a b : string) : string := if truthy a then a else b.

(** A number inside a template literal. *)
Definition num (n : nat) : string := pretty n.

(** [xs.slice(n)] *)
Definition slice {A} (n : nat) (xs : list A) : list A := drop n xs.

End JS.

(** ** Data model ([src/types.ts]) *)

Inductive Status := Pass | Fail | Warning.

Definition Status_eqb (a b : Status) : bool :=
  match a, b with
  | Pass, Pass | Fail, Fail | Warning, Warning => true
  | _, _ => false
  end.

Record TestResult := mkTestResult {
  page : string;
  test : string;
  status : Status;
  message : string;
  screenshot : option string;
  details : option string;
}.

Record TestReport := mkTestReport {
  url : string;
  timestamp : string;
  totalTests : nat;
  passed : nat;
  failed : nat;
  warnings : nat;
  results : list TestResult;
  summary : string;
  fixInstructions : string;
}.

(** ** Reporter ([src/reporter/reporter.ts]) *)

Module Reporter.

Definition has_status (s : Status) (r : TestResult) : bool :=
  Status_eqb (status r) s.

(** [results.filter((r) => r.status === s)] *)
Definition with_status (s : Status) (rs : list TestResult) : list TestResult :=
  List.filter (has_status s) rs.

Definition successSentence : string :=
  "✅ All tests passed! The frontend appears to be working correctly." +:+ JS.nl.
Definition failuresHeading : string := "### ❌ Failures" +:+ JS.nl.
Definition warningsHeading : string := "### ⚠️ Warnings" +:+ JS.nl.

Definition header (url : string) (passed failed warnings : nat) : string :=
  ("## AutoTest Report for " +:+ url +:+ JS.nl +:+ JS.nl)
  +:+ ("**Results:** " +:+ JS.num passed +:+ " passed, " +:+ JS.num failed
       +:+ " failed, " +:+ JS.num warnings +:+ " warnings" +:+ JS.nl +:+ JS.nl).

(** One line of either section. *)
Definition bullet (r : TestResult) : string :=
  "- **" +:+ test r +:+ "** (" +:+ page r +:+ "): " +:+ message r +:+ JS.nl.

(** The optional fenced details of a failure. *)
Definition fenced (r : TestResult) : string :=
  match details r with
  | Some d =>
      if JS.truthy d
      then "  ```" +:+ JS.nl +:+ "  " +:+ d +:+ JS.nl +:+ "  ```" +:+ JS.nl
      else EmptyString
  | None => EmptyString
  end.

Definition buildSummary (url : string) (results : list TestResult)
    (passed failed warnings : nat) : string :=
  let summary := header url passed failed warnings in
  if (failed =? 0)%nat && (warnings =? 0)%nat then
    summary +:+ successSentence
  else
    let summary :=
      if (0 <? failed)%nat then
        let summary := summary +:+ failuresHeading in
        let summary :=
          fold_left (fun summary r => (summary +:+ bullet r) +:+ fenced r)
                    (with_status Fail results) summary in
        summary +:+ JS.nl
      else summary in
    let summary :=
      if (0 <? warnings)%nat then
        let summary := summary +:+ warningsHeading in
        let summary :=
          fold_left (fun summary r => summary +:+ bullet r)
                    (with_status Warning results) summary in
        summary +:+ JS.nl
      else summary in
    summary.

Definition suggestFix (result : TestResult) : string :=
  let test := JS.toLowerCase (test result) in
  let msg := JS.toLowerCase (message result) in
  if JS.includes test "console-error" || JS.includes test "page-error" then
    "Check the browser console errors above. These are JavaScript runtime errors in your code. Look at the error message and stack trace to find the source file and line."
  else if JS.includes test "network-error" then
    "API or resource requests are failing. Check that your API endpoints exist, the server is running, and URLs are correct. Check CORS settings if it's a cross-origin request."
  else if JS.includes test "form" && JS.includes test "fill" then
    "Form fields could not be interacted with. Ensure input fields have proper 'name' or 'id' attributes and are not hidden or overlapped by other elements."
  else if JS.includes test "form" && JS.includes test "submit" then
    "Form submission caused errors. Check your form submission handler, ensure the API endpoint exists, and verify error handling in the submit function."
  else if JS.includes test "click" && JS.includes test "button" then
    "A button click caused errors. Check the onClick handler for this button, verify any state changes it triggers, and ensure referenced variables/functions exist."
  else if JS.includes test "overflow" then
    "Content is wider than the viewport causing horizontal scroll. Check for fixed-width elements, missing overflow:hidden, or elements with absolute positioning outside the viewport."
  else if JS.includes test "broken-images" then
    "Some images are not loading. Verify image file paths, ensure files exist in the correct directory, and check that the image URLs are correct."
  else if JS.includes test "has-content" then
    "The page appears blank or empty. Check if the root component is rendering, verify there are no JavaScript errors preventing render, and ensure data fetching is working."
  else if JS.includes msg "error text" then
    "The page is displaying an error message to the user. This could be a React error boundary, a 404 page, or an unhandled error. Check the component rendering logic."
  else
    "Review the error details above and fix the underlying code issue.".

Definition buildFixInstructions (results : list TestResult) : string :=
  let failures := with_status Fail results in
  if (length failures =? 0)%nat then "No fixes needed. All tests passed."
  else
    let instructions := "## Fix Instructions" +:+ JS.nl +:+ JS.nl in
    let instructions :=
      instructions
      +:+ "The following issues were found by testing the actual frontend in a browser:"
      +:+ JS.nl +:+ JS.nl in
    fold_left
      (fun instructions failure =>
         let instructions :=
           instructions +:+ ("### Issue: " +:+ test failure +:+ JS.nl) in
         let instructions :=
           instructions +:+ ("- **Page:** " +:+ page failure +:+ JS.nl) in
         let instructions :=
           instructions +:+ ("- **Problem:** " +:+ message failure +:+ JS.nl) in
         let instructions :=
           if JS.truthy_opt (details failure) then
             instructions
             +:+ ("- **Details:**" +:+ JS.nl +:+ "```" +:+ JS.nl
                  +:+ default EmptyString (details failure) +:+ JS.nl
                  +:+ "```" +:+ JS.nl)
           else instructions in
         instructions
         +:+ ("- **Suggested fix:** " +:+ suggestFix failure +:+ JS.nl +:+ JS.nl))
      failures instructions.

(** [compile]; the clock reading [new Date().toISOString()] is the
    argument [now]. *)
Definition compile (now : string) (url : string) (results : list TestResult)
    : TestReport :=
  let passed := length (with_status Pass results) in
  let failed := length (with_status Fail results) in
  let warnings := length (with_status Warning results) in
  let summary := buildSummary url results passed failed warnings in
  let fixInstructions := buildFixInstructions results in
  {| url := url;
     timestamp := now;
     totalTests := length results;
     passed := passed;
     failed := failed;
     warnings := warnings;
     results := results;
     summary := summary;
     fixInstructions := fixInstructions |}.

Definition formatForCopilot (report : TestReport) : string :=
  let output := summary report +:+ JS.nl in
  if (0 <? failed report)%nat then
    ((output +:+ (fixInstructions report +:+ JS.nl)) +:+ ("---" +:+ JS.nl))
    +:+ ("Please fix the above issues. After fixing, I can test again to verify."
         +:+ JS.nl)
  else output.

End Reporter.

(** ** Page data ([src/types.ts]) *)

Record ConsoleError := mkConsoleError {
  error_type : string;
  error_text : string;
  error_url : option string;
  error_line : option nat;
}.

Record LinkInfo := mkLinkInfo {
  link_text : string;
  href : string;
  isInternal : bool;
}.

Record FieldInfo := mkFieldInfo {
  field_type : string;
  field_name : string;
  field_id : string;
  placeholder : string;
  required : bool;
  label : string;
}.

Record FormInfo := mkFormInfo {
  action : string;
  method : string;
  fields : list FieldInfo;
  submitButton : option string;
  form_id : option string;
}.

Record ButtonInfo := mkButtonInfo {
  button_text : string;
  button_type : string;
  button_id : string;
  disabled : bool;
  selector : string;
}.

Record PageInfo := mkPageInfo {
  page_url : string;
  title : string;
  links : list LinkInfo;
  forms : list FormInfo;
  buttons : list ButtonInfo;
  errors : list ConsoleError;
  page_screenshot : string;
}.

(** The answer of [BrowserEngine.click]. *)
Record ClickResult := mkClickResult {
  success : bool;
  error : option string;
  newUrl : option string;
}.

(** ** The browser driver ([src/browser/engine.ts])

    The testers only talk to the driver through its methods.  Each
    method is a transition on an abstract world [W]; nothing is assumed
    about how the world answers.  The driver is taken to be launched
    with a page open, so that no method throws. *)

Class BrowserEngine (W : Type) := {
  be_newPage : W -> W;
  be_goto : string -> W -> bool * W;
  be_screenshot : W -> string * W;
  be_getPageInfo : string -> W -> PageInfo * W;
  be_click : string -> W -> ClickResult * W;
  be_fillField : string -> string -> W -> bool * W;
  be_selectOption : string -> string -> W -> bool * W;
  be_getCurrentUrl : W -> string * W;
  be_getConsoleErrors : W -> list ConsoleError * W;
  be_getPageText : W -> string * W;
}.

(** One driver call together with what it answered. *)
Inductive Call :=
| CNewPage
| CGoto (url : string) (loaded : bool)
| CScreenshot
| CGetPageInfo (url : string)
| CClick (selector : string) (ok : bool)
| CFillField (selector value : string) (ok : bool)
| CSelectOption (selector value : string) (ok : bool)
| CGetCurrentUrl
| CGetConsoleErrors
| CGetPageText.

(** A session is the driver's world and the calls made so far. *)
Definition Session (W : Type) : Type := W * list Call.

(** The state monad in which the asynchronous methods run: [await]
    is sequencing. *)
Definition Async (W A : Type) : Type := Session W -> A * Session W.

Definition ret {W A} (a : A) : Async W A := fun s => (a, s).

Definition bind {W A B} (m : Async W A) (k : A -> Async W B) : Async W B :=
  fun s => let (a, s') := m s in k a s'.

Notation "'let!' x := m 'in' k" := (bind m (fun x => k))
  (at level 10, x name, m at level 200, k at level 200).
Notation "'await!' m 'in' k" := (bind m (fun _ => k))
  (at level 10, m at level 200, k at level 200).

(** [for (const x of xs) { acc = body(acc, x) }] *)
Fixpoint for_of {W A S} (xs : list A) (body : S -> A -> Async W S) (acc : S)
    : Async W S :=
  match xs with
  | [] => ret acc
  | x :: rest => let! acc' := body acc x in for_of rest body acc'
  end.

Section Driver.
Context {W : Type} `{BrowserEngine W}.

Definition logged {A} (op : W -> A * W) (ev : A -> Call) : Async W A :=
  fun s => let (a, w') := op (fst s) in (a, (w', snd s ++ [ev a])).

Definition newPage : Async W unit :=
  logged (fun w => (tt, be_newPage w)) (fun _ => CNewPage).
Definition goto (url : string) : Async W bool :=
  logged (be_goto url) (CGoto url).
Definition take_screenshot : Async W string :=
  logged be_screenshot (fun _ => CScreenshot).
Definition getPageInfo (url : string) : Async W PageInfo :=
  logged (be_getPageInfo url) (fun _ => CGetPageInfo url).
Definition click (sel : string) : Async W ClickResult :=
  logged (be_click sel) (fun r => CClick sel (success r)).
Definition fillField (sel value : string) : Async W bool :=
  logged (be_fillField sel value) (CFillField sel value).
Definition selectOption (sel value : string) : Async W bool :=
  logged (be_selectOption sel value) (CSelectOption sel value).
Definition getCurrentUrl : Async W string :=
  logged be_getCurrentUrl (fun _ => CGetCurrentUrl).
Definition getConsoleErrors : Async W (list ConsoleError) :=
  logged be_getConsoleErrors (fun _ => CGetConsoleErrors).
Definition getPageText : Async W string :=
  logged be_getPageText (fun _ => CGetPageText).
End Driver.

(** ** More string primitives used by the crawler *)

Module JSText.

Definition is_space (c : ascii) : bool :=
  let n := nat_of_ascii c in
  ((9 <=? n)%nat && (n <=? 13)%nat) || (n =? 32)%nat.

Fixpoint trimStart (s : string) : string :=
  match s with
  | EmptyString => EmptyString
  | String c rest => if is_space c then trimStart rest else s
  end.

Fixpoint trimEnd (s : string) : string :=
  match s with
  | EmptyString => EmptyString
  | String c rest =>
      match trimEnd rest with
      | EmptyString => if is_space c then EmptyString else String c EmptyString
      | rest' => String c rest'
      end
  end.

(** [s.trim()] *)
Definition trim (s : string) : string := trimEnd (trimStart s).

(** [s.indexOf(k)], with [None] for [-1]. *)
Definition indexOf (s k : string) : option nat := String.index 0 k s.

(** [s.substring(a, b)] for [a <= b]. *)
Definition substring (a b : nat) (s : string) : string :=
  String.substring a (b - a) s.

(** [s.replace(/\/$/, "")]: one slash at the very end is dropped. *)
Fixpoint dropTrailingSlash (s : string) : string :=
  match s with
  | EmptyString => EmptyString
  | String c EmptyString =>
      if Ascii.eqb c "/" then EmptyString else s
  | String c rest => String c (dropTrailingSlash rest)
  end.

End JSText.

(** ** The platform's [URL] class

    Only [origin] and [pathname] are read.  [new URL(s)] either
    succeeds or throws; the constructor is an argument of the crawler. *)

Record URL := mkURL {
  origin : string;
  pathname : string;
}.

(** ** NavigationTester ([src/tester/navigator.ts]) *)

Module NavigationTester.

(** The local variables of [discoverAndTestPages] that live across
    iterations of its [while] loop. *)
Record CrawlState := mkCrawlState {
  st_results : list TestResult;
  st_pages : list PageInfo;
  visited : gset string;
  toVisit : list string;
}.

Definition MAX_PAGES : nat := 10.

Definition errorIndicators : list string :=
  [ "cannot read properties";
    "is not defined";
    "unexpected token";
    "module not found";
    "404";
    "500 internal server error";
    "something went wrong";
    "error boundary";
    "unhandled runtime error" ].

Definition extractContext (text keyword : string) : string :=
  let lower := JS.toLowerCase text in
  match JSText.indexOf lower keyword with
  | None => EmptyString
  | Some idx =>
      let start := Nat.max 0 (idx - 50) in
      let end_ := Nat.min (String.length text) (idx + String.length keyword + 50) in
      "..." +:+ JSText.substring start end_ text +:+ "..."
  end.

Definition is_critical (e : ConsoleError) : bool :=
  String.eqb (error_type e) "page-error"
  || String.eqb (error_type e) "console-error".

Definition is_network (e : ConsoleError) : bool :=
  String.eqb (error_type e) "network-error".

Section Crawler.
Context {W : Type} `{BrowserEngine W}.
(** [new URL(s)], with [None] when it throws. *)
Variable newURL : string -> option URL.

Definition normalizeUrl (url : string) : string :=
  match newURL url with
  | Some u => JSText.dropTrailingSlash (origin u +:+ pathname u)
  | None => url
  end.

(** The checks on a page that did load. *)
Definition console_checks (url : string) (pageInfo : PageInfo)
    (results : list TestResult) : list TestResult :=
  if (0 <? length (errors pageInfo))%nat then
    let criticalErrors := List.filter is_critical (errors pageInfo) in
    let results :=
      if (0 <? length criticalErrors)%nat then
        results ++
        [ {| page := url;
             test := "console-errors";
             status := Fail;
             message := "Page has " +:+ JS.num (length criticalErrors)
                        +:+ " console error(s)";
             screenshot := None;
             details := Some (JS.join JS.nl (map error_text criticalErrors)) |} ]
      else results in
    let networkErrors := List.filter is_network (errors pageInfo) in
    if (0 <? length networkErrors)%nat then
      results ++
      [ {| page := url;
           test := "network-errors";
           status := Warning;
           message := JS.num (length networkErrors)
                      +:+ " failed network request(s)";
           screenshot := None;
           details := Some (JS.join JS.nl (map error_text networkErrors)) |} ]
    else results
  else results.

Definition content_check (url : string) (pageInfo : PageInfo)
    (bodyText : string) (results : list TestResult) : list TestResult :=
  if negb (JS.truthy bodyText)
     || (String.length (JSText.trim bodyText) <? 10)%nat then
    results ++
    [ {| page := url;
         test := "has-content";
         status := Fail;
         message := "Page appears empty or has very little content";
         screenshot := None;
         details := None |} ]
  else
    results ++
    [ {| page := url;
         test := "page-load";
         status := Pass;
         message := "Page loaded successfully: " +:+ JS.dquote
                    +:+ title pageInfo +:+ JS.dquote;
         screenshot := Some (page_screenshot pageInfo);
         details := None |} ].

Definition error_text_check (url bodyText : string)
    (results : list TestResult) : list TestResult :=
  let lowerText := JS.toLowerCase bodyText in
  match List.find (fun indicator => JS.includes lowerText indicator)
                  errorIndicators with
  | Some indicator =>
      results ++
      [ {| page := url;
           test := "error-text-check";
           status := Fail;
           message := "Page contains error text: " +:+ JS.dquote
                      +:+ indicator +:+ JS.dquote;
           screenshot := None;
           details := Some (extractContext bodyText indicator) |} ]
  | None => results
  end.

(** Queue internal links for visiting. *)
Definition queue_links (visited : gset string) (links : list LinkInfo)
    (toVisit : list string) : list string :=
  fold_left
    (fun toVisit link =>
       if isInternal link
          && negb (bool_decide (normalizeUrl (href link) ∈ visited))
       then toVisit ++ [href link]
       else toVisit)
    links toVisit.

(** One pass through the body of the [while] loop.  The loop guard
    keeps the queue non-empty, so [shift] always answers a URL. *)
Definition crawl_body (st : CrawlState) : Async W CrawlState :=
  match toVisit st with
  | [] => ret st
  | url :: toVisit =>
      let normalizedUrl := normalizeUrl url in
      if bool_decide (normalizedUrl ∈ visited st) then
        ret {| st_results := st_results st; st_pages := st_pages st;
               visited := visited st; toVisit := toVisit |}
      else
        let visited := {[ normalizedUrl ]} ∪ visited st in
        await! newPage in
        let! loaded := goto url in
        if negb loaded then
          ret {| st_results :=
                   st_results st ++
                   [ {| page := url;
                        test := "page-load";
                        status := Fail;
                        message := "Page failed to load: " +:+ url;
                        screenshot := None;
                        details := None |} ];
                 st_pages := st_pages st;
                 visited := visited;
                 toVisit := toVisit |}
        else
          let! pageInfo := getPageInfo url in
          let pages := st_pages st ++ [pageInfo] in
          let results := console_checks url pageInfo (st_results st) in
          let! bodyText := getPageText in
          let results := content_check url pageInfo bodyText results in
          let results := error_text_check url bodyText results in
          ret {| st_results := results;
                 st_pages := pages;
                 visited := visited;
                 toVisit := queue_links visited (links pageInfo) toVisit |}
  end.

(** [toVisit.length > 0 && visited.size < MAX_PAGES] *)
Definition crawl_guard (st : CrawlState) : bool :=
  (0 <? length (toVisit st))%nat && (size (visited st) <? MAX_PAGES)%nat.

(** The [while] loop; [None] when the fuel runs out first. *)
Fixpoint crawl_loop (fuel : nat) (st : CrawlState)
    : Async W (option CrawlState) :=
  match fuel with
  | O => ret None
  | S fuel =>
      if crawl_guard st then
        let! st' := crawl_body st in crawl_loop fuel st'
      else ret (Some st)
  end.

Definition initial (baseUrl : string) : CrawlState :=
  {| st_results := []; st_pages := []; visited := ∅; toVisit := [baseUrl] |}.

Definition discoverAndTestPages (fuel : nat) (baseUrl : string)
    : Async W (option (list TestResult * list PageInfo)) :=
  let! st := crawl_loop fuel (initial baseUrl) in
  ret (option_map (fun st => (st_results st, st_pages st)) st).

End Crawler.

End NavigationTester.

(** ** ClickTester ([src/tester/clickTester.ts]) *)

Module ClickTester.

Definition testable (b : ButtonInfo) : bool :=
  negb (String.eqb (button_type b) "submit")
  && negb (disabled b)
  && (0 <? String.length (button_text b))%nat.

Definition test_id (button : ButtonInfo) : string :=
  "click-button-" +:+ JS.dquote +:+ button_text button +:+ JS.dquote.

Section Clicks.
Context {W : Type} `{BrowserEngine W}.

(** The body of the loop over the testable buttons. *)
Definition testButton (pageUrl : string) (results : list TestResult)
    (button : ButtonInfo) : Async W (list TestResult) :=
  await! goto pageUrl in
  let! before := getConsoleErrors in
  let errorsBefore := length before in
  let! clickResult := click (selector button) in
  if negb (success clickResult) then
    ret (results ++
         [ {| page := pageUrl;
              test := test_id button;
              status := Fail;
              message := "Button " +:+ JS.dquote +:+ button_text button
                         +:+ JS.dquote +:+ " could not be clicked";
              screenshot := None;
              details := error clickResult |} ])
  else
    let! errorsAfter := getConsoleErrors in
    let newErrors := JS.slice errorsBefore errorsAfter in
    if (0 <? length newErrors)%nat then
      let! shot := take_screenshot in
      ret (results ++
           [ {| page := pageUrl;
                test := test_id button;
                status := Fail;
                message := "Clicking " +:+ JS.dquote +:+ button_text button
                           +:+ JS.dquote +:+ " caused "
                           +:+ JS.num (length newErrors) +:+ " error(s)";
                screenshot := Some shot;
                details := Some (JS.join JS.nl (map error_text newErrors)) |} ])
    else
      ret (results ++
           [ {| page := pageUrl;
                test := test_id button;
                status := Pass;
                message := "Button " +:+ JS.dquote +:+ button_text button
                           +:+ JS.dquote +:+ " clicked successfully"
                           +:+ (if JS.truthy_opt (newUrl clickResult)
                                then " (navigated to "
                                     +:+ default EmptyString (newUrl clickResult)
                                     +:+ ")"
                                else EmptyString);
                screenshot := None;
                details := None |} ]).

Definition testButtons (pageUrl : string) (buttons : list ButtonInfo)
    : Async W (list TestResult) :=
  let results := [] in
  let testableButtons := List.filter testable buttons in
  if (length testableButtons =? 0)%nat then ret results
  else for_of testableButtons (testButton pageUrl) results.

End Clicks.

End ClickTester.

(** ** FormTester ([src/tester/formTester.ts]) *)

Module FormTester.

(** Test data generators.  The object is used as a map from input
    kinds to values. *)
Definition TEST_DATA : gmap string string :=
  list_to_map
    [ ("email", "testuser@example.com");
      ("password", "TestPass123!");
      ("text", "Test input value");
      ("name", "John Doe");
      ("tel", "1234567890");
      ("phone", "1234567890");
      ("number", "42");
      ("url", "https://example.com");
      ("search", "test search query");
      ("date", "2024-01-15");
      ("color", "#ff0000") ].

(** [TEST_DATA.key] for a key written in the source. *)
Definition TEST_DATA_at (key : string) : string :=
  default EmptyString (TEST_DATA !! key).

Definition identifier_of (field : FieldInfo) : string :=
  JS.toLowerCase
    (field_name field +:+ " " +:+ label field +:+ " " +:+ placeholder field).

Definition getTestValue (field : FieldInfo) : string :=
  let identifier := identifier_of field in
  if JS.includes identifier "email" then TEST_DATA_at "email"
  else if JS.includes identifier "password" || JS.includes identifier "pass"
  then TEST_DATA_at "password"
  else if JS.includes identifier "name" || JS.includes identifier "first"
          || JS.includes identifier "last"
  then TEST_DATA_at "name"
  else if JS.includes identifier "phone" || JS.includes identifier "tel"
  then TEST_DATA_at "tel"
  else if JS.includes identifier "url" || JS.includes identifier "website"
  then TEST_DATA_at "url"
  else if JS.includes identifier "search" then TEST_DATA_at "search"
  else if JS.includes identifier "date" then TEST_DATA_at "date"
  else
    match TEST_DATA !! field_type field with
    | Some v => JS.or_else v (TEST_DATA_at "text")
    | None => TEST_DATA_at "text"
    end.

(** [form.id || `form-${i + 1}`] *)
Definition formId_of (i : nat) (form : FormInfo) : string :=
  JS.or_else (default EmptyString (form_id form)) ("form-" +:+ JS.num (i + 1)).

(** The selector of a field: by id, else by name, else [null]. *)
Definition selector_of (field : FieldInfo) : option string :=
  if JS.truthy (field_id field) then Some ("#" +:+ field_id field)
  else if JS.truthy (field_name field)
  then Some ("[name=" +:+ JS.dquote +:+ field_name field +:+ JS.dquote +:+ "]")
  else None.

Definition is_skipped (field : FieldInfo) : bool :=
  String.eqb (field_type field) "hidden" || String.eqb (field_type field) "submit".

Definition is_select (field : FieldInfo) : bool :=
  String.eqb (field_type field) "select"
  || String.eqb (field_type field) "select-one".

Definition is_toggle (field : FieldInfo) : bool :=
  String.eqb (field_type field) "checkbox"
  || String.eqb (field_type field) "radio".

(** The two locals updated by the loop over the fields. *)
Record FillState := mkFillState {
  allFieldsFilled : bool;
  fieldErrors : list string;
}.

Definition field_failed (st : FillState) (msg : string) : FillState :=
  {| allFieldsFilled := false; fieldErrors := fieldErrors st ++ [msg] |}.

Definition submit_selector_both (i : nat) (form : FormInfo) : string :=
  let id := default EmptyString (form_id form) in
  if JS.truthy id then
    "#" +:+ id +:+ " button[type=" +:+ JS.dquote +:+ "submit" +:+ JS.dquote
    +:+ "], #" +:+ id +:+ " input[type=" +:+ JS.dquote +:+ "submit"
    +:+ JS.dquote +:+ "]"
  else
    "form:nth-of-type(" +:+ JS.num (i + 1) +:+ ") button[type=" +:+ JS.dquote
    +:+ "submit" +:+ JS.dquote +:+ "], form:nth-of-type(" +:+ JS.num (i + 1)
    +:+ ") input[type=" +:+ JS.dquote +:+ "submit" +:+ JS.dquote +:+ "]".

Definition submit_selector_button (i : nat) (form : FormInfo) : string :=
  let id := default EmptyString (form_id form) in
  if JS.truthy id then
    "#" +:+ id +:+ " button[type=" +:+ JS.dquote +:+ "submit" +:+ JS.dquote
    +:+ "], #" +:+ id +:+ " input[type=" +:+ JS.dquote +:+ "submit"
    +:+ JS.dquote +:+ "]"
  else
    "form:nth-of-type(" +:+ JS.num (i + 1) +:+ ") button[type=" +:+ JS.dquote
    +:+ "submit" +:+ JS.dquote +:+ "]".

Definition quoted (s : string) : string := JS.dquote +:+ s +:+ JS.dquote.

Section Forms.
Context {W : Type} `{BrowserEngine W}.

(** The body of [for (const field of form.fields)]. *)
Definition fill_one (st : FillState) (field : FieldInfo) : Async W FillState :=
  if is_skipped field then ret st
  else
    match selector_of field with
    | None =>
        ret (field_failed st
               ("Could not find selector for field: "
                +:+ JS.or_else (label field)
                      (JS.or_else (field_name field) "unknown")))
    | Some selector =>
        if is_select field then
          let! selected := selectOption selector EmptyString in
          if negb selected then
            ret (field_failed st
                   ("Could not interact with select: " +:+ selector))
          else ret st
        else if is_toggle field then
          let! clicked := click selector in
          if negb (success clicked) then
            ret (field_failed st
                   ("Could not click " +:+ field_type field +:+ ": "
                    +:+ selector))
          else ret st
        else
          let testValue := getTestValue field in
          let! filled := fillField selector testValue in
          if negb filled then
            ret (field_failed st
                   ("Could not fill field: " +:+ selector +:+ " ("
                    +:+ JS.or_else (label field) (field_name field) +:+ ")"))
          else ret st
    end.

(** Test 2, from the fresh navigation to the fill outcome. *)
Definition fill_phase (pageUrl formId : string) (form : FormInfo)
    (results : list TestResult) : Async W (list TestResult) :=
  await! goto pageUrl in
  let! st := for_of (fields form) fill_one
               {| allFieldsFilled := true; fieldErrors := [] |} in
  if allFieldsFilled st then
    ret (results ++
         [ {| page := pageUrl;
              test := formId +:+ "-fill";
              status := Pass;
              message := "All fields in " +:+ quoted formId
                         +:+ " were filled successfully";
              screenshot := None;
              details := None |} ])
  else
    ret (results ++
         [ {| page := pageUrl;
              test := formId +:+ "-fill";
              status := Fail;
              message := "Some fields in " +:+ quoted formId
                         +:+ " could not be filled";
              screenshot := None;
              details := Some (JS.join JS.nl (fieldErrors st)) |} ]).

(** Test 3: submit the form. *)
Definition submit_phase (pageUrl formId : string) (i : nat) (form : FormInfo)
    (results : list TestResult) : Async W (list TestResult) :=
  if JS.truthy_opt (submitButton form) then
    let submitSelector := submit_selector_both i form in
    let! before := getConsoleErrors in
    let errorsBefore := length before in
    let! clickResult := click submitSelector in
    if negb (success clickResult) then
      ret (results ++
           [ {| page := pageUrl;
                test := formId +:+ "-submit";
                status := Fail;
                message := "Could not click submit button for "
                           +:+ quoted formId;
                screenshot := None;
                details := error clickResult |} ])
    else
      let! errorsAfter := getConsoleErrors in
      let newErrors := JS.slice errorsBefore errorsAfter in
      if (0 <? length newErrors)%nat then
        let! shot := take_screenshot in
        ret (results ++
             [ {| page := pageUrl;
                  test := formId +:+ "-submit";
                  status := Fail;
                  message := "Form " +:+ quoted formId
                             +:+ " submission caused "
                             +:+ JS.num (length newErrors) +:+ " error(s)";
                  screenshot := Some shot;
                  details :=
                    Some (JS.join JS.nl (map error_text newErrors)) |} ])
      else
        let! shot := take_screenshot in
        ret (results ++
             [ {| page := pageUrl;
                  test := formId +:+ "-submit";
                  status := Pass;
                  message := "Form " +:+ quoted formId
                             +:+ " submitted without errors";
                  screenshot := Some shot;
                  details := None |} ])
  else ret results.

(** Test 4: submit the empty form. *)
Definition validation_phase (pageUrl formId : string) (i : nat)
    (form : FormInfo) (results : list TestResult)
    : Async W (list TestResult) :=
  await! goto pageUrl in
  let requiredFields := List.filter required (fields form) in
  if (0 <? length requiredFields)%nat && JS.truthy_opt (submitButton form)
  then
    let submitSelector := submit_selector_button i form in
    await! click submitSelector in
    let! currentUrl := getCurrentUrl in
    if String.eqb currentUrl pageUrl || String.eqb currentUrl (pageUrl +:+ "/")
    then
      ret (results ++
           [ {| page := pageUrl;
                test := formId +:+ "-validation";
                status := Pass;
                message := "Form " +:+ quoted formId
                           +:+ " correctly blocks empty submission (has required fields)";
                screenshot := None;
                details := None |} ])
    else
      ret (results ++
           [ {| page := pageUrl;
                test := formId +:+ "-validation";
                status := Warning;
                message := "Form " +:+ quoted formId
                           +:+ " has required fields but submitted empty (validation may be missing)";
                screenshot := None;
                details := None |} ])
  else ret results.

(** The body of [for (let i = 0; i < forms.length; i++)]. *)
Definition testForm (pageUrl : string) (i : nat) (form : FormInfo)
    (results : list TestResult) : Async W (list TestResult) :=
  let formId := formId_of i form in
  let results :=
    if negb (JS.truthy_opt (submitButton form))
       && (0 <? length (fields form))%nat
    then
      results ++
      [ {| page := pageUrl;
           test := formId +:+ "-submit-button";
           status := Warning;
           message := "Form " +:+ quoted formId
                      +:+ " has no visible submit button";
           screenshot := None;
           details := None |} ]
    else results in
  if (length (fields form) =? 0)%nat then
    ret (results ++
         [ {| page := pageUrl;
              test := formId +:+ "-fields";
              status := Warning;
              message := "Form " +:+ quoted formId +:+ " has no input fields";
              screenshot := None;
              details := None |} ])
  else
    let! results := fill_phase pageUrl formId form results in
    let! results := submit_phase pageUrl formId i form results in
    validation_phase pageUrl formId i form results.

Fixpoint forms_loop (pageUrl : string) (i : nat) (forms : list FormInfo)
    (results : list TestResult) : Async W (list TestResult) :=
  match forms with
  | [] => ret results
  | form :: rest =>
      let! results := testForm pageUrl i form results in
      forms_loop pageUrl (S i) rest results
  end.

Definition testForms (pageUrl : string) (forms : list FormInfo)
    : Async W (list TestResult) :=
  let results := [] in
  if (length forms =? 0)%nat then
    ret (results ++
         [ {| page := pageUrl;
              test := "form-presence";
              status := Pass;
              message := "No forms found on page (nothing to test)";
              screenshot := None;
              details := None |} ])
  else forms_loop pageUrl 0 forms results.

End Forms.

End FormTester.

(** ** VisualChecker.checkOverlaps ([src/tester/visualChecker.ts])

    The function runs inside the page over the elements matched by
    [button, a, input, select, textarea]; an element is its tag name,
    its id and the rectangle [getBoundingClientRect] answers.
    Coordinates are integers. *)

Module VisualChecker.

Record DOMRect := mkDOMRect {
  left : Z;
  right : Z;
  top : Z;
  bottom : Z;
  width : Z;
  height : Z;
}.

Record Element := mkElement {
  tagName : string;
  el_id : string;
  getBoundingClientRect : DOMRect;
}.

Definition zero_area (r1 r2 : DOMRect) : bool :=
  (width r1 =? 0)%Z || (height r1 =? 0)%Z
  || (width r2 =? 0)%Z || (height r2 =? 0)%Z.

Definition overlap (r1 r2 : DOMRect) : bool :=
  (left r1 <? right r2)%Z && (right r1 >? left r2)%Z
  && (top r1 <? bottom r2)%Z && (bottom r1 >? top r2)%Z.

Definition describe (e : Element) : string :=
  tagName e +:+ (if JS.truthy (el_id e) then "#" +:+ el_id e else EmptyString).

(** The body of the inner loop, for the pair [(e1, e2)]. *)
Definition check_pair (e1 : Element) (overlaps : list string) (e2 : Element)
    : list string :=
  let r1 := getBoundingClientRect e1 in
  let r2 := getBoundingClientRect e2 in
  if zero_area r1 r2 then overlaps
  else if overlap r1 r2 then
    overlaps ++ [describe e1 +:+ " overlaps with " +:+ describe e2]
  else overlaps.

(** The outer loop: [els] are the elements from index [i] on; the
    inner loop runs over those after the first. *)
Fixpoint overlaps_from (els : list Element) (overlaps : list string)
    : list string :=
  match els with
  | [] => overlaps
  | e1 :: rest =>
      let overlaps := fold_left (check_pair e1) rest overlaps in
      if (5 <? length overlaps)%nat then overlaps
      else overlaps_from rest overlaps
  end.

Definition checkOverlaps (interactiveEls : list Element) : list string :=
  overlaps_from interactiveEls [].

End VisualChecker.

(** ** A model of [new URL] on plain http(s) URLs

    The platform's parser is not part of the repository.  This model
    covers the URLs whose serialisation is the input itself:
    [http://] or [https://], a host of dot-separated labels of
    lower-case letters, an optional four-digit port, and a path of letters, digits and
    [/ - _ ~], followed by an optional query or fragment.  On these the
    platform answers the origin and the path unchanged (an absent path
    is [/]).  Every other string is outside the model and answered with
    [None].  The model stands in for the parser where a run needs one;
    what is proved of the normalisation is proved for every parser. *)

Module UrlModel.

Definition in_range (lo hi : nat) (c : ascii) : bool :=
  (lo <=? nat_of_ascii c)%nat && (nat_of_ascii c <=? hi)%nat.

Definition is_lower : ascii -> bool := in_range 97 122.
Definition is_upper : ascii -> bool := in_range 65 90.
Definition is_digit : ascii -> bool := in_range 48 57.

Definition host_char (c : ascii) : bool := is_lower c || Ascii.eqb c ".".

Definition path_char (c : ascii) : bool :=
  is_lower c || is_upper c || is_digit c
  || Ascii.eqb c "/" || Ascii.eqb c "-" || Ascii.eqb c "_" || Ascii.eqb c "~".

(** The characters that end the authority, and those that end the path. *)
Definition ends_authority (c : ascii) : bool :=
  Ascii.eqb c "/" || Ascii.eqb c "?" || Ascii.eqb c "#".
Definition ends_path (c : ascii) : bool :=
  Ascii.eqb c "?" || Ascii.eqb c "#".

(** The longest prefix of characters satisfying [p], and the rest. *)
Fixpoint span (p : ascii -> bool) (s : string) : string * string :=
  match s with
  | EmptyString => (EmptyString, EmptyString)
  | String c rest =>
      if p c then let (a, b) := span p rest in (String c a, b)
      else (EmptyString, s)
  end.

Fixpoint all (p : ascii -> bool) (s : string) : bool :=
  match s with
  | EmptyString => true
  | String c rest => p c && all p rest
  end.

Fixpoint strip_prefix (p s : string) : option string :=
  match p, s with
  | EmptyString, _ => Some s
  | String a p', String b s' => if Ascii.eqb a b then strip_prefix p' s' else None
  | String _ _, EmptyString => None
  end.

Definition scheme_of (s : string) : option (string * string) :=
  match strip_prefix "https://" s with
  | Some rest => Some ("https://", rest)
  | None =>
      match strip_prefix "http://" s with
      | Some rest => Some ("http://", rest)
      | None => None
      end
  end.

(** Every dot of a host stands between two letters. *)
Fixpoint dotted (after_dot : bool) (s : string) : bool :=
  match s with
  | EmptyString => negb after_dot
  | String c rest =>
      if Ascii.eqb c "." then negb after_dot && dotted true rest
      else dotted false rest
  end.

(** Four digits, the first not [0]: never a default port. *)
Definition valid_port (p : string) : bool :=
  match p with
  | String a (String b (String c (String d EmptyString))) =>
      in_range 49 57 a && is_digit b && is_digit c && is_digit d
  | _ => false
  end.

Definition valid_authority (a : string) : bool :=
  let (host, rest) := span host_char a in
  dotted true host
  && match rest with
     | EmptyString => true
     | String c port => Ascii.eqb c ":" && valid_port port
     end.

Definition newURL (s : string) : option URL :=
  match scheme_of s with
  | None => None
  | Some (scheme, rest) =>
      let (authority, rest) := span (fun c => negb (ends_authority c)) rest in
      let (path, _) := span (fun c => negb (ends_path c)) rest in
      if valid_authority authority && all path_char path then
        Some {| origin := scheme +:+ authority;
                pathname := JS.or_else path "/" |}
      else None
  end.

End UrlModel.

(** [s.endsWith(suffix)] *)
Fixpoint endsWith (s suffix : string) : bool :=
  String.eqb s suffix
  || match s with
     | EmptyString => false
     | String _ rest => endsWith rest suffix
     end.

(** ** A static site as a driver

    A test double for the driver: pages are looked up by URL, every
    page lists what loading it logs, which selectors can be clicked
    (and what the click logs), and which can be filled or selected. *)

Module StaticSite.

Record SitePage := mkSitePage {
  sp_title : string;
  sp_text : string;
  sp_links : list LinkInfo;
  sp_forms : list FormInfo;
  sp_buttons : list ButtonInfo;
  sp_load_errors : list ConsoleError;
  sp_clickable : list (string * list ConsoleError);
  sp_fillable : list string;
}.

Record World := mkWorld {
  site : list (string * SitePage);
  current : option string;
  consoleErrors : list ConsoleError;
}.

Fixpoint assoc {A} (k : string) (xs : list (string * A)) : option A :=
  match xs with
  | [] => None
  | (k', v) :: rest => if String.eqb k k' then Some v else assoc k rest
  end.

Definition current_page (w : World) : option SitePage :=
  match current w with
  | Some u => assoc u (site w)
  | None => None
  end.

Definition log (w : World) (es : list ConsoleError) : World :=
  {| site := site w; current := current w;
     consoleErrors := consoleErrors w ++ es |}.

Definition site_newPage (w : World) : World :=
  {| site := site w; current := None; consoleErrors := [] |}.

Definition site_goto (url : string) (w : World) : bool * World :=
  match assoc url (site w) with
  | Some p =>
      (true, {| site := site w; current := Some url;
                consoleErrors := consoleErrors w ++ sp_load_errors p |})
  | None =>
      (false, log w [ {| error_type := "navigation-error";
                         error_text := "Failed to navigate to " +:+ url;
                         error_url := Some url;
                         error_line := None |} ])
  end.

Definition site_getPageInfo (url : string) (w : World) : PageInfo * World :=
  match current_page w with
  | Some p =>
      ({| page_url := url; title := sp_title p; links := sp_links p;
          forms := sp_forms p; buttons := sp_buttons p;
          errors := consoleErrors w; page_screenshot := "shot" |}, w)
  | None =>
      ({| page_url := url; title := EmptyString; links := []; forms := [];
          buttons := []; errors := consoleErrors w;
          page_screenshot := "shot" |}, w)
  end.

Definition no_element : ClickResult :=
  {| success := false; error := Some "waiting for selector failed";
     newUrl := None |}.

Definition site_click (sel : string) (w : World) : ClickResult * World :=
  match current_page w with
  | Some p =>
      match assoc sel (sp_clickable p) with
      | Some es => ({| success := true; error := None; newUrl := None |}, log w es)
      | None => (no_element, w)
      end
  | None => (no_element, w)
  end.

Definition can_fill (sel : string) (w : World) : bool :=
  match current_page w with
  | Some p => existsb (String.eqb sel) (sp_fillable p)
  | None => false
  end.

#[global] Instance site_engine : BrowserEngine World := {|
  be_newPage := site_newPage;
  be_goto := site_goto;
  be_screenshot := fun w => ("shot", w);
  be_getPageInfo := site_getPageInfo;
  be_click := site_click;
  be_fillField := fun sel _ w => (can_fill sel w, w);
  be_selectOption := fun sel _ w => (can_fill sel w, w);
  be_getCurrentUrl := fun w => (default EmptyString (current w), w);
  be_getConsoleErrors := fun w => (consoleErrors w, w);
  be_getPageText :=
    fun w => (match current_page w with
              | Some p => sp_text p
              | None => EmptyString
              end, w);
|}.

Definition blank_page : SitePage :=
  {| sp_title := "Home"; sp_text := "Welcome to the example site";
     sp_links := []; sp_forms := []; sp_buttons := [];
     sp_load_errors := []; sp_clickable := []; sp_fillable := [] |}.

Definition start (pages : list (string * SitePage)) : Session World :=
  ({| site := pages; current := None; consoleErrors := [] |}, []).

End StaticSite.

(** ** Definitions used to state the properties *)

Module Spec.

(** The number of outcomes with a given status. *)
Fixpoint tally (s : Status) (rs : list TestResult) : nat :=
  match rs with
  | [] => 0
  | r :: rest => (if Status_eqb (status r) s then 1 else 0) + tally s rest
  end.

Definition concat_all (xs : list string) : string :=
  fold_right String.append EmptyString xs.

(** The two sections of the summary, heading included. *)
Definition failuresSection (rs : list TestResult) : string :=
  Reporter.failuresHeading
  +:+ concat_all (map (fun r => Reporter.bullet r +:+ Reporter.fenced r)
                      (Reporter.with_status Fail rs))
  +:+ JS.nl.

Definition warningsSection (rs : list TestResult) : string :=
  Reporter.warningsHeading
  +:+ concat_all (map Reporter.bullet (Reporter.with_status Warning rs))
  +:+ JS.nl.

(** The summary in the words of the specification: the success
    sentence alone when nothing failed or warned, otherwise the
    failures section followed by the warnings section. *)
Definition summary_as_stated (url : string) (rs : list TestResult) : string :=
  let p := tally Pass rs in
  let f := tally Fail rs in
  let w := tally Warning rs in
  if (f =? 0)%nat && (w =? 0)%nat then
    Reporter.header url p f w +:+ Reporter.successSentence
  else
    Reporter.header url p f w +:+ failuresSection rs +:+ warningsSection rs.

(** The summary with each section present only when it has entries. *)
Definition summary_by_sections (url : string) (rs : list TestResult) : string :=
  let p := tally Pass rs in
  let f := tally Fail rs in
  let w := tally Warning rs in
  if (f =? 0)%nat && (w =? 0)%nat then
    Reporter.header url p f w +:+ Reporter.successSentence
  else
    Reporter.header url p f w
    +:+ (if (0 <? f)%nat then failuresSection rs else EmptyString)
    +:+ (if (0 <? w)%nat then warningsSection rs else EmptyString).

(** The URLs navigated to, in order, and those that loaded. *)
Fixpoint gotos (calls : list Call) : list string :=
  match calls with
  | [] => []
  | CGoto url _ :: rest => url :: gotos rest
  | _ :: rest => gotos rest
  end.

Fixpoint loaded_gotos (calls : list Call) : list string :=
  match calls with
  | [] => []
  | CGoto url true :: rest => url :: loaded_gotos rest
  | _ :: rest => loaded_gotos rest
  end.

(** The interactions with a form field. *)
Inductive Action :=
| Select (selector value : string)
| Click (selector : string)
| Fill (selector value : string).

Definition action_of_call (c : Call) : option Action :=
  match c with
  | CSelectOption sel v _ => Some (Select sel v)
  | CClick sel _ => Some (Click sel)
  | CFillField sel v _ => Some (Fill sel v)
  | _ => None
  end.

Definition actions (calls : list Call) : list Action :=
  omap action_of_call calls.

(** What an action is, apart from the element it addresses. *)
Inductive ActionKind := Selecting | Clicking | Filling (value : string).

Definition kind_of (a : Action) : ActionKind :=
  match a with
  | Select _ _ => Selecting
  | Click _ => Clicking
  | Fill _ v => Filling v
  end.

(** The kind of action the fill phase has for a field. *)
Definition kind_for (field : FieldInfo) : ActionKind :=
  if FormTester.is_select field then Selecting
  else if FormTester.is_toggle field then Clicking
  else Filling (FormTester.getTestValue field).

(** The action for a field that is exercised and can be addressed. *)
Definition action_for (field : FieldInfo) : option Action :=
  if FormTester.is_skipped field then None
  else
    match FormTester.selector_of field with
    | None => None
    | Some sel =>
        Some (match kind_for field with
              | Selecting => Select sel EmptyString
              | Clicking => Click sel
              | Filling v => Fill sel v
              end)
    end.

(** The matcher in the words of the specification: an ordered list of
    keyword rules, the first rule with a keyword in the identifier
    wins; then the table keyed by type; then the generic text. *)
Definition canonical_email : string := "testuser@example.com".
Definition generic_text : string := "Test input value".

Definition keyword_rules : list (list string * string) :=
  [ (["email"], canonical_email);
    (["password"; "pass"], "TestPass123!");
    (["name"; "first"; "last"], "John Doe");
    (["phone"; "tel"], "1234567890");
    (["url"; "website"], "https://example.com");
    (["search"], "test search query");
    (["date"], "2024-01-15") ].

Definition rule_matches (identifier : string) (rule : list string * string)
    : bool :=
  existsb (JS.includes identifier) (fst rule).

Definition matcher (field : FieldInfo) : string :=
  let identifier :=
    JS.toLowerCase
      (field_name field +:+ " " +:+ label field +:+ " " +:+ placeholder field) in
  match List.find (rule_matches identifier) keyword_rules with
  | Some rule => snd rule
  | None =>
      match FormTester.TEST_DATA !! field_type field with
      | Some v => v
      | None => generic_text
      end
  end.

(** The pair behind a line reported by the overlap check. *)
Definition reported (els : list VisualChecker.Element) (line : string) : Prop :=
  exists e1 e2 : VisualChecker.Element,
    In e1 els /\ In e2 els
    /\ line = VisualChecker.describe e1 +:+ " overlaps with "
              +:+ VisualChecker.describe e2
    /\ VisualChecker.zero_area (VisualChecker.getBoundingClientRect e1)
                               (VisualChecker.getBoundingClientRect e2) = false
    /\ VisualChecker.overlap (VisualChecker.getBoundingClientRect e1)
                             (VisualChecker.getBoundingClientRect e2) = true.

(** What holds of the crawler's state after the driver calls [calls]:
    the visited set is exactly the normalised URLs navigated to, loaded
    or not; none was navigated to twice; there is one page per loaded
    navigation; and the cap is respected. *)
Definition crawled (normalize : string -> string) (calls : list Call)
    (st : NavigationTester.CrawlState) : Prop :=
  NavigationTester.visited st = list_to_set (map normalize (gotos calls))
  /\ NoDup (map normalize (gotos calls))
  /\ length (NavigationTester.st_pages st) = length (loaded_gotos calls)
  /\ size (NavigationTester.visited st) <= NavigationTester.MAX_PAGES.

End Spec.

(** ** Concrete inputs *)

Module Examples.

Definition outcome (t : string) (s : Status) : TestResult :=
  {| page := "http://localhost:3000"; test := t; status := s;
     message := "checked"; screenshot := None; details := None |}.

(** One failure and no warning. *)
Definition one_failure : list TestResult := [outcome "page-load" Fail].

(** A page whose load logs two console errors and whose button
    [#boom] logs three more when clicked. *)
Definition err (t : string) : ConsoleError :=
  {| error_type := "console-error"; error_text := t; error_url := None;
     error_line := None |}.

Definition boom : ButtonInfo :=
  {| button_text := "Boom"; button_type := "button"; button_id := "boom";
     disabled := false; selector := "#boom" |}.

Definition quiet : ButtonInfo :=
  {| button_text := "Quiet"; button_type := "button"; button_id := "quiet";
     disabled := false; selector := "#quiet" |}.

Definition noisy_page : StaticSite.SitePage :=
  {| StaticSite.sp_title := "Noisy";
     StaticSite.sp_text := "A page with two buttons";
     StaticSite.sp_links := [];
     StaticSite.sp_forms := [];
     StaticSite.sp_buttons := [boom; quiet];
     StaticSite.sp_load_errors := [err "first"; err "second"];
     StaticSite.sp_clickable :=
       [("#boom", [err "third"; err "fourth"; err "fifth"]); ("#quiet", [])];
     StaticSite.sp_fillable := [] |}.

Definition noisy_site : Session StaticSite.World :=
  StaticSite.start [("http://localhost:3000", noisy_page)].

(** A form with one text field that has neither an id nor a name. *)
Definition anonymous_field : FieldInfo :=
  {| field_type := "text"; field_name := EmptyString; field_id := EmptyString;
     placeholder := "Your comment"; required := false; label := EmptyString |}.

Definition anonymous_form : FormInfo :=
  {| action := "/send"; method := "POST"; fields := [anonymous_field];
     submitButton := Some "Send"; form_id := None |}.

(** A sign-up form: one field of every treatment. *)
Definition signup_fields : list FieldInfo :=
  [ {| field_type := "hidden"; field_name := "csrf"; field_id := EmptyString;
       placeholder := EmptyString; required := false; label := EmptyString |};
    {| field_type := "email"; field_name := "email"; field_id := "email";
       placeholder := "Enter email"; required := true; label := EmptyString |};
    {| field_type := "select-one"; field_name := "country";
       field_id := EmptyString; placeholder := EmptyString; required := false;
       label := "Country" |};
    {| field_type := "checkbox"; field_name := "terms"; field_id := "terms";
       placeholder := EmptyString; required := true; label := "I agree" |};
    anonymous_field ].

Definition signup_form : FormInfo :=
  {| action := "/signup"; method := "POST"; fields := signup_fields;
     submitButton := Some "Sign up"; form_id := Some "signup" |}.

Definition form_site : Session StaticSite.World :=
  StaticSite.start
    [("http://localhost:3000",
      {| StaticSite.sp_title := "Sign up";
         StaticSite.sp_text := "Create your account";
         StaticSite.sp_links := [];
         StaticSite.sp_forms := [signup_form];
         StaticSite.sp_buttons := [];
         StaticSite.sp_load_errors := [];
         StaticSite.sp_clickable := [("#terms", [])];
         StaticSite.sp_fillable := ["#email"] |})].

(** Four buttons stacked on the same 10 by 10 square. *)
Definition square : VisualChecker.DOMRect :=
  {| VisualChecker.left := 0; VisualChecker.right := 10;
     VisualChecker.top := 0; VisualChecker.bottom := 10;
     VisualChecker.width := 10; VisualChecker.height := 10 |}.

Definition stacked (id : string) : VisualChecker.Element :=
  {| VisualChecker.tagName := "BUTTON"; VisualChecker.el_id := id;
     VisualChecker.getBoundingClientRect := square |}.

Definition four_stacked : list VisualChecker.Element :=
  [stacked "a"; stacked "b"; stacked "c"; stacked "d"].

(** A site whose home page links to two pages that load, to one that
    does not exist, and back to itself. *)
Definition link_to (h : string) : LinkInfo :=
  {| link_text := "go"; href := h; isInternal := true |}.

Definition home_page : StaticSite.SitePage :=
  {| StaticSite.sp_title := "A";
     StaticSite.sp_text := "Welcome to the example site";
     StaticSite.sp_links :=
       [ link_to "http://a.com/b"; link_to "http://a.com/c";
         link_to "http://a.com/missing"; link_to "http://a.com/" ];
     StaticSite.sp_forms := [];
     StaticSite.sp_buttons := [];
     StaticSite.sp_load_errors := [];
     StaticSite.sp_clickable := [];
     StaticSite.sp_fillable := [] |}.

Definition small_site : Session StaticSite.World :=
  StaticSite.start
    [ ("http://a.com", home_page);
      ("http://a.com/b", StaticSite.blank_page);
      ("http://a.com/c", StaticSite.blank_page) ].

(** Twelve pages in a ring, each linking to the next. *)
Definition ring_names : list string :=
  ["a"; "b"; "c"; "d"; "e"; "f"; "g"; "h"; "i"; "j"; "k"; "l"].

Definition ring_url (name : string) : string := "http://a.com/" +:+ name.

Definition ring_page (next : string) : StaticSite.SitePage :=
  {| StaticSite.sp_title := "Ring";
     StaticSite.sp_text := "One page of the ring";
     StaticSite.sp_links := [link_to (ring_url next +:+ "/")];
     StaticSite.sp_forms := [];
     StaticSite.sp_buttons := [];
     StaticSite.sp_load_errors := [];
     StaticSite.sp_clickable := [];
     StaticSite.sp_fillable := [] |}.

Definition ring_site : Session StaticSite.World :=
  StaticSite.start
    (zip_with (fun name next => (ring_url name +:+ "/", ring_page next))
              ring_names (drop 1 ring_names ++ take 1 ring_names)).

End Examples.

(** ** Definitions used to state further properties *)

Module Shape.

(** The opening of the fix instructions. *)
Definition fix_intro : string :=
  "## Fix Instructions" +:+ JS.nl +:+ JS.nl
  +:+ "The following issues were found by testing the actual frontend in a browser:"
  +:+ JS.nl +:+ JS.nl.

(** The block of one failure. *)
Definition issue_block (failure : TestResult) : string :=
  ("### Issue: " +:+ test failure +:+ JS.nl)
  +:+ ("- **Page:** " +:+ page failure +:+ JS.nl)
  +:+ ("- **Problem:** " +:+ message failure +:+ JS.nl)
  +:+ (if JS.truthy_opt (details failure) then
         "- **Details:**" +:+ JS.nl +:+ "```" +:+ JS.nl
         +:+ default EmptyString (details failure) +:+ JS.nl
         +:+ "```" +:+ JS.nl
       else EmptyString)
  +:+ ("- **Suggested fix:** " +:+ Reporter.suggestFix failure +:+ JS.nl +:+ JS.nl).

Definition no_fixes : string := "No fixes needed. All tests passed.".

(** What follows the fix instructions in the formatted report. *)
Definition closing : string :=
  "---" +:+ JS.nl
  +:+ "Please fix the above issues. After fixing, I can test again to verify."
  +:+ JS.nl.

(** The outcome that says whether a page loaded with content. *)
Definition is_verdict (r : TestResult) : bool :=
  String.eqb (test r) "page-load" || String.eqb (test r) "has-content".

(** [u] is the target of an internal link of one of the pages. *)
Definition linked (pages : list PageInfo) (u : string) : Prop :=
  exists (p : PageInfo) (l : LinkInfo),
    In p pages /\ In l (links p) /\ isInternal l = true /\ href l = u.

(** What the crawler's outcomes, pages and queue have to do with the
    URLs navigated to. *)
Definition accounted (baseUrl : string) (calls : list Call)
    (st : NavigationTester.CrawlState) : Prop :=
  map page (List.filter is_verdict (NavigationTester.st_results st))
  = Spec.gotos calls
  /\ Forall (fun r => In (page r) (Spec.gotos calls))
            (NavigationTester.st_results st)
  /\ Forall (fun u => u = baseUrl \/ linked (NavigationTester.st_pages st) u)
            (Spec.gotos calls ++ NavigationTester.toVisit st)
  /\ ((Spec.gotos calls = [] /\ NavigationTester.toVisit st = [baseUrl]
       /\ NavigationTester.visited st = ∅)
      \/ exists rest, Spec.gotos calls = baseUrl :: rest).

(** The test ids of the outcomes of one form, read off the form alone. *)
Definition tests_of_form (i : nat) (form : FormInfo) : list string :=
  let formId := FormTester.formId_of i form in
  if (length (fields form) =? 0)%nat then [formId +:+ "-fields"]
  else
    (if JS.truthy_opt (submitButton form) then []
     else [formId +:+ "-submit-button"])
    ++ [formId +:+ "-fill"]
    ++ (if JS.truthy_opt (submitButton form) then [formId +:+ "-submit"]
        else [])
    ++ (if (0 <? length (List.filter required (fields form)))%nat
           && JS.truthy_opt (submitButton form)
        then [formId +:+ "-validation"]
        else []).

Fixpoint tests_of_forms (i : nat) (forms : list FormInfo) : list string :=
  match forms with
  | [] => []
  | form :: rest => tests_of_form i form ++ tests_of_forms (S i) rest
  end.

(** The interactions with one form, read off the form alone: its
    fields, then the submit click, then the click of the empty
    submission. *)
Definition actions_of_form (i : nat) (form : FormInfo) : list Spec.Action :=
  if (length (fields form) =? 0)%nat then []
  else
    omap Spec.action_for (fields form)
    ++ (if JS.truthy_opt (submitButton form)
        then [Spec.Click (FormTester.submit_selector_both i form)]
        else [])
    ++ (if (0 <? length (List.filter required (fields form)))%nat
           && JS.truthy_opt (submitButton form)
        then [Spec.Click (FormTester.submit_selector_button i form)]
        else []).

Fixpoint actions_of_forms (i : nat) (forms : list FormInfo)
    : list Spec.Action :=
  match forms with
  | [] => []
  | form :: rest => actions_of_form i form ++ actions_of_forms (S i) rest
  end.

(** A field that is exercised but has neither id nor name. *)
Definition unaddressable (field : FieldInfo) : bool :=
  negb (FormTester.is_skipped field)
  && negb (bool_decide (is_Some (FormTester.selector_of field))).

(** An interaction the driver could not perform. *)
Definition failed_call (c : Call) : bool :=
  match c with
  | CSelectOption _ _ ok | CClick _ ok | CFillField _ _ ok => negb ok
  | _ => false
  end.

(** The driver's answers to the interactions, in order. *)
Definition answer_of (c : Call) : option bool :=
  match c with
  | CSelectOption _ _ ok | CClick _ ok | CFillField _ _ ok => Some ok
  | _ => None
  end.

Definition answers (calls : list Call) : list bool := omap answer_of calls.

(** The error line of a field without id and name, and that of a field
    whose interaction the driver could not perform. *)
Definition unaddressed_line (field : FieldInfo) : string :=
  "Could not find selector for field: "
  +:+ JS.or_else (label field) (JS.or_else (field_name field) "unknown").

Definition failed_line (field : FieldInfo) (selector : string) : string :=
  if FormTester.is_select field then
    "Could not interact with select: " +:+ selector
  else if FormTester.is_toggle field then
    "Could not click " +:+ field_type field +:+ ": " +:+ selector
  else
    "Could not fill field: " +:+ selector +:+ " ("
    +:+ JS.or_else (label field) (field_name field) +:+ ")".

(** The error lines of a form, read off its fields and the driver's
    answers: in field order, one line for every field to exercise that
    has no id and no name, and one for every field whose interaction
    was answered with a failure. *)
Fixpoint fill_errors (fields : list FieldInfo) (given : list bool)
    : list string :=
  match fields with
  | [] => []
  | field :: rest =>
      if FormTester.is_skipped field then fill_errors rest given
      else
        match FormTester.selector_of field with
        | None => unaddressed_line field :: fill_errors rest given
        | Some selector =>
            match given with
            | ok :: later =>
                (if ok then [] else [failed_line field selector])
                ++ fill_errors rest later
            | [] => fill_errors rest []
            end
        end
  end.

(** The calls of the test of one button: a navigation to the page, a
    reading of the console and the click; after a click that was
    performed a second reading of the console, and then at most a
    screenshot. *)
Definition button_block (pageUrl : string) (button : ButtonInfo)
    (block : list Call) : Prop :=
  exists (loaded ok : bool) (after : list Call),
    block = [CGoto pageUrl loaded; CGetConsoleErrors;
             CClick (selector button) ok] ++ after
    /\ (if ok
        then after = [CGetConsoleErrors]
             \/ after = [CGetConsoleErrors; CScreenshot]
        else after = []).


End Shape.

(** ** More concrete inputs *)

Module MoreExamples.

(** A button that is listed but is not on the page. *)
Definition ghost : ButtonInfo :=
  {| button_text := "Ghost"; button_type := "button"; button_id := "ghost";
     disabled := false; selector := "#ghost" |}.

(** A list with multiple selection, as the driver reports it. *)
Definition tags : FieldInfo :=
  {| field_type := "select-multiple"; field_name := "tags";
     field_id := "tags"; placeholder := EmptyString; required := false;
     label := "Tags" |}.

End MoreExamples.

(** ** VisualChecker.checkPage ([src/tester/visualChecker.ts])

    The checks read the document through [page.evaluate]: what they
    read is the scroll and client width of the root element, the
    interactive elements and the images.  [getPage] answers the page
    of the driver, which is taken to be open. *)

Module VisualAudit.

Record Image := mkImage {
  alt : string;
  complete : bool;
  naturalWidth : Z;
  src : string;
}.

Record Document := mkDocument {
  scrollWidth : Z;
  clientWidth : Z;
  interactiveEls : list VisualChecker.Element;
  images : list Image;
}.

(** The page handle: evaluating in the page, and resizing it. *)
Class PageEngine (W : Type) := {
  pg_evaluate : W -> Document * W;
  pg_setViewport : Z -> Z -> W -> W;
}.

Definition missing_alt (img : Image) : bool :=
  negb (JS.truthy (alt img)) || String.eqb (JSText.trim (alt img)) EmptyString.

Definition broken (img : Image) : bool :=
  negb (complete img) || (naturalWidth img =? 0)%Z.

Section Audit.
Context {W : Type} `{BrowserEngine W} `{PageEngine W}.

Definition evaluate {A} (f : Document -> A) : Async W A :=
  fun s => let (d, w') := pg_evaluate (fst s) in (f d, (w', snd s)).

Definition setViewport (width height : Z) : Async W unit :=
  fun s => (tt, (pg_setViewport width height (fst s), snd s)).

Definition checkOverflow : Async W bool :=
  evaluate (fun d => (scrollWidth d >? clientWidth d)%Z).

Definition checkOverlaps : Async W (list string) :=
  evaluate (fun d => VisualChecker.checkOverlaps (interactiveEls d)).

Definition checkImagesAlt : Async W nat :=
  evaluate (fun d => length (List.filter missing_alt (images d))).

Definition checkBrokenImages : Async W (list string) :=
  evaluate (fun d => map src (List.filter broken (images d))).

Definition checkMobileView (pageUrl : string) : Async W (list TestResult) :=
  let results := [] in
  await! setViewport 375 667 in
  await! goto pageUrl in
  let! mobileOverflow := checkOverflow in
  let! results :=
    if mobileOverflow then
      let! shot := take_screenshot in
      ret (results ++
           [ {| page := pageUrl;
                test := "mobile-overflow";
                status := Fail;
                message := "Page has horizontal overflow on mobile viewport (375px)";
                screenshot := Some shot;
                details := None |} ])
    else
      ret (results ++
           [ {| page := pageUrl;
                test := "mobile-responsive";
                status := Pass;
                message := "Page renders without horizontal overflow on mobile";
                screenshot := None;
                details := None |} ]) in
  await! setViewport 1280 800 in
  ret results.

Definition checkPage (pageUrl : string) : Async W (list TestResult) :=
  let results := [] in
  await! goto pageUrl in
  let! pageInfo := getPageInfo pageUrl in
  let results :=
    if negb (JS.truthy (title pageInfo))
       || String.eqb (title pageInfo) "localhost"
       || String.eqb (title pageInfo) EmptyString
    then
      results ++
      [ {| page := pageUrl;
           test := "page-title";
           status := Warning;
           message := "Page has no meaningful title (got: " +:+ JS.dquote
                      +:+ JS.or_else (title pageInfo) "(empty)" +:+ JS.dquote
                      +:+ ")";
           screenshot := None;
           details := None |} ]
    else results in
  let! hasOverflow := checkOverflow in
  let! results :=
    if hasOverflow then
      let! shot := take_screenshot in
      ret (results ++
           [ {| page := pageUrl;
                test := "horizontal-overflow";
                status := Fail;
                message := "Page has horizontal overflow (content wider than viewport)";
                screenshot := Some shot;
                details := None |} ])
    else ret results in
  let! overlaps := checkOverlaps in
  let results :=
    if (0 <? length overlaps)%nat then
      results ++
      [ {| page := pageUrl;
           test := "element-overlaps";
           status := Warning;
           message := "Found " +:+ JS.num (length overlaps)
                      +:+ " potentially overlapping interactive element(s)";
           screenshot := None;
           details := Some (JS.join JS.nl overlaps) |} ]
    else results in
  let! missingAlt := checkImagesAlt in
  let results :=
    if (0 <? missingAlt)%nat then
      results ++
      [ {| page := pageUrl;
           test := "images-alt";
           status := Warning;
           message := JS.num missingAlt +:+ " image(s) missing alt text";
           screenshot := None;
           details := None |} ]
    else results in
  let! brokenImages := checkBrokenImages in
  let results :=
    if (0 <? length brokenImages)%nat then
      results ++
      [ {| page := pageUrl;
           test := "broken-images";
           status := Fail;
           message := JS.num (length brokenImages) +:+ " broken image(s) found";
           screenshot := None;
           details := Some (JS.join JS.nl brokenImages) |} ]
    else results in
  let! mobileResults := checkMobileView pageUrl in
  ret (results ++ mobileResults).

End Audit.

End VisualAudit.

(** ** A static site as a page handle *)

Module StaticPage.

(** A document without interactive elements and images that fits its
    viewport. *)
Definition plain_document : VisualAudit.Document :=
  {| VisualAudit.scrollWidth := 1280; VisualAudit.clientWidth := 1280;
     VisualAudit.interactiveEls := []; VisualAudit.images := [] |}.

#[global] Instance site_page : VisualAudit.PageEngine StaticSite.World := {|
  VisualAudit.pg_evaluate := fun w => (plain_document, w);
  VisualAudit.pg_setViewport := fun _ _ w => w;
|}.

End StaticPage.

(** ** The test runner ([src/index.ts], [runTests])

    [runTests] launches the driver, crawls, runs the requested testers
    over the pages found, closes the driver and compiles the report.
    The optional progress callback acts on the world. *)

Module Index.

Inductive TestType := Full | Forms | Navigation | Clicks | Visual.

Definition TestType_eqb (a b : TestType) : bool :=
  match a, b with
  | Full, Full | Forms, Forms | Navigation, Navigation
  | Clicks, Clicks | Visual, Visual => true
  | _, _ => false
  end.

Record TestRequest := mkTestRequest {
  req_url : string;
  context : option string;
  testType : option TestType;
}.

(** [testReq.testType === t] *)
Definition is_type (testReq : TestRequest) (t : TestType) : bool :=
  match testType testReq with
  | Some t' => TestType_eqb t' t
  | None => false
  end.

(** Launching and closing the browser. *)
Class BrowserLifecycle (W : Type) := {
  be_launch : W -> W;
  be_close : W -> W;
}.

Section Runner.
Context {W : Type} `{BrowserEngine W} `{VisualAudit.PageEngine W}
        `{BrowserLifecycle W}.
Variable newURL : string -> option URL.
Variable onProgress : option (string -> W -> W).

Definition launch : Async W unit :=
  fun s => (tt, (be_launch (fst s), snd s)).

Definition close : Async W unit :=
  fun s => (tt, (be_close (fst s), snd s)).

(** [onProgress && onProgress(msg)] *)
Definition log (msg : string) : Async W unit :=
  match onProgress with
  | Some f => fun s => (tt, (f msg (fst s), snd s))
  | None => ret tt
  end.

Definition found_message (pages : list PageInfo) : string :=
  "Found " +:+ JS.num (length pages) +:+ " page(s), "
  +:+ JS.num (fold_left (fun s p => s + length (forms p)) pages 0)
  +:+ " form(s), "
  +:+ JS.num (fold_left (fun s p => s + length (buttons p)) pages 0)
  +:+ " button(s)" +:+ JS.nl +:+ JS.nl.

(** Step 2: the forms of every page that has one. *)
Definition forms_step (allResults : list TestResult) (page : PageInfo)
    : Async W (list TestResult) :=
  if (0 <? length (forms page))%nat then
    await! log ("📝 Testing " +:+ JS.num (length (forms page))
                +:+ " form(s) on " +:+ page_url page +:+ "..." +:+ JS.nl) in
    let! formResults := FormTester.testForms (page_url page) (forms page) in
    ret (allResults ++ formResults)
  else ret allResults.

(** Step 3: the buttons of every page that has a testable one. *)
Definition clicks_step (allResults : list TestResult) (page : PageInfo)
    : Async W (list TestResult) :=
  let testableButtons := List.filter ClickTester.testable (buttons page) in
  if (0 <? length testableButtons)%nat then
    await! log ("🖱️ Testing " +:+ JS.num (length testableButtons)
                +:+ " button(s) on " +:+ page_url page +:+ "..." +:+ JS.nl) in
    let! clickResults :=
      ClickTester.testButtons (page_url page) (buttons page) in
    ret (allResults ++ clickResults)
  else ret allResults.

(** Step 4: the visual audit of every page. *)
Definition visual_step (allResults : list TestResult) (page : PageInfo)
    : Async W (list TestResult) :=
  await! log ("👁️ Checking visual layout on " +:+ page_url page +:+ "..."
              +:+ JS.nl) in
  let! visualResults := VisualAudit.checkPage (page_url page) in
  ret (allResults ++ visualResults).

(** [runTests]; [None] when the crawl runs out of fuel. *)
Definition runTests (fuel : nat) (now : string) (testReq : TestRequest)
    : Async W (option TestReport) :=
  let allResults := [] in
  await! launch in
  let runNav := is_type testReq Full || is_type testReq Navigation in
  let runForms := is_type testReq Full || is_type testReq Forms in
  let runClicks := is_type testReq Full || is_type testReq Clicks in
  let runVisual := is_type testReq Full || is_type testReq Visual in
  await! log ("📄 Discovering pages and checking for errors..." +:+ JS.nl) in
  let! crawl :=
    NavigationTester.discoverAndTestPages newURL fuel (req_url testReq) in
  match crawl with
  | None => ret None
  | Some (navResults, pages) =>
      let allResults :=
        if runNav then allResults ++ navResults else allResults in
      await! log (found_message pages) in
      let! allResults :=
        if runForms then for_of pages forms_step allResults
        else ret allResults in
      let! allResults :=
        if runClicks then for_of pages clicks_step allResults
        else ret allResults in
      let! allResults :=
        if runVisual then for_of pages visual_step allResults
        else ret allResults in
      await! log (JS.nl +:+ "✅ Testing complete." +:+ JS.nl +:+ JS.nl) in
      await! close in
      ret (Some (Reporter.compile now (req_url testReq) allResults))
  end.

End Runner.

End Index.

(** ** A static site as a browser to launch *)

Module StaticBrowser.

#[global] Instance site_lifecycle : Index.BrowserLifecycle StaticSite.World := {|
  Index.be_launch := fun w => w;
  Index.be_close :=
    fun w => {| StaticSite.site := StaticSite.site w;
                StaticSite.current := None;
                StaticSite.consoleErrors := StaticSite.consoleErrors w |};
|}.

End StaticBrowser.

(** * index.ts: the request parser *)

Module Request.

Import Index.

(** [s.startsWith(p)] *)
Definition startsWith (s p : string) : bool := String.prefix p s.

Section Parser.

(** The two patterns of the parser, each with the text of its first
    group: the URL pattern, [https?:\/\/[^\s]+] or
    [localhost:\d+[^\s]*], and the context pattern, [context:\s*(.+)],
    both under the [i] flag. *)
Variable urlPattern : string -> option string.
Variable contextPattern : string -> option string.

Definition parseRequest (message : string) : option TestRequest :=
  match urlPattern message with
  | None => None
  | Some url =>
      let url := if startsWith url "http" then url else "http://" +:+ url in
      let lower := JS.toLowerCase message in
      let testType :=
        if JS.includes lower "form" then Forms
        else if JS.includes lower "click" || JS.includes lower "button"
        then Clicks
        else if JS.includes lower "visual" || JS.includes lower "layout"
                || JS.includes lower "design"
        then Visual
        else if JS.includes lower "nav" then Navigation
        else Full in
      Some {| req_url := url;
              testType := Some testType;
              context := match contextPattern message with
                         | Some c => Some (JSText.trim c)
                         | None => None
                         end |}
  end.

End Parser.

(** The words that select a test type. *)
Definition type_words : list string :=
  ["form"; "click"; "button"; "visual"; "layout"; "design"; "nav"].

End Request.

(** The two patterns on messages of ASCII text. *)

Module AsciiPatterns.

Definition non_space (c : ascii) : bool := negb (JSText.is_space c).

Definition is_digit (c : ascii) : bool :=
  let n := nat_of_ascii c in (48 <=? n)%nat && (n <=? 57)%nat.

(** Everything but a line terminator, which [.] does not match. *)
Definition same_line (c : ascii) : bool :=
  let n := nat_of_ascii c in negb ((n =? 10)%nat || (n =? 13)%nat).

Fixpoint takeWhile (p : ascii -> bool) (s : string) : string :=
  match s with
  | EmptyString => EmptyString
  | String c rest => if p c then String c (takeWhile p rest) else EmptyString
  end.

Fixpoint skip (n : nat) (s : string) : string :=
  match n, s with
  | S n', String _ rest => skip n' rest
  | _, _ => s
  end.

(** A literal of lowercase letters and punctuation under the [i] flag. *)
Definition literal_here (lit s : string) : bool :=
  String.prefix lit (JS.toLowerCase s).

(** The literal of [n] characters at the start of [s], followed by the
    longest run without whitespace. *)
Definition with_run (n : nat) (s : string) : string :=
  String.substring 0 (n + String.length (takeWhile non_space (skip n s))) s.

(** [https?:\/\/[^\s]+] at the start of [s]. *)
Definition http_here (s : string) : option string :=
  let n := if literal_here "https://" s then Some 8
           else if literal_here "http://" s then Some 7
           else None in
  match n with
  | Some n =>
      match takeWhile non_space (skip n s) with
      | EmptyString => None
      | _ => Some (with_run n s)
      end
  | None => None
  end.

(** [localhost:\d+[^\s]*] at the start of [s]. *)
Definition localhost_here (s : string) : option string :=
  if literal_here "localhost:" s then
    match skip 10 s with
    | String c _ => if is_digit c then Some (with_run 10 s) else None
    | EmptyString => None
    end
  else None.

(** The first match of the URL pattern, from the left. *)
Fixpoint urlPattern (s : string) : option string :=
  match http_here s with
  | Some m => Some m
  | None =>
      match localhost_here s with
      | Some m => Some m
      | None =>
          match s with
          | EmptyString => None
          | String _ rest => urlPattern rest
          end
      end
  end.

(** The last character of [s] that is not a line terminator. *)
Fixpoint last_same_line (s : string) : option ascii :=
  match s with
  | EmptyString => None
  | String c rest =>
      match last_same_line rest with
      | Some d => Some d
      | None => if same_line c then Some c else None
      end
  end.

(** [context:\s*(.+)] at the start of [s]: the group is the rest of the
    line after the whitespace; when only whitespace follows the colon,
    the group is the last of it that is not a line terminator. *)
Definition context_here (s : string) : option string :=
  if literal_here "context:" s then
    match takeWhile same_line (JSText.trimStart (skip 8 s)) with
    | EmptyString =>
        match last_same_line (skip 8 s) with
        | Some c => Some (String c EmptyString)
        | None => None
        end
    | group => Some group
    end
  else None.

(** The first match of the context pattern, from the left. *)
Fixpoint contextPattern (s : string) : option string :=
  match context_here s with
  | Some g => Some g
  | None =>
      match s with
      | EmptyString => None
      | String _ rest => contextPattern rest
      end
  end.

End AsciiPatterns.

(** * The fill phase in the words of the specification *)

Module FieldActions.

Definition has_type (kinds : list string) (field : FieldInfo) : bool :=
  existsb (String.eqb (field_type field)) kinds.

(** A field the fill phase has to exercise: neither hidden nor submit. *)
Definition to_exercise (field : FieldInfo) : bool :=
  negb (has_type ["hidden"; "submit"] field).

(** A field that can be addressed: it has an id or a name. *)
Definition addressable (field : FieldInfo) : bool :=
  JS.truthy (field_id field) || JS.truthy (field_name field).

(** The kind of action stated for a field; nothing is stated for a
    list with multiple selection. *)
Definition stated_kind (field : FieldInfo) : option Spec.ActionKind :=
  if has_type ["select"; "select-one"] field then Some Spec.Selecting
  else if has_type ["select-multiple"] field then None
  else if has_type ["checkbox"; "radio"] field then Some Spec.Clicking
  else Some (Spec.Filling (FormTester.getTestValue field)).

Definition target (a : Spec.Action) : string :=
  match a with
  | Spec.Select selector _ | Spec.Click selector | Spec.Fill selector _ =>
      selector
  end.

(** The action [a] is as stated for [field]: it is of the kind stated
    for the field, and a selection carries no text value. *)
Definition as_stated (field : FieldInfo) (a : Spec.Action) : Prop :=
  match stated_kind field with
  | Some kind => Spec.kind_of a = kind
  | None => True
  end
  /\ match a with
     | Spec.Select _ value => value = EmptyString
     | _ => True
     end.

(** The action [a] exercises [field]: it addresses the field by its id,
    or else by its name, and is as stated for the field. *)
Definition exercises (field : FieldInfo) (a : Spec.Action) : Prop :=
  target a
  = (if JS.truthy (field_id field) then "#" +:+ field_id field
     else "[name=" +:+ JS.dquote +:+ field_name field +:+ JS.dquote +:+ "]")
  /\ as_stated field a.

End FieldActions.

(** * What the crawler's key takes from the platform's URL parser *)

Module UrlLaws.

(** A pathname that starts with a slash, as that of every http, https
    and file URL; the path of [mailto:] and the like does not. *)
Definition rooted (pathname : string) : bool := String.prefix "/" pathname.

(** The parser reads back what it wrote.  For a parsed URL with an
    origin of its own and a rooted pathname, the origin followed by the
    pathname, with or without its final slash, parses to the same
    origin and to that pathname, and to the pathname [/] when nothing
    follows the origin.  The origin [null] of a URL without an origin
    of its own is no scheme: followed by nothing or by a rooted
    pathname it does not parse. *)
Definition reparses (newURL : string -> option URL) : Prop :=
  (forall (s : string) (u : URL),
     newURL s = Some u ->
     origin u <> "null" ->
     rooted (pathname u) = true ->
     exists u' : URL,
       newURL (origin u +:+ JSText.dropTrailingSlash (pathname u)) = Some u'
       /\ origin u' = origin u
       /\ pathname u'
          = JS.or_else (JSText.dropTrailingSlash (pathname u)) "/")
  /\ (forall rest : string,
        rest = EmptyString \/ rooted rest = true ->
        newURL ("null" +:+ rest) = None).

End UrlLaws.

(** The parser on two kinds of input: the plain http(s) URLs of
    [UrlModel], and [scheme:path] with a scheme that is not special and
    a path of printable characters that does not start with a slash.
    Such a path is opaque: it is the pathname as it stands, and the
    origin is [null]. *)

Module OpaqueUrl.

Import UrlModel.

Definition is_alpha (c : ascii) : bool := is_lower c || is_upper c.

Definition scheme_char (c : ascii) : bool :=
  is_alpha c || is_digit c
  || Ascii.eqb c "+" || Ascii.eqb c "-" || Ascii.eqb c ".".

Definition opaque_char (c : ascii) : bool :=
  in_range 33 126 c && negb (ends_path c).

(** The schemes with a parser of their own. *)
Definition own_parser : list string :=
  ["http"; "https"; "ftp"; "ws"; "wss"; "file"; "blob"].

Definition opaque (s : string) : option URL :=
  let (scheme, rest) := span scheme_char s in
  match scheme, rest with
  | String c _, String colon path =>
      if Ascii.eqb colon ":"
         && is_alpha c
         && negb (existsb (String.eqb (JS.toLowerCase scheme)) own_parser)
         && negb (String.prefix "/" path)
         && all opaque_char path
      then Some {| origin := "null"; pathname := path |}
      else None
  | _, _ => None
  end.

Definition newURL (s : string) : option URL :=
  match UrlModel.newURL s with
  | Some u => Some u
  | None => opaque s
  end.

End OpaqueUrl.

(** * Properties *)

(** ** Strings *)

Section StringFacts.

Lemma string_app_nil_l (s : string) : EmptyString +:+ s = s.
Proof. reflexivity. Qed.

Lemma string_app_cons (c : ascii) (a b : string) :
  String c a +:+ b = String c (a +:+ b).
Proof. reflexivity. Qed.

Lemma string_app_nil_r (s : string) : s +:+ EmptyString = s.
Proof.
  induction s as [|c s IH]; [reflexivity|]. now rewrite string_app_cons, IH.
Qed.

Lemma string_app_assoc (a b c : string) : (a +:+ b) +:+ c = a +:+ (b +:+ c).
Proof.
  induction a as [|x a IH]; [reflexivity|]. now rewrite !string_app_cons, IH.
Qed.

Lemma fold_left_app_string {A} (f : A -> string) (xs : list A) (init : string) :
  fold_left (fun acc x => acc +:+ f x) xs init
  = init +:+ Spec.concat_all (map f xs).
Proof.
  revert init. induction xs as [|x xs IH]; intros init; cbn.
  - now rewrite string_app_nil_r.
  - rewrite IH. apply string_app_assoc.
Qed.

End StringFacts.

(** ** Reporter *)

Section ReporterFacts.

Import Reporter.

Lemma length_with_status (s : Status) (rs : list TestResult) :
  length (with_status s rs) = Spec.tally s rs.
Proof.
  induction rs as [|r rs IH]; cbn; [reflexivity|].
  fold (with_status s rs). unfold has_status.
  destruct (Status_eqb (status r) s); cbn; lia.
Qed.

Lemma tally_partition (rs : list TestResult) :
  Spec.tally Pass rs + Spec.tally Fail rs + Spec.tally Warning rs = length rs.
Proof.
  induction rs as [|r rs IH]; cbn; [reflexivity|].
  destruct (status r); cbn; lia.
Qed.

(** C1. For every list of outcomes, the compiled report has
    [passed + failed + warnings = totalTests] and
    [totalTests = length results], the three counters being the
    numbers of outcomes with status pass, fail and warning. *)
Theorem compile_counts (now url : string) (rs : list TestResult) :
  let report := compile now url rs in
  passed report + failed report + warnings report = totalTests report
  /\ totalTests report = length (results report)
  /\ passed report = Spec.tally Pass rs
  /\ failed report = Spec.tally Fail rs
  /\ warnings report = Spec.tally Warning rs.
Proof.
  cbn. rewrite !length_with_status.
  repeat split. apply tally_partition.
Qed.

Lemma fold_left_failures (xs : list TestResult) (init : string) :
  fold_left (fun summary r => (summary +:+ bullet r) +:+ fenced r) xs init
  = init +:+ Spec.concat_all (map (fun r => bullet r +:+ fenced r) xs).
Proof.
  revert init. induction xs as [|x xs IH]; intros init; cbn.
  - now rewrite string_app_nil_r.
  - rewrite IH. now rewrite !string_app_assoc.
Qed.

Lemma buildSummary_sections (url : string) (rs : list TestResult) :
  buildSummary url rs (Spec.tally Pass rs) (Spec.tally Fail rs)
               (Spec.tally Warning rs)
  = Spec.summary_by_sections url rs.
Proof.
  unfold buildSummary, Spec.summary_by_sections.
  destruct ((Spec.tally Fail rs =? 0)%nat && (Spec.tally Warning rs =? 0)%nat);
    [reflexivity|].
  unfold Spec.failuresSection, Spec.warningsSection.
  rewrite fold_left_failures, !(fold_left_app_string bullet).
  destruct (0 <? Spec.tally Fail rs)%nat, (0 <? Spec.tally Warning rs)%nat;
    now rewrite ?string_app_assoc, ?string_app_nil_r, ?string_app_nil_l.
Qed.

(** C6 (amended). The summary of a compiled report is the header with
    the counts followed, when nothing failed and nothing warned, by
    the success sentence and nothing else; otherwise by the failures
    section when there is a failure and then by the warnings section
    when there is a warning, each section being left out when it
    would be empty. *)
Theorem compile_summary_sections (now url : string) (rs : list TestResult) :
  summary (compile now url rs) = Spec.summary_by_sections url rs.
Proof.
  cbn [compile summary]. rewrite !length_with_status.
  apply buildSummary_sections.
Qed.

(** C6 as stated fails: with one failure and no warning the summary
    has no warnings section. *)
Lemma compile_summary_counterexample :
  summary (compile "2024-01-15T00:00:00.000Z" "http://localhost:3000"
                   Examples.one_failure)
  <> Spec.summary_as_stated "http://localhost:3000" Examples.one_failure
  /\ JS.includes
       (summary (compile "2024-01-15T00:00:00.000Z" "http://localhost:3000"
                         Examples.one_failure))
       warningsHeading = false.
Proof.
  split; [|vm_compute; reflexivity].
  intros E. apply (f_equal String.length) in E.
  vm_compute in E. discriminate E.
Qed.

End ReporterFacts.


(** ** The field matcher *)

Section MatcherFacts.

Import FormTester.

Lemma TEST_DATA_truthy (k v : string) :
  TEST_DATA !! k = Some v -> JS.truthy v = true.
Proof.
  intros Hk. apply elem_of_list_to_map_2 in Hk.
  repeat (apply elem_of_cons in Hk as [Hk|Hk]; [injection Hk as _ ->; reflexivity|]).
  now apply elem_of_nil in Hk.
Qed.

Lemma type_fallback (ty : string) :
  match TEST_DATA !! ty with
  | Some v => JS.or_else v (TEST_DATA_at "text")
  | None => TEST_DATA_at "text"
  end
  = match TEST_DATA !! ty with
    | Some v => v
    | None => Spec.generic_text
    end.
Proof.
  destruct (TEST_DATA !! ty) as [v|] eqn:Hty; [|reflexivity].
  unfold JS.or_else. now rewrite (TEST_DATA_truthy _ _ Hty).
Qed.

(** C5. The matcher tests the lower-cased identifier built from name,
    label and placeholder against the keyword rules email,
    password/pass, name/first/last, phone/tel, url/website, search and
    date in that order, the first rule that matches wins; without a
    match the table keyed by type answers, and the generic text when
    the type is not in the table.  A field named [email] with an empty
    label and the placeholder [Enter email] gets the canonical email. *)
Theorem getTestValue_matcher :
  (forall field : FieldInfo, getTestValue field = Spec.matcher field)
  /\ (forall (ty id : string) (req : bool),
        getTestValue {| field_type := ty; field_name := "email"; field_id := id;
                        placeholder := "Enter email"; required := req;
                        label := EmptyString |}
        = Spec.canonical_email).
Proof.
  split; [|reflexivity].
  intros field. unfold getTestValue, Spec.matcher.
  rewrite type_fallback. unfold identifier_of.
  unfold Spec.keyword_rules, Spec.rule_matches.
  cbn zeta. cbn [List.find existsb fst snd].
  generalize (TEST_DATA !! field_type field). intros fallback.
  generalize (JS.includes
                (JS.toLowerCase
                   (field_name field +:+ " " +:+ label field +:+ " "
                    +:+ placeholder field))).
  intros inc.
  destruct (inc "email"); [reflexivity|].
  destruct (inc "password"); [reflexivity|].
  destruct (inc "pass"); [reflexivity|].
  destruct (inc "name"); [reflexivity|].
  destruct (inc "first"); [reflexivity|].
  destruct (inc "last"); [reflexivity|].
  destruct (inc "phone"); [reflexivity|].
  destruct (inc "tel"); [reflexivity|].
  destruct (inc "url"); [reflexivity|].
  destruct (inc "website"); [reflexivity|].
  destruct (inc "search"); [reflexivity|].
  destruct (inc "date"); reflexivity.
Qed.

End MatcherFacts.


(** ** The driver monad *)

Section DriverFacts.

Context {W : Type} `{BrowserEngine W}.

Lemma logged_run {A} (op : W -> A * W) (ev : A -> Call) (s : Session W) :
  logged op ev s = (fst (op (fst s)), (snd (op (fst s)), snd s ++ [ev (fst (op (fst s)))])).
Proof. unfold logged. now destruct (op (fst s)). Qed.

Lemma bind_run {A B} (m : Async W A) (k : A -> Async W B) (s : Session W) :
  bind m k s = k (fst (m s)) (snd (m s)).
Proof. unfold bind. now destruct (m s). Qed.

Lemma actions_app (a b : list Call) :
  Spec.actions (a ++ b) = Spec.actions a ++ Spec.actions b.
Proof. apply omap_app. Qed.

End DriverFacts.

(** ** FormTester *)

Section FormFacts.

Context {W : Type} `{BrowserEngine W}.
Import FormTester.

(** C10. Called with no forms, [testForms] answers the single pass
    outcome [form-presence] saying that no forms were found, and leaves
    the session as it was: no driver call is made. *)
Theorem testForms_no_forms (pageUrl : string) (s : Session W) :
  testForms pageUrl [] s
  = ([ {| page := pageUrl;
          test := "form-presence";
          status := Pass;
          message := "No forms found on page (nothing to test)";
          screenshot := None;
          details := None |} ], s).
Proof. reflexivity. Qed.

Lemma fill_one_actions (st : FillState) (field : FieldInfo) (s : Session W) :
  Spec.actions (snd (snd (fill_one st field s)))
  = Spec.actions (snd s) ++ option_list (Spec.action_for field).
Proof.
  unfold fill_one, Spec.action_for, Spec.kind_for.
  destruct (is_skipped field); [cbn; now rewrite app_nil_r|].
  destruct (selector_of field) as [sel|]; [|cbn; now rewrite app_nil_r].
  destruct (is_select field).
  { rewrite bind_run. unfold selectOption. rewrite logged_run. cbn [fst snd].
    destruct (negb _); cbn [ret snd]; now rewrite actions_app. }
  destruct (is_toggle field).
  { rewrite bind_run. unfold click. rewrite logged_run. cbn [fst snd].
    destruct (negb _); cbn [ret snd]; now rewrite actions_app. }
  rewrite bind_run. unfold fillField. rewrite logged_run. cbn [fst snd].
  destruct (negb _); cbn [ret snd]; now rewrite actions_app.
Qed.

Lemma fill_loop_actions (fs : list FieldInfo) (st : FillState) (s : Session W) :
  Spec.actions (snd (snd (for_of fs fill_one st s)))
  = Spec.actions (snd s) ++ omap Spec.action_for fs.
Proof.
  revert st s. induction fs as [|f fs IH]; intros st s.
  - cbn. now rewrite app_nil_r.
  - cbn [for_of]. rewrite bind_run, IH, fill_one_actions.
    rewrite <- List.app_assoc. f_equal.
    cbn [omap list_omap]. now destruct (Spec.action_for f).
Qed.

Lemma fill_one_sticky (st : FillState) (field : FieldInfo) (s : Session W) :
  allFieldsFilled st = false ->
  allFieldsFilled (fst (fill_one st field s)) = false.
Proof.
  intros Hst. unfold fill_one.
  destruct (is_skipped field); [exact Hst|].
  destruct (selector_of field) as [sel|]; [|reflexivity].
  destruct (is_select field); [|destruct (is_toggle field)];
    rewrite bind_run; now destruct (negb _).
Qed.

Lemma fill_loop_sticky (fs : list FieldInfo) (st : FillState) (s : Session W) :
  allFieldsFilled st = false ->
  allFieldsFilled (fst (for_of fs fill_one st s)) = false.
Proof.
  revert st s. induction fs as [|f fs IH]; intros st s Hst; [exact Hst|].
  cbn [for_of]. rewrite bind_run. apply IH. now apply fill_one_sticky.
Qed.

Lemma fill_loop_unaddressable (fs : list FieldInfo) (field : FieldInfo)
    (st : FillState) (s : Session W) :
  In field fs ->
  is_skipped field = false ->
  selector_of field = None ->
  allFieldsFilled (fst (for_of fs fill_one st s)) = false.
Proof.
  intros Hin Hskip Hsel. revert st s.
  induction fs as [|f fs IH]; intros st s; [destruct Hin|].
  cbn [for_of]. rewrite bind_run.
  destruct Hin as [-> | Hin]; [|now apply IH].
  apply fill_loop_sticky. unfold fill_one. now rewrite Hskip, Hsel.
Qed.

Lemma has_type_pair (a b : string) (f : FieldInfo) :
  FieldActions.has_type [a; b] f
  = String.eqb (field_type f) a || String.eqb (field_type f) b.
Proof. unfold FieldActions.has_type. cbn. now rewrite orb_false_r. Qed.

(** The action of the model for a field is there exactly when the field
    is to be exercised and can be addressed, and then it exercises the
    field as stated. *)
Lemma action_for_exercises (f : FieldInfo) :
  match Spec.action_for f with
  | Some a =>
      FieldActions.to_exercise f && FieldActions.addressable f = true
      /\ FieldActions.exercises f a
  | None => FieldActions.to_exercise f && FieldActions.addressable f = false
  end.
Proof.
  unfold Spec.action_for, FieldActions.to_exercise, FieldActions.addressable,
    selector_of, FieldActions.exercises, FieldActions.as_stated,
    FieldActions.stated_kind, Spec.kind_for.
  rewrite !has_type_pair.
  fold (is_skipped f). fold (is_select f). fold (is_toggle f).
  destruct (is_skipped f); [reflexivity|]. cbn [negb andb].
  destruct (JS.truthy (field_id f));
    [|destruct (JS.truthy (field_name f)); [|reflexivity]];
    cbn [orb];
    destruct (is_select f), (FieldActions.has_type ["select-multiple"] f),
             (is_toggle f);
    cbn [FieldActions.target Spec.kind_of]; auto.
Qed.

Lemma actions_exercise (fs : list FieldInfo) :
  Forall2 FieldActions.exercises
    (List.filter
       (fun f => FieldActions.to_exercise f && FieldActions.addressable f) fs)
    (omap Spec.action_for fs).
Proof.
  induction fs as [|f fs IH]; [constructor|].
  cbn [List.filter omap list_omap].
  pose proof (action_for_exercises f) as Hf.
  destruct (Spec.action_for f) as [a|].
  - destruct Hf as [-> Ha]. now constructor.
  - now rewrite Hf.
Qed.

Lemma not_addressable (f : FieldInfo) :
  FieldActions.to_exercise f = true ->
  FieldActions.addressable f = false ->
  is_skipped f = false /\ selector_of f = None.
Proof.
  unfold FieldActions.to_exercise, FieldActions.addressable, selector_of.
  rewrite has_type_pair. fold (is_skipped f).
  intros Hex Haddr. apply negb_true_iff in Hex.
  apply orb_false_iff in Haddr as [-> ->]. auto.
Qed.

(** C3 (amended). In the fill phase every field that is neither hidden
    nor submit and that has an id or a name is exercised by exactly one
    action, in field order, and no other action is performed: a
    selection without text value for [select] and [select-one], a click
    for [checkbox] and [radio], and a fill with the matched test value
    for every other kind but [select-multiple], of which only the one
    action is stated.  A field that is neither hidden nor submit but has
    no id and no name gets no action, and the fill outcome of its form
    is a fail. *)
Theorem fill_phase_actions (pageUrl formId : string) (form : FormInfo)
    (results : list TestResult) (s : Session W) :
  (exists acts : list Spec.Action,
     Spec.actions (snd (snd (fill_phase pageUrl formId form results s)))
     = Spec.actions (snd s) ++ acts
     /\ Forall2 FieldActions.exercises
          (List.filter
             (fun f => FieldActions.to_exercise f
                       && FieldActions.addressable f)
             (fields form))
          acts)
  /\ (forall field : FieldInfo,
        In field (fields form) ->
        FieldActions.to_exercise field = true ->
        FieldActions.addressable field = false ->
        exists r : TestResult,
          fst (fill_phase pageUrl formId form results s) = results ++ [r]
          /\ test r = formId +:+ "-fill"
          /\ status r = Fail).
Proof.
  split.
  - exists (omap Spec.action_for (fields form)).
    split; [|apply actions_exercise].
    unfold fill_phase. rewrite !bind_run.
    assert (Hend : forall (A : Type) (b : bool) (x y : A) (s' : Session W),
               snd (snd ((if b then ret x else ret y) s')) = snd s')
      by (intros A b x y s'; now destruct b).
    rewrite Hend, fill_loop_actions.
    unfold goto. rewrite logged_run. cbn [fst snd].
    rewrite actions_app. cbn. now rewrite List.app_nil_r.
  - intros field Hin Hex Haddr.
    destruct (not_addressable field Hex Haddr) as [Hskip Hsel].
    unfold fill_phase. rewrite !bind_run.
    rewrite (fill_loop_unaddressable _ field _ _ Hin Hskip Hsel).
    cbn [ret fst]. eexists. split; [reflexivity|]. cbn. auto.
Qed.

End FormFacts.

(** On the sign-up form the hidden field is skipped, the email field is
    filled with the canonical email, the country is selected, the
    checkbox is clicked, and the anonymous field gets no action. *)
Example signup_form_actions :
  map Spec.kind_of
      (Spec.actions
         (snd (snd (FormTester.fill_phase "http://localhost:3000" "signup"
                      Examples.signup_form [] Examples.form_site))))
  = [Spec.Filling Spec.canonical_email; Spec.Selecting; Spec.Clicking].
Proof. reflexivity. Qed.

(** The anonymous field of the comment form: a failed fill outcome. *)
Lemma fill_phase_actions_witness :
  exists r : TestResult,
    fst (FormTester.fill_phase "http://localhost:3000" "form-1"
           Examples.anonymous_form [] Examples.form_site) = [] ++ [r]
    /\ test r = "form-1" +:+ "-fill"
    /\ status r = Fail.
Proof.
  apply (proj2 (fill_phase_actions "http://localhost:3000" "form-1"
                  Examples.anonymous_form [] Examples.form_site)
           Examples.anonymous_field).
  - left. reflexivity.
  - reflexivity.
  - reflexivity.
Defined.

(** C3 as stated fails: a text field without id and name is neither
    hidden nor submit, and the fill phase performs no action on it. *)
Lemma fill_phase_counterexample :
  ~ exists acts : list Spec.Action,
      Spec.actions
        (snd (snd (FormTester.fill_phase "http://localhost:3000" "form-1"
                     Examples.anonymous_form [] Examples.form_site)))
      = acts
      /\ Forall2 FieldActions.as_stated
           (List.filter FieldActions.to_exercise
              (fields Examples.anonymous_form))
           acts.
Proof.
  intros (acts & Hacts & Hall). vm_compute in Hacts. subst acts.
  inversion Hall.
Qed.

(** Nothing is stated for a list with multiple selection: the test for
    a select field names [select] and [select-one] only, so the fill
    phase types the generic text into it. *)
Example select_multiple_filled :
  FieldActions.stated_kind MoreExamples.tags = None
  /\ Spec.action_for MoreExamples.tags
     = Some (Spec.Fill "#tags" "Test input value").
Proof. split; reflexivity. Qed.


(** ** ClickTester *)

Section ClickFacts.

Context {W : Type} `{BrowserEngine W}.
Import ClickTester.

(** C7. For a button whose click succeeds, the outcome of its test is
    decided by the console errors read before and after the click: when
    their number rose, the outcome is a fail whose details are the texts
    of the errors after the first [before] ones, joined by newlines
    (as many texts as the number rose by); when it did not rise, the
    outcome is a pass. *)
Theorem testButton_outcome (pageUrl : string) (results : list TestResult)
    (button : ButtonInfo) (s : Session W) :
  let s1 := snd (goto pageUrl s) in
  let before := fst (getConsoleErrors s1) in
  let clicked := click (selector button) (snd (getConsoleErrors s1)) in
  let after := fst (getConsoleErrors (snd clicked)) in
  let newErrors := drop (length before) after in
  success (fst clicked) = true ->
  exists r : TestResult,
    fst (testButton pageUrl results button s) = results ++ [r]
    /\ page r = pageUrl
    /\ test r = test_id button
    /\ (if (length before <? length after)%nat
        then status r = Fail
             /\ details r = Some (JS.join JS.nl (map error_text newErrors))
             /\ length newErrors = length after - length before
        else status r = Pass /\ details r = None).
Proof.
  intros s1 before clicked after newErrors Hok.
  unfold testButton. rewrite !bind_run.
  fold s1. fold before. fold clicked. rewrite Hok. cbn [negb].
  rewrite bind_run. fold after. unfold JS.slice. fold newErrors.
  assert (Hlen : length newErrors = length after - length before)
    by apply length_drop.
  destruct (length before <? length after)%nat eqn:Hrise.
  - apply Nat.ltb_lt in Hrise.
    assert (Hpos : (0 <? length newErrors)%nat = true)
      by (apply Nat.ltb_lt; lia).
    rewrite Hpos, bind_run. cbn [ret fst]. eexists. split; [reflexivity|].
    cbn. auto.
  - apply Nat.ltb_ge in Hrise.
    assert (Hpos : (0 <? length newErrors)%nat = false)
      by (apply Nat.ltb_ge; lia).
    rewrite Hpos. cbn [ret fst]. eexists. split; [reflexivity|].
    cbn. auto.
Qed.

Lemma for_of_testButton_length (pageUrl : string) (bs : list ButtonInfo)
    (results : list TestResult) (s : Session W) :
  length (fst (for_of bs (testButton pageUrl) results s))
  = length results + length bs.
Proof.
  revert results s. induction bs as [|b bs IH]; intros results s.
  - cbn. lia.
  - cbn [for_of]. rewrite bind_run, IH. cbn [length].
    assert (Hone : length (fst (testButton pageUrl results b s))
                   = S (length results)).
    { unfold testButton. rewrite !bind_run.
      destruct (negb _); [cbn; rewrite length_app; cbn; lia|].
      rewrite bind_run. destruct (0 <? _)%nat.
      - rewrite bind_run. cbn. rewrite length_app. cbn. lia.
      - cbn. rewrite length_app. cbn. lia. }
    lia.
Qed.

(** Every testable button gets one outcome. *)
Lemma testButtons_length (pageUrl : string) (buttons : list ButtonInfo)
    (s : Session W) :
  length (fst (testButtons pageUrl buttons s))
  = length (List.filter testable buttons).
Proof.
  unfold testButtons.
  destruct (length (List.filter testable buttons) =? 0)%nat eqn:E.
  - apply Nat.eqb_eq in E. now rewrite E.
  - now rewrite for_of_testButton_length.
Qed.

End ClickFacts.

(** On the noisy page the console holds two errors before the click on
    [#boom] and five after it. *)
Example noisy_page_counts :
  let s1 := snd (goto "http://localhost:3000" Examples.noisy_site) in
  let before := getConsoleErrors s1 in
  let clicked := click "#boom" (snd before) in
  length (fst before) = 2
  /\ success (fst clicked) = true
  /\ length (fst (getConsoleErrors (snd clicked))) = 5.
Proof. repeat split. Qed.

(** Clicking [#quiet] logs nothing: the outcome is a pass. *)
Example quiet_button_passes :
  map status
      (fst (ClickTester.testButton "http://localhost:3000" [] Examples.quiet
              Examples.noisy_site))
  = [Pass].
Proof. reflexivity. Qed.

(** Both buttons of the noisy page are tested, in order. *)
Example noisy_page_buttons :
  map status
      (fst (ClickTester.testButtons "http://localhost:3000"
              [Examples.boom; Examples.quiet] Examples.noisy_site))
  = [Fail; Pass].
Proof. reflexivity. Qed.

(** The scenario of C7 on the noisy page: two errors before the click
    on [#boom], five after, and a fail with the three new texts. *)
Lemma testButton_outcome_witness :
  exists r : TestResult,
    fst (ClickTester.testButton "http://localhost:3000" [] Examples.boom
           Examples.noisy_site) = [] ++ [r]
    /\ page r = "http://localhost:3000"
    /\ test r = ClickTester.test_id Examples.boom
    /\ status r = Fail
    /\ details r = Some (JS.join JS.nl ["third"; "fourth"; "fifth"])
    /\ 3 = 5 - 2.
Proof.
  exact (testButton_outcome "http://localhost:3000" [] Examples.boom
           Examples.noisy_site eq_refl).
Defined.


(** ** VisualChecker *)

Section OverlapFacts.

Import VisualChecker.

Lemma inner_loop_reported (e1 : Element) (rest : list Element)
    (overlaps : list string) (line : string) :
  In line (fold_left (check_pair e1) rest overlaps) ->
  In line overlaps \/ Spec.reported (e1 :: rest) line.
Proof.
  revert overlaps. induction rest as [|e2 rest IH]; intros overlaps Hin.
  - now left.
  - cbn [fold_left] in Hin. apply IH in Hin as [Hin | (a & b & Ha & Hb & Hrep)].
    + unfold check_pair in Hin.
      destruct (zero_area _ _) eqn:Hz; [now left|].
      destruct (overlap _ _) eqn:Ho; [|now left].
      apply in_app_or in Hin as [Hin | [<- | []]]; [now left|].
      right. exists e1, e2. cbn. auto.
    + right. exists a, b. repeat split; try apply Hrep.
      * destruct Ha as [<- | Ha]; cbn; auto.
      * destruct Hb as [<- | Hb]; cbn; auto.
Qed.

Lemma overlaps_from_reported (els : list Element) (overlaps : list string)
    (line : string) :
  In line (overlaps_from els overlaps) ->
  In line overlaps \/ Spec.reported els line.
Proof.
  revert overlaps. induction els as [|e1 rest IH]; intros overlaps Hin.
  - now left.
  - cbn [overlaps_from] in Hin.
    assert (Hinner : In line (fold_left (check_pair e1) rest overlaps) ->
                     In line overlaps \/ Spec.reported (e1 :: rest) line)
      by apply inner_loop_reported.
    destruct (5 <? _)%nat; [auto|].
    apply IH in Hin as [Hin | (a & b & Ha & Hb & Hrep)]; [auto|].
    right. exists a, b. cbn. auto.
Qed.

(** Only pairs whose two rectangles have a non-zero width and height,
    and that intersect, are reported. *)
Lemma checkOverlaps_reported (els : list Element) (line : string) :
  In line (checkOverlaps els) -> Spec.reported els line.
Proof.
  intros Hin. apply overlaps_from_reported in Hin as [[] | Hrep]. exact Hrep.
Qed.

(** Nothing is reported when every element has a zero width or height. *)
Lemma checkOverlaps_zero_area (els : list Element) :
  (forall e, In e els ->
             (width (getBoundingClientRect e) =? 0)%Z
             || (height (getBoundingClientRect e) =? 0)%Z = true) ->
  checkOverlaps els = [].
Proof.
  intros Hzero. destruct (checkOverlaps els) as [|line rest] eqn:E; [reflexivity|].
  assert (Hin : In line (checkOverlaps els)) by (rewrite E; now left).
  apply checkOverlaps_reported in Hin as (e1 & e2 & H1 & _ & _ & Hz & _).
  apply Hzero in H1. unfold zero_area in Hz.
  apply orb_true_iff in H1 as [H1 | H1]; rewrite H1 in Hz; cbn in Hz;
    try discriminate Hz.
  now rewrite orb_true_r in Hz.
Qed.

Lemma inner_loop_grows (e1 : Element) (rest : list Element)
    (overlaps : list string) :
  length overlaps <= length (fold_left (check_pair e1) rest overlaps).
Proof.
  revert overlaps. induction rest as [|e2 rest IH]; intros overlaps; [cbn; lia|].
  cbn [fold_left]. etransitivity; [|apply IH].
  unfold check_pair. destruct (zero_area _ _); [lia|].
  destruct (overlap _ _); [|lia]. rewrite length_app. lia.
Qed.

Lemma overlaps_from_grows (els : list Element) (overlaps : list string) :
  length overlaps <= length (overlaps_from els overlaps).
Proof.
  revert overlaps. induction els as [|e1 rest IH]; intros overlaps; [cbn; lia|].
  cbn [overlaps_from].
  pose proof (inner_loop_grows e1 rest overlaps) as Hinner.
  destruct (5 <? _)%nat; [exact Hinner|].
  etransitivity; [exact Hinner | apply IH].
Qed.

(** An element of non-zero area meets each of its [n] copies. *)
Lemma inner_loop_copies (e : Element) (n : nat) (overlaps : list string) :
  zero_area (getBoundingClientRect e) (getBoundingClientRect e) = false ->
  overlap (getBoundingClientRect e) (getBoundingClientRect e) = true ->
  length (fold_left (check_pair e) (repeat e n) overlaps) = length overlaps + n.
Proof.
  intros Hz Ho. revert overlaps.
  induction n as [|n IH]; intros overlaps; [cbn; lia|].
  cbn [repeat fold_left]. rewrite IH. unfold check_pair.
  rewrite Hz, Ho, length_app. cbn. lia.
Qed.

(** C4. On four interactive elements stacked on the same square the
    check reports all six pairs, and on [n + 1] of them at least [n]:
    the limit is looked at only after the inner loop, and only a length
    above five stops the scan, so the list is not bounded by five. *)
Theorem checkOverlaps_exceeds_five :
  length (checkOverlaps Examples.four_stacked) = 6
  /\ (forall n : nat,
        n <= length (checkOverlaps (repeat (Examples.stacked "a") (S n)))).
Proof.
  split; [reflexivity|].
  intros n. unfold checkOverlaps. cbn [repeat overlaps_from].
  pose proof (inner_loop_copies (Examples.stacked "a") n [] eq_refl eq_refl)
    as Hrow.
  cbn [length] in Hrow.
  destruct (5 <? _)%nat; [lia|].
  etransitivity; [|apply overlaps_from_grows]. lia.
Qed.

End OverlapFacts.


(** ** URL normalisation *)

Section UrlFacts.

Import UrlModel JSText NavigationTester.

Lemma normalizeUrl_unparsed (newURL : string -> option URL) (url : string) :
  newURL url = None ->
  normalizeUrl newURL (normalizeUrl newURL url) = normalizeUrl newURL url.
Proof. intros Hnone. unfold normalizeUrl. now rewrite !Hnone. Qed.

Lemma string_app_nonempty (a b : string) :
  b <> EmptyString -> a +:+ b <> EmptyString.
Proof. intros Hb. destruct a; [exact Hb | discriminate]. Qed.

Lemma dropTrailingSlash_app (a b : string) :
  b <> EmptyString ->
  dropTrailingSlash (a +:+ b) = a +:+ dropTrailingSlash b.
Proof.
  intros Hb. induction a as [|c a IH]; [reflexivity|].
  rewrite !string_app_cons. cbn [dropTrailingSlash]. rewrite IH.
  destruct (a +:+ b) eqn:E; [|reflexivity].
  destruct a; [|discriminate E]. now rewrite string_app_nil_l in E.
Qed.

Lemma dropTrailingSlash_idem (s : string) :
  endsWith s "//" = false ->
  dropTrailingSlash (dropTrailingSlash s) = dropTrailingSlash s.
Proof.
  induction s as [|c rest IH]; [reflexivity|].
  intros Hends. cbn [endsWith] in Hends.
  apply orb_false_iff in Hends as [Hne Hrest].
  destruct rest as [|c2 rest2].
  - cbn. destruct (Ascii.eqb c "/") eqn:Hc; [reflexivity|]. cbn. now rewrite Hc.
  - specialize (IH Hrest).
    change (dropTrailingSlash (String c (String c2 rest2)))
      with (String c (dropTrailingSlash (String c2 rest2))).
    destruct (dropTrailingSlash (String c2 rest2)) as [|d ds] eqn:Hd.
    + cbn. destruct (Ascii.eqb c "/") eqn:Hc; [|reflexivity].
      exfalso. apply Ascii.eqb_eq in Hc. subst c.
      destruct rest2 as [|c3 rest3].
      * cbn in Hd. destruct (Ascii.eqb c2 "/") eqn:Hc2; [|discriminate Hd].
        apply Ascii.eqb_eq in Hc2. subst c2. discriminate Hne.
      * cbn in Hd. discriminate Hd.
    + change (dropTrailingSlash (String c (String d ds)))
        with (String c (dropTrailingSlash (String d ds))).
      now rewrite IH.
Qed.

Lemma all_dropTrailingSlash (p : ascii -> bool) (s : string) :
  all p s = true -> all p (dropTrailingSlash s) = true.
Proof.
  induction s as [|c rest IH]; [reflexivity|].
  cbn [all]. intros [Hc Hrest]%andb_true_iff.
  destruct rest as [|c2 rest2].
  - cbn. destruct (Ascii.eqb c "/"); [reflexivity|]. cbn. now rewrite Hc.
  - change (dropTrailingSlash (String c (String c2 rest2)))
      with (String c (dropTrailingSlash (String c2 rest2))).
    cbn [all]. now rewrite Hc, IH.
Qed.

(** A string is rooted when it is empty or starts with a slash. *)
Lemma rooted_dropTrailingSlash (s : string) :
  (s = EmptyString \/ exists rest, s = String "/" rest) ->
  dropTrailingSlash s = EmptyString
  \/ exists rest, dropTrailingSlash s = String "/" rest.
Proof.
  intros [-> | [rest ->]]; [now left|].
  destruct rest as [|c rest]; [now left|]. right.
  change (dropTrailingSlash (String "/" (String c rest)))
    with (String "/" (dropTrailingSlash (String c rest))).
  eauto.
Qed.

Lemma span_split (p : ascii -> bool) (s a b : string) :
  span p s = (a, b) ->
  s = a +:+ b /\ all p a = true
  /\ (b = EmptyString \/ exists c rest, b = String c rest /\ p c = false).
Proof.
  revert a b. induction s as [|c rest IH]; intros a b Hspan; cbn in Hspan.
  - injection Hspan as <- <-. auto.
  - destruct (p c) eqn:Hc.
    + destruct (span p rest) as [a' b'] eqn:Hrest.
      injection Hspan as <- <-.
      destruct (IH a' b' eq_refl) as (-> & Hall & Hb).
      rewrite string_app_cons. cbn [all]. rewrite Hc, Hall. auto.
    + injection Hspan as <- <-. repeat split. right. eauto.
Qed.

Lemma span_app (p : ascii -> bool) (a b : string) :
  all p a = true ->
  (b = EmptyString \/ exists c rest, b = String c rest /\ p c = false) ->
  span p (a +:+ b) = (a, b).
Proof.
  intros Hall Hb. induction a as [|c a IH].
  - rewrite string_app_nil_l.
    destruct Hb as [-> | (c & rest & -> & Hc)]; [reflexivity|].
    cbn. now rewrite Hc.
  - cbn [all] in Hall. apply andb_true_iff in Hall as [Hc Hall].
    rewrite string_app_cons. cbn [span]. now rewrite Hc, (IH Hall).
Qed.

Lemma all_weaken (p q : ascii -> bool) (s : string) :
  (forall c, p c = true -> q c = true) -> all p s = true -> all q s = true.
Proof.
  intros Hpq. induction s as [|c rest IH]; [reflexivity|].
  cbn [all]. intros [Hc Hrest]%andb_true_iff. now rewrite (Hpq c Hc), IH.
Qed.

Lemma path_char_inside (c : ascii) :
  path_char c = true -> negb (ends_path c) = true.
Proof.
  destruct c as [[] [] [] [] [] [] [] []]; vm_compute; congruence.
Qed.

Lemma strip_prefix_split (p s rest : string) :
  strip_prefix p s = Some rest -> s = p +:+ rest.
Proof.
  revert s. induction p as [|a p IH]; intros s Hs.
  - cbn in Hs. now injection Hs as ->.
  - destruct s as [|b s]; [discriminate Hs|]. cbn in Hs.
    destruct (Ascii.eqb a b) eqn:Hab; [|discriminate Hs].
    apply Ascii.eqb_eq in Hab. subst b.
    rewrite string_app_cons. f_equal. now apply IH.
Qed.

Lemma scheme_of_split (s scheme rest : string) :
  scheme_of s = Some (scheme, rest) ->
  s = scheme +:+ rest /\ (scheme = "https://" \/ scheme = "http://").
Proof.
  unfold scheme_of. intros Hs.
  destruct (strip_prefix "https://" s) as [r|] eqn:Hhttps.
  - injection Hs as <- <-. split; [now apply strip_prefix_split | now left].
  - destruct (strip_prefix "http://" s) as [r|] eqn:Hhttp; [|discriminate Hs].
    injection Hs as <- <-. split; [now apply strip_prefix_split | now right].
Qed.

Lemma scheme_of_app (scheme rest : string) :
  scheme = "https://" \/ scheme = "http://" ->
  scheme_of (scheme +:+ rest) = Some (scheme, rest).
Proof. intros [-> | ->]; reflexivity. Qed.

(** What a successful parse of the model says about its input. *)
Lemma newURL_parts (s : string) (u : URL) :
  newURL s = Some u ->
  exists scheme authority path : string,
    (scheme = "https://" \/ scheme = "http://")
    /\ all (fun c => negb (ends_authority c)) authority = true
    /\ valid_authority authority = true
    /\ all path_char path = true
    /\ (path = EmptyString \/ exists rest, path = String "/" rest)
    /\ origin u = scheme +:+ authority
    /\ pathname u = JS.or_else path "/".
Proof.
  unfold newURL. intros Hs.
  destruct (scheme_of s) as [[scheme rest]|] eqn:Hscheme; [|discriminate Hs].
  destruct (span (fun c => negb (ends_authority c)) rest)
    as [authority rest1] eqn:Hauth.
  destruct (span (fun c => negb (ends_path c)) rest1) as [path rest2] eqn:Hpath.
  destruct (valid_authority authority && all path_char path) eqn:Hvalid;
    [|discriminate Hs].
  injection Hs as <-.
  apply andb_true_iff in Hvalid as [Hva Hpc].
  apply scheme_of_split in Hscheme as [_ Hsch].
  apply span_split in Hauth as (_ & Hall & Hrest1).
  apply span_split in Hpath as (Hcat & _ & _).
  exists scheme, authority, path. repeat split; try assumption.
  destruct path as [|c path']; [now left|]. right.
  destruct Hrest1 as [-> | (c1 & r1 & -> & Hc1)]; [discriminate Hcat|].
  rewrite string_app_cons in Hcat. injection Hcat as <- _.
  cbn [all] in Hpc. apply andb_true_iff in Hpc as [Hc _].
  exists path'. f_equal.
  apply negb_false_iff in Hc1. revert Hc Hc1.
  destruct c1 as [[] [] [] [] [] [] [] []]; vm_compute; congruence.
Qed.

(** The model parses an origin followed by a rooted path of path
    characters back into that origin and that path. *)
Lemma newURL_build (scheme authority path : string) :
  scheme = "https://" \/ scheme = "http://" ->
  all (fun c => negb (ends_authority c)) authority = true ->
  valid_authority authority = true ->
  all path_char path = true ->
  (path = EmptyString \/ exists rest, path = String "/" rest) ->
  newURL (scheme +:+ authority +:+ path)
  = Some {| origin := scheme +:+ authority; pathname := JS.or_else path "/" |}.
Proof.
  intros Hsch Hall Hva Hpc Hrooted. unfold newURL.
  rewrite (scheme_of_app _ _ Hsch).
  rewrite (span_app _ authority path Hall).
  2:{ destruct Hrooted as [-> | [rest ->]]; [now left|]. right. eauto. }
  rewrite <- (string_app_nil_r path) at 1.
  rewrite (span_app _ path EmptyString); [|eapply all_weaken; [|exact Hpc] | now left].
  - now rewrite Hva, Hpc.
  - exact path_char_inside.
Qed.

Lemma rooted_cases (p : string) :
  UrlLaws.rooted p = true -> exists rest, p = String "/" rest.
Proof.
  unfold UrlLaws.rooted.
  destruct p as [|c rest]; cbn [String.prefix]; [discriminate|].
  destruct (ascii_dec "/" c) as [<-|]; [|discriminate].
  eauto.
Qed.

(** For a parser that reads back what it wrote, normalising twice is
    normalising once on every rooted pathname that does not end in two
    slashes. *)
Lemma normalizeUrl_lawful (parse : string -> option URL) (url : string)
    (u : URL) :
  UrlLaws.reparses parse ->
  parse url = Some u ->
  UrlLaws.rooted (pathname u) = true ->
  endsWith (pathname u) "//" = false ->
  normalizeUrl parse (normalizeUrl parse url) = normalizeUrl parse url.
Proof.
  intros [Htuple Hnull] Hu Hroot Hends.
  destruct (rooted_cases _ Hroot) as [rest Hp].
  assert (Hnorm : normalizeUrl parse url
                  = origin u +:+ dropTrailingSlash (pathname u)).
  { unfold normalizeUrl. rewrite Hu. apply dropTrailingSlash_app.
    rewrite Hp. discriminate. }
  rewrite Hnorm.
  destruct (string_dec (origin u) "null") as [Hopaque | Hown].
  - rewrite Hopaque. unfold normalizeUrl at 1. rewrite Hnull; [reflexivity|].
    destruct (rooted_dropTrailingSlash (pathname u)) as [-> | [r ->]];
      [right; eauto | now left | right; now destruct r].
  - destruct (Htuple url u Hu Hown Hroot) as (u' & Hparse & Ho & Hpn).
    unfold normalizeUrl at 1. rewrite Hparse, Ho, Hpn.
    unfold JS.or_else.
    destruct (dropTrailingSlash (pathname u)) as [|c q] eqn:Hq;
      cbn [JS.truthy].
    + now rewrite dropTrailingSlash_app by discriminate.
    + rewrite dropTrailingSlash_app by discriminate.
      f_equal. rewrite <- Hq. now apply dropTrailingSlash_idem.
Qed.

(** The model of the parser reads back what it wrote. *)
Lemma UrlModel_reparses : UrlLaws.reparses newURL.
Proof.
  split.
  - intros s u Hu _ _.
    destruct (newURL_parts _ _ Hu)
      as (scheme & authority & path & Hsch & Hall & Hva & Hpc & Hrooted
          & Ho & Hp).
    assert (Hpn : all path_char (pathname u) = true
                  /\ (pathname u = EmptyString
                      \/ exists rest, pathname u = String "/" rest)).
    { rewrite Hp. unfold JS.or_else.
      destruct Hrooted as [-> | [rest ->]]; cbn [JS.truthy].
      - split; [reflexivity | right; eauto].
      - split; [exact Hpc | right; eauto]. }
    destruct Hpn as [Hpcn Hrootn].
    eexists. rewrite Ho, string_app_assoc.
    rewrite (newURL_build scheme authority (dropTrailingSlash (pathname u))
               Hsch Hall Hva (all_dropTrailingSlash _ _ Hpcn)
               (rooted_dropTrailingSlash _ Hrootn)).
    split; [reflexivity|]. split; reflexivity.
  - intros rest [-> | Hrest]; [reflexivity|].
    destruct (rooted_cases _ Hrest) as [r ->]. reflexivity.
Qed.

Lemma opaque_origin (s : string) (u : URL) :
  OpaqueUrl.opaque s = Some u -> origin u = "null".
Proof.
  unfold OpaqueUrl.opaque.
  destruct (span OpaqueUrl.scheme_char s) as [scheme rest].
  destruct scheme as [|c scheme]; [discriminate|].
  destruct rest as [|colon path]; [discriminate|].
  destruct (_ && _); [|discriminate].
  now intros [= <-].
Qed.

(** So does its extension by the URLs with an opaque path. *)
Lemma OpaqueUrl_reparses : UrlLaws.reparses OpaqueUrl.newURL.
Proof.
  destruct UrlModel_reparses as [Htuple Hnull].
  split.
  - intros s u Hu Hown Hroot. unfold OpaqueUrl.newURL in Hu.
    destruct (newURL s) as [v|] eqn:Hv.
    + injection Hu as ->.
      destruct (Htuple s u Hv Hown Hroot) as (u' & Hparse & Ho & Hpn).
      exists u'. unfold OpaqueUrl.newURL. rewrite Hparse. auto.
    + apply opaque_origin in Hu. contradiction.
  - intros rest Hrest. unfold OpaqueUrl.newURL. rewrite (Hnull rest Hrest).
    destruct Hrest as [-> | Hrest]; [reflexivity|].
    destruct (rooted_cases _ Hrest) as [r ->]. reflexivity.
Qed.

(** C8 (amended). Normalising twice is the same as normalising once for
    every string that does not parse, whatever the parser, and, for a
    parser that reads back what it wrote, for every string that parses
    to a URL whose pathname starts with a slash, as it does for every
    http, https and file URL, and does not end in two slashes. *)
Theorem normalizeUrl_idempotent :
  (forall (parse : string -> option URL) (url : string),
     parse url = None ->
     normalizeUrl parse (normalizeUrl parse url) = normalizeUrl parse url)
  /\ (forall (parse : string -> option URL) (url : string) (u : URL),
        UrlLaws.reparses parse ->
        parse url = Some u ->
        UrlLaws.rooted (pathname u) = true ->
        endsWith (pathname u) "//" = false ->
        normalizeUrl parse (normalizeUrl parse url) = normalizeUrl parse url).
Proof.
  split.
  - exact normalizeUrl_unparsed.
  - exact normalizeUrl_lawful.
Qed.

End UrlFacts.

(** A URL with a trailing slash and a string that is no URL,
    normalised once and twice. *)
Lemma normalizeUrl_idempotent_witness :
  NavigationTester.normalizeUrl UrlModel.newURL
    (NavigationTester.normalizeUrl UrlModel.newURL "http://localhost:3000/about/")
  = NavigationTester.normalizeUrl UrlModel.newURL "http://localhost:3000/about/"
  /\ NavigationTester.normalizeUrl UrlModel.newURL
       (NavigationTester.normalizeUrl UrlModel.newURL "not a url")
     = NavigationTester.normalizeUrl UrlModel.newURL "not a url".
Proof.
  split.
  - apply (proj2 normalizeUrl_idempotent UrlModel.newURL
             "http://localhost:3000/about/"
             {| origin := "http://localhost:3000"; pathname := "/about/" |}).
    + exact UrlModel_reparses.
    + reflexivity.
    + reflexivity.
    + reflexivity.
  - apply (proj1 normalizeUrl_idempotent UrlModel.newURL "not a url").
    reflexivity.
Defined.

(** C8 as stated fails: a pathname ending in two slashes loses one
    slash at each normalisation; and for a URL with an opaque path the
    origin [null] and the path run together into a string that parses
    again, to another path. *)
Lemma normalizeUrl_counterexample :
  NavigationTester.normalizeUrl UrlModel.newURL "http://a.com//" = "http://a.com/"
  /\ NavigationTester.normalizeUrl UrlModel.newURL "http://a.com/" = "http://a.com"
  /\ NavigationTester.normalizeUrl UrlModel.newURL
       (NavigationTester.normalizeUrl UrlModel.newURL "http://a.com//")
     <> NavigationTester.normalizeUrl UrlModel.newURL "http://a.com//"
  /\ NavigationTester.normalizeUrl OpaqueUrl.newURL "urn:isbn:0451450523"
     = "nullisbn:0451450523"
  /\ NavigationTester.normalizeUrl OpaqueUrl.newURL "nullisbn:0451450523"
     = "null0451450523".
Proof. repeat split. vm_compute. discriminate. Qed.


(** ** NavigationTester *)

Section CrawlerFacts.

Context {W : Type} `{BrowserEngine W}.
Variable newURL : string -> option URL.
Import NavigationTester.

Local Abbreviation normalize := (normalizeUrl newURL).

Lemma gotos_app (a b : list Call) :
  Spec.gotos (a ++ b) = Spec.gotos a ++ Spec.gotos b.
Proof.
  induction a as [|c a IH]; [reflexivity|].
  destruct c; cbn; now rewrite ?IH.
Qed.

Lemma loaded_gotos_app (a b : list Call) :
  Spec.loaded_gotos (a ++ b) = Spec.loaded_gotos a ++ Spec.loaded_gotos b.
Proof.
  induction a as [|c a IH]; [reflexivity|].
  destruct c as [| ? [] | | | | | | | |]; cbn; now rewrite ?IH.
Qed.

(** The state after marking a fresh URL and navigating to it. *)
Lemma crawled_navigate (calls more : list Call) (st st' : CrawlState)
    (url : string) (loaded : bool) :
  Spec.crawled normalize calls st ->
  (size (visited st) <? MAX_PAGES)%nat = true ->
  bool_decide (normalize url ∈ visited st) = false ->
  Spec.gotos more = [url] ->
  Spec.loaded_gotos more = (if loaded then [url] else []) ->
  visited st' = {[ normalize url ]} ∪ visited st ->
  length (st_pages st') = length (st_pages st) + (if loaded then 1 else 0) ->
  Spec.crawled normalize (calls ++ more) st'.
Proof.
  intros (Hvis & Hnodup & Hpages & Hcap) Hroom Hfresh Hgo Hload Hvis' Hpages'.
  apply bool_decide_eq_false in Hfresh. apply Nat.ltb_lt in Hroom.
  unfold Spec.crawled.
  rewrite gotos_app, loaded_gotos_app, Hgo, Hload, map_app, Hvis', Hpages'.
  repeat split.
  - rewrite Hvis, list_to_set_app_L.
    change (map normalize [url]) with [normalize url].
    apply set_eq. intros x.
    rewrite !elem_of_union, !elem_of_list_to_set, list_elem_of_singleton,
      elem_of_singleton.
    tauto.
  - apply NoDup_app. repeat split; [exact Hnodup | | apply NoDup_singleton].
    intros x Hx Hx'. apply list_elem_of_singleton in Hx'. subst x.
    apply Hfresh. rewrite Hvis. now apply elem_of_list_to_set.
  - rewrite length_app, Hpages. now destruct loaded.
  - rewrite size_union by now apply disjoint_singleton_l.
    rewrite size_singleton. lia.
Qed.

Lemma crawl_body_step (st : CrawlState) (s : Session W) (calls : list Call) :
  crawl_guard st = true ->
  Spec.crawled normalize calls st ->
  exists more : list Call,
    snd (snd (crawl_body newURL st s)) = snd s ++ more
    /\ Spec.crawled normalize (calls ++ more) (fst (crawl_body newURL st s)).
Proof.
  intros Hguard Hinv. unfold crawl_guard in Hguard.
  apply andb_true_iff in Hguard as [Hqueue Hroom].
  unfold crawl_body.
  destruct (toVisit st) as [|url queue] eqn:Hq; [discriminate Hqueue|].
  destruct (bool_decide (normalize url ∈ visited st)) eqn:Hfresh.
  - exists []. rewrite !List.app_nil_r. split; [reflexivity|]. exact Hinv.
  - rewrite !bind_run. unfold newPage, goto. rewrite !logged_run. cbn [fst snd].
    destruct (fst (be_goto url (be_newPage (fst s)))) eqn:Hloaded; cbn [negb].
    + rewrite !bind_run. unfold getPageInfo, getPageText.
      rewrite !logged_run. cbn [fst snd ret].
      exists [CNewPage; CGoto url true; CGetPageInfo url; CGetPageText].
      split; [now rewrite <- !List.app_assoc|].
      eapply (crawled_navigate _ _ st _ url true); eauto.
      cbn [st_pages]. now rewrite length_app.
    + cbn [fst snd ret].
      exists [CNewPage; CGoto url false].
      split; [now rewrite <- !List.app_assoc|].
      eapply (crawled_navigate _ _ st _ url false); eauto.
Qed.

Lemma crawl_loop_crawled (fuel : nat) :
  forall (st : CrawlState) (s : Session W) (calls : list Call) (st' : CrawlState),
    Spec.crawled normalize calls st ->
    fst (crawl_loop newURL fuel st s) = Some st' ->
    exists more : list Call,
      snd (snd (crawl_loop newURL fuel st s)) = snd s ++ more
      /\ Spec.crawled normalize (calls ++ more) st'.
Proof.
  induction fuel as [|fuel IH]; intros st s calls st' Hinv Hrun;
    [discriminate Hrun|].
  cbn [crawl_loop] in *.
  destruct (crawl_guard st) eqn:Hguard.
  - rewrite bind_run in *.
    destruct (crawl_body_step st s calls Hguard Hinv) as (more & Htr & Hinv').
    destruct (IH _ _ _ _ Hinv' Hrun) as (more' & Htr' & Hinv'').
    exists (more ++ more'). rewrite Htr', Htr, !List.app_assoc. auto.
  - cbn in Hrun. injection Hrun as <-. exists []. cbn.
    now rewrite !List.app_nil_r.
Qed.

Lemma crawled_initial (baseUrl : string) :
  Spec.crawled normalize [] (initial baseUrl).
Proof.
  unfold Spec.crawled. cbn [initial visited st_pages Spec.gotos Spec.loaded_gotos map].
  split; [reflexivity|]. split; [apply NoDup_nil_2|]. split; [reflexivity|].
  rewrite size_empty. unfold MAX_PAGES. lia.
Qed.

(** A URL whose navigation fails is marked visited all the same, adds
    the [page-load] failure and no page, and its links are not read. *)
Lemma crawl_body_failed_load (st : CrawlState) (s : Session W)
    (url : string) (queue : list string) :
  toVisit st = url :: queue ->
  bool_decide (normalize url ∈ visited st) = false ->
  fst (goto url (snd (newPage s))) = false ->
  fst (crawl_body newURL st s)
  = {| st_results :=
         st_results st ++
         [ {| page := url;
              test := "page-load";
              status := Fail;
              message := "Page failed to load: " +:+ url;
              screenshot := None;
              details := None |} ];
       st_pages := st_pages st;
       visited := {[ normalize url ]} ∪ visited st;
       toVisit := queue |}.
Proof.
  intros Hq Hfresh Hfail. unfold crawl_body. rewrite Hq, Hfresh.
  rewrite !bind_run, Hfail. reflexivity.
Qed.

(** Each pass through the loop body either drops a queued URL that was
    already visited, or visits a new one. *)
Lemma crawl_body_progress (st : CrawlState) (s : Session W) :
  crawl_guard st = true ->
  (visited (fst (crawl_body newURL st s)) = visited st
   /\ length (toVisit (fst (crawl_body newURL st s))) < length (toVisit st))
  \/ size (visited (fst (crawl_body newURL st s))) = S (size (visited st)).
Proof.
  intros Hguard. unfold crawl_guard in Hguard.
  apply andb_true_iff in Hguard as [Hqueue _].
  unfold crawl_body.
  destruct (toVisit st) as [|url queue] eqn:Hq; [discriminate Hqueue|].
  destruct (bool_decide (normalize url ∈ visited st)) eqn:Hfresh.
  - left. cbn. split; [reflexivity | lia].
  - right. apply bool_decide_eq_false in Hfresh.
    assert (Hsize : size ({[ normalize url ]} ∪ visited st) = S (size (visited st))).
    { rewrite size_union by now apply disjoint_singleton_l.
      now rewrite size_singleton. }
    rewrite !bind_run. destruct (negb _); [exact Hsize|].
    rewrite !bind_run. exact Hsize.
Qed.

Lemma crawl_loop_terminates_within (n : nat) :
  forall (m : nat) (st : CrawlState) (s : Session W),
    MAX_PAGES - size (visited st) <= n ->
    length (toVisit st) <= m ->
    exists (fuel : nat) (st' : CrawlState),
      fst (crawl_loop newURL fuel st s) = Some st'.
Proof.
  induction n as [|n IHn]; induction m as [|m IHm]; intros st s Hn Hm;
    destruct (crawl_guard st) eqn:Hguard;
    try (exists 1, st; cbn [crawl_loop]; now rewrite Hguard);
    pose proof Hguard as Hroom; unfold crawl_guard in Hroom;
    apply andb_true_iff in Hroom as [_ Hroom%Nat.ltb_lt];
    destruct (crawl_body_progress st s Hguard) as [[Hsame Hshort] | Hgrow];
    try lia.
  - destruct (IHn (length (toVisit (fst (crawl_body newURL st s))))
                  (fst (crawl_body newURL st s)) (snd (crawl_body newURL st s)))
      as (fuel & st' & Hrun); [lia | lia |].
    exists (S fuel), st'. cbn [crawl_loop]. now rewrite Hguard, bind_run.
  - destruct (IHm (fst (crawl_body newURL st s)) (snd (crawl_body newURL st s)))
      as (fuel & st' & Hrun); [rewrite Hsame; lia | lia |].
    exists (S fuel), st'. cbn [crawl_loop]. now rewrite Hguard, bind_run.
  - destruct (IHn (length (toVisit (fst (crawl_body newURL st s))))
                  (fst (crawl_body newURL st s)) (snd (crawl_body newURL st s)))
      as (fuel & st' & Hrun); [lia | lia |].
    exists (S fuel), st'. cbn [crawl_loop]. now rewrite Hguard, bind_run.
Qed.

(** The crawl returns: some amount of fuel is enough, whatever the
    driver answers. *)
Theorem discoverAndTestPages_terminates (baseUrl : string) (s : Session W) :
  exists (fuel : nat) (r : list TestResult * list PageInfo),
    fst (discoverAndTestPages newURL fuel baseUrl s) = Some r.
Proof.
  destruct (crawl_loop_terminates_within
              (MAX_PAGES - size (visited (initial baseUrl)))
              (length (toVisit (initial baseUrl))) (initial baseUrl) s)
    as (fuel & st & Hrun); [lia | lia |].
  exists fuel, (st_results st, st_pages st).
  unfold discoverAndTestPages. rewrite bind_run, Hrun. reflexivity.
Qed.

(** C2. In a run of [discoverAndTestPages] the URLs navigated to have
    pairwise distinct normal forms, and there are at most [MAX_PAGES]
    of them. *)
Theorem crawl_visits_bounded (fuel : nat) (baseUrl : string) (s : Session W)
    (r : list TestResult * list PageInfo) :
  fst (discoverAndTestPages newURL fuel baseUrl s) = Some r ->
  exists calls : list Call,
    snd (snd (discoverAndTestPages newURL fuel baseUrl s)) = snd s ++ calls
    /\ NoDup (map normalize (Spec.gotos calls))
    /\ length (map normalize (Spec.gotos calls)) <= MAX_PAGES.
Proof.
  unfold discoverAndTestPages. rewrite bind_run. cbn [ret fst snd].
  destruct (fst (crawl_loop newURL fuel (initial baseUrl) s)) as [st|] eqn:Hrun;
    [|discriminate].
  intros _.
  destruct (crawl_loop_crawled fuel _ s [] st (crawled_initial baseUrl) Hrun)
    as (calls & Htr & Hvis & Hnodup & _ & Hcap).
  exists calls. repeat split; [exact Htr | exact Hnodup |].
  rewrite List.app_nil_l in *. rewrite Hvis in Hcap.
  now rewrite size_list_to_set in Hcap.
Qed.

(** C9. At the end of the crawl the visited set holds the normal form
    of every URL navigated to, whether it loaded or not, so each of them
    took one of the [MAX_PAGES] places; none was navigated to a second
    time; and the pages are as many as the navigations that loaded. *)
Theorem failed_navigation_counts (fuel : nat) (baseUrl : string)
    (s : Session W) (st : CrawlState) :
  fst (crawl_loop newURL fuel (initial baseUrl) s) = Some st ->
  exists calls : list Call,
    snd (snd (crawl_loop newURL fuel (initial baseUrl) s)) = snd s ++ calls
    /\ visited st = list_to_set (map normalize (Spec.gotos calls))
    /\ size (visited st) = length (Spec.gotos calls)
    /\ size (visited st) <= MAX_PAGES
    /\ NoDup (map normalize (Spec.gotos calls))
    /\ length (st_pages st) = length (Spec.loaded_gotos calls).
Proof.
  intros Hrun.
  destruct (crawl_loop_crawled fuel _ s [] st (crawled_initial baseUrl) Hrun)
    as (calls & Htr & Hvis & Hnodup & Hpages & Hcap).
  exists calls. rewrite List.app_nil_l in *.
  repeat split; try assumption.
  rewrite Hvis, size_list_to_set by exact Hnodup. apply length_map.
Qed.

End CrawlerFacts.

(** The crawl of the small site: the home page and its two links load,
    the missing page is navigated to once and fails, and the link back
    to the home page is not followed. *)
Example small_site_crawl :
  let run := NavigationTester.discoverAndTestPages UrlModel.newURL 20
               "http://a.com" Examples.small_site in
  Spec.gotos (snd (snd run))
  = ["http://a.com"; "http://a.com/b"; "http://a.com/c"; "http://a.com/missing"]
  /\ Spec.loaded_gotos (snd (snd run))
     = ["http://a.com"; "http://a.com/b"; "http://a.com/c"]
  /\ option_map (fun r => map page_url (snd r)) (fst run)
     = Some ["http://a.com"; "http://a.com/b"; "http://a.com/c"].
Proof. vm_compute. repeat split. Qed.

(** The crawl of the ring stops at the cap. *)
Example ring_site_crawl :
  let run := NavigationTester.discoverAndTestPages UrlModel.newURL 20
               "http://a.com/a/" Examples.ring_site in
  length (Spec.gotos (snd (snd run))) = 10
  /\ option_map (fun r => length (snd r)) (fst run) = Some 10.
Proof. vm_compute. repeat split. Qed.

(** C2 on the crawl of the small site. *)
Lemma crawl_visits_bounded_witness :
  exists calls : list Call,
    snd (snd (NavigationTester.discoverAndTestPages UrlModel.newURL 20
                "http://a.com" Examples.small_site))
    = snd Examples.small_site ++ calls
    /\ NoDup (map (NavigationTester.normalizeUrl UrlModel.newURL)
                  (Spec.gotos calls))
    /\ length (map (NavigationTester.normalizeUrl UrlModel.newURL)
                   (Spec.gotos calls))
       <= NavigationTester.MAX_PAGES.
Proof.
  eapply crawl_visits_bounded. vm_compute. reflexivity.
Defined.

(** C9 on the crawl of the small site, whose missing page fails to
    load. *)
Lemma failed_navigation_counts_witness :
  let run := NavigationTester.crawl_loop UrlModel.newURL 20
               (NavigationTester.initial "http://a.com") Examples.small_site in
  let st := default (NavigationTester.initial "http://a.com") (fst run) in
  exists calls : list Call,
    snd (snd run) = snd Examples.small_site ++ calls
    /\ NavigationTester.visited st
       = list_to_set (map (NavigationTester.normalizeUrl UrlModel.newURL)
                          (Spec.gotos calls))
    /\ size (NavigationTester.visited st) = length (Spec.gotos calls)
    /\ size (NavigationTester.visited st) <= NavigationTester.MAX_PAGES
    /\ NoDup (map (NavigationTester.normalizeUrl UrlModel.newURL)
                  (Spec.gotos calls))
    /\ length (NavigationTester.st_pages st)
       = length (Spec.loaded_gotos calls).
Proof.
  intros run st.
  assert (Hrun : fst run = Some st) by (vm_compute; reflexivity).
  exact (failed_navigation_counts UrlModel.newURL 20 "http://a.com"
           Examples.small_site st Hrun).
Defined.

(** * Further properties *)

(** ** Reporter: fix instructions and formatting *)

Section FixFacts.

Import Reporter.

Lemma fold_left_issue_blocks (failures : list TestResult) (init : string) :
  fold_left
    (fun instructions failure =>
       let instructions :=
         instructions +:+ ("### Issue: " +:+ test failure +:+ JS.nl) in
       let instructions :=
         instructions +:+ ("- **Page:** " +:+ page failure +:+ JS.nl) in
       let instructions :=
         instructions +:+ ("- **Problem:** " +:+ message failure +:+ JS.nl) in
       let instructions :=
         if JS.truthy_opt (details failure) then
           instructions
           +:+ ("- **Details:**" +:+ JS.nl +:+ "```" +:+ JS.nl
                +:+ default EmptyString (details failure) +:+ JS.nl
                +:+ "```" +:+ JS.nl)
         else instructions in
       instructions
       +:+ ("- **Suggested fix:** " +:+ suggestFix failure +:+ JS.nl +:+ JS.nl))
    failures init
  = init +:+ Spec.concat_all (map Shape.issue_block failures).
Proof.
  revert init. induction failures as [|f fs IH]; intros init.
  - cbn. now rewrite string_app_nil_r.
  - cbn [fold_left map Spec.concat_all fold_right]. rewrite IH.
    unfold Shape.issue_block.
    destruct (JS.truthy_opt (details f));
      now rewrite ?string_app_assoc, ?string_app_nil_l.
Qed.

Lemma buildFixInstructions_blocks (rs : list TestResult) :
  buildFixInstructions rs
  = if (Spec.tally Fail rs =? 0)%nat then Shape.no_fixes
    else Shape.fix_intro
         +:+ Spec.concat_all (map Shape.issue_block (with_status Fail rs)).
Proof.
  unfold buildFixInstructions. rewrite length_with_status.
  destruct (Spec.tally Fail rs =? 0)%nat; [reflexivity|].
  rewrite fold_left_issue_blocks. unfold Shape.fix_intro.
  now rewrite !string_app_assoc.
Qed.

Lemma with_status_idem (s : Status) (rs : list TestResult) :
  with_status s (with_status s rs) = with_status s rs.
Proof.
  unfold with_status. induction rs as [|r rs IH]; [reflexivity|].
  cbn [List.filter]. destruct (has_status s r) eqn:Hr; [|exact IH].
  cbn [List.filter]. now rewrite Hr, IH.
Qed.

(** X1. The fix instructions are the sentence that no fixes are needed
    exactly when no outcome failed. *)
Theorem buildFixInstructions_no_fixes (rs : list TestResult) :
  buildFixInstructions rs = Shape.no_fixes <-> Spec.tally Fail rs = 0.
Proof.
  rewrite buildFixInstructions_blocks.
  destruct (Spec.tally Fail rs =? 0)%nat eqn:E.
  - apply Nat.eqb_eq in E. tauto.
  - apply Nat.eqb_neq in E. split; [|tauto].
    intros Heq. exfalso. unfold Shape.fix_intro in Heq.
    rewrite !string_app_assoc in Heq. discriminate Heq.
Qed.

(** X2. The fix instructions depend on the failures only, and hold one
    block per failure, in the order of the outcomes: passes and
    warnings add nothing. *)
Theorem buildFixInstructions_failures_only (rs : list TestResult) :
  buildFixInstructions rs = buildFixInstructions (with_status Fail rs)
  /\ buildFixInstructions rs
     = (if (Spec.tally Fail rs =? 0)%nat then Shape.no_fixes
        else Shape.fix_intro
             +:+ Spec.concat_all
                   (map Shape.issue_block (with_status Fail rs))).
Proof.
  split; [|apply buildFixInstructions_blocks].
  rewrite !buildFixInstructions_blocks, with_status_idem.
  now rewrite <- !length_with_status, with_status_idem.
Qed.

Lemma compile_summary_sections_eq (now url : string) (rs : list TestResult) :
  summary (compile now url rs) = Spec.summary_by_sections url rs.
Proof.
  cbn [compile summary]. rewrite !length_with_status.
  apply buildSummary_sections.
Qed.

(** X3. The formatted report of a compiled run is the summary and a
    newline when nothing failed, warnings or not; with a failure the
    fix instructions and the closing request follow. *)
Theorem formatForCopilot_compile (now url : string) (rs : list TestResult) :
  formatForCopilot (compile now url rs)
  = Spec.summary_by_sections url rs +:+ JS.nl
    +:+ (if (Spec.tally Fail rs =? 0)%nat then EmptyString
         else buildFixInstructions rs +:+ JS.nl +:+ Shape.closing).
Proof.
  unfold formatForCopilot.
  change (failed (compile now url rs)) with (length (with_status Fail rs)).
  change (fixInstructions (compile now url rs)) with (buildFixInstructions rs).
  rewrite compile_summary_sections_eq, length_with_status.
  destruct (Spec.tally Fail rs) as [|n]; cbn [Nat.ltb Nat.leb Nat.eqb].
  - now rewrite string_app_nil_r.
  - unfold Shape.closing. now rewrite !string_app_assoc.
Qed.

End FixFacts.

(** ** Substrings *)

Section SubstringFacts.







Lemma toLowerCase_app (a b : string) :
  JS.toLowerCase (a +:+ b) = JS.toLowerCase a +:+ JS.toLowerCase b.
Proof.
  induction a as [|c a IH]; [reflexivity|].
  rewrite string_app_cons. cbn [JS.toLowerCase].
  now rewrite IH, string_app_cons.
Qed.

Lemma includes_empty (s : string) : JS.includes s EmptyString = true.
Proof. destruct s; reflexivity. Qed.


Lemma prefix_app (kw a b : string) :
  String.prefix kw a = true -> String.prefix kw (a +:+ b) = true.
Proof.
  revert a. induction kw as [|k kw IH]; intros a Hpre; [now destruct (a +:+ b)|].
  destruct a as [|c a]; [discriminate Hpre|].
  rewrite string_app_cons. cbn [String.prefix] in *.
  destruct (ascii_dec k c); [now apply IH | discriminate Hpre].
Qed.

Lemma includes_app_l (a b kw : string) :
  JS.includes a kw = true -> JS.includes (a +:+ b) kw = true.
Proof.
  induction a as [|c a IH]; intros Hin.
  - cbn in Hin. rewrite orb_false_r in Hin.
    destruct kw; [apply includes_empty | discriminate Hin].
  - rewrite string_app_cons. cbn [JS.includes] in *.
    apply orb_true_iff in Hin as [Hpre | Hin].
    + rewrite <- string_app_cons. now rewrite (prefix_app _ _ b Hpre).
    + rewrite (IH Hin). apply orb_true_r.
Qed.

Lemma includes_app_r (a b kw : string) :
  JS.includes b kw = true -> JS.includes (a +:+ b) kw = true.
Proof.
  intros Hin. induction a as [|c a IH]; [exact Hin|].
  rewrite string_app_cons. cbn [JS.includes]. rewrite IH. apply orb_true_r.
Qed.

End SubstringFacts.

(** ** NavigationTester: the context of an error indicator *)

Section ContextFacts.

Import NavigationTester.


End ContextFacts.


(** ** NavigationTester: outcomes and provenance of the crawl *)

Section CrawlOutcomeFacts.

Context {W : Type} `{BrowserEngine W}.
Variable newURL : string -> option URL.
Import NavigationTester.

Local Abbreviation normalize := (normalizeUrl newURL).

(** The three ways through the loop body. *)
Lemma crawl_body_cases (st : CrawlState) (s : Session W) :
  crawl_guard st = true ->
  exists (url : string) (queue : list string),
    toVisit st = url :: queue
    /\ ((bool_decide (normalize url ∈ visited st) = true
         /\ crawl_body newURL st s
            = ({| st_results := st_results st; st_pages := st_pages st;
                  visited := visited st; toVisit := queue |}, s))
        \/ (bool_decide (normalize url ∈ visited st) = false
            /\ fst (crawl_body newURL st s)
               = {| st_results :=
                      st_results st ++
                      [ {| page := url;
                           test := "page-load";
                           status := Fail;
                           message := "Page failed to load: " +:+ url;
                           screenshot := None;
                           details := None |} ];
                    st_pages := st_pages st;
                    visited := {[ normalize url ]} ∪ visited st;
                    toVisit := queue |}
            /\ snd (snd (crawl_body newURL st s))
               = snd s ++ [CNewPage; CGoto url false])
        \/ (bool_decide (normalize url ∈ visited st) = false
            /\ exists (pageInfo : PageInfo) (bodyText : string),
                 fst (crawl_body newURL st s)
                 = {| st_results :=
                        error_text_check url bodyText
                          (content_check url pageInfo bodyText
                             (console_checks url pageInfo (st_results st)));
                      st_pages := st_pages st ++ [pageInfo];
                      visited := {[ normalize url ]} ∪ visited st;
                      toVisit :=
                        queue_links newURL ({[ normalize url ]} ∪ visited st)
                                    (links pageInfo) queue |}
                 /\ snd (snd (crawl_body newURL st s))
                    = snd s ++ [CNewPage; CGoto url true; CGetPageInfo url;
                                CGetPageText])).
Proof.
  intros Hguard. unfold crawl_guard in Hguard.
  apply andb_true_iff in Hguard as [Hqueue _].
  unfold crawl_body.
  destruct (toVisit st) as [|url queue] eqn:Hq; [discriminate Hqueue|].
  exists url, queue. split; [reflexivity|].
  destruct (bool_decide (normalize url ∈ visited st)) eqn:Hfresh.
  - left. split; reflexivity.
  - right. rewrite !bind_run. unfold newPage, goto. rewrite !logged_run.
    cbn [fst snd].
    destruct (fst (be_goto url (be_newPage (fst s)))) eqn:Hloaded; cbn [negb].
    + right. split; [reflexivity|].
      rewrite !bind_run. unfold getPageInfo, getPageText.
      rewrite !logged_run. cbn [fst snd ret].
      eexists _, _. split; [reflexivity|]. now rewrite <- !List.app_assoc.
    + left. split; [reflexivity|]. cbn [fst snd ret].
      split; [reflexivity|]. now rewrite <- !List.app_assoc.
Qed.

(** Any property kept by the loop body holds when the loop ends, and
    then the loop guard is false. *)
Lemma crawl_loop_invariant (I : list Call -> CrawlState -> Prop) :
  (forall (st : CrawlState) (s : Session W) (calls : list Call),
     crawl_guard st = true -> I calls st ->
     exists more : list Call,
       snd (snd (crawl_body newURL st s)) = snd s ++ more
       /\ I (calls ++ more) (fst (crawl_body newURL st s))) ->
  forall (fuel : nat) (st : CrawlState) (s : Session W) (calls : list Call)
         (st' : CrawlState),
    I calls st ->
    fst (crawl_loop newURL fuel st s) = Some st' ->
    exists more : list Call,
      snd (snd (crawl_loop newURL fuel st s)) = snd s ++ more
      /\ I (calls ++ more) st'
      /\ crawl_guard st' = false.
Proof.
  intros Hbody. induction fuel as [|fuel IH]; intros st s calls st' Hinv Hrun;
    [discriminate Hrun|].
  cbn [crawl_loop] in *.
  destruct (crawl_guard st) eqn:Hguard.
  - rewrite bind_run in *.
    destruct (Hbody st s calls Hguard Hinv) as (more & Htr & Hinv').
    destruct (IH _ _ _ _ Hinv' Hrun) as (more' & Htr' & Hinv'' & Hend).
    exists (more ++ more'). rewrite Htr', Htr, !List.app_assoc. auto.
  - cbn in Hrun. injection Hrun as <-. exists []. cbn.
    now rewrite !List.app_nil_r.
Qed.

Lemma console_checks_extra (url : string) (p : PageInfo) (rs : list TestResult) :
  exists extra : list TestResult,
    console_checks url p rs = rs ++ extra
    /\ Forall (fun r => page r = url) extra
    /\ List.filter Shape.is_verdict extra = [].
Proof.
  unfold console_checks.
  destruct (0 <? length (errors p))%nat;
    [|exists []; now rewrite List.app_nil_r].
  destruct (0 <? length (List.filter is_critical (errors p)))%nat;
    destruct (0 <? length (List.filter is_network (errors p)))%nat.
  - eexists [_; _]. rewrite <- List.app_assoc. split; [reflexivity|].
    split; [repeat constructor | reflexivity].
  - eexists [_]. split; [reflexivity|].
    split; [repeat constructor | reflexivity].
  - eexists [_]. split; [reflexivity|].
    split; [repeat constructor | reflexivity].
  - exists []. now rewrite List.app_nil_r.
Qed.

Lemma content_check_extra (url : string) (p : PageInfo) (bodyText : string)
    (rs : list TestResult) :
  exists v : TestResult,
    content_check url p bodyText rs = rs ++ [v]
    /\ page v = url /\ Shape.is_verdict v = true.
Proof.
  unfold content_check. destruct (_ || _); eexists; repeat split.
Qed.

Lemma error_text_check_extra (url bodyText : string) (rs : list TestResult) :
  exists extra : list TestResult,
    error_text_check url bodyText rs = rs ++ extra
    /\ Forall (fun r => page r = url) extra
    /\ List.filter Shape.is_verdict extra = [].
Proof.
  unfold error_text_check. destruct (List.find _ _).
  - eexists [_]. split; [reflexivity|].
    split; [repeat constructor | reflexivity].
  - exists []. now rewrite List.app_nil_r.
Qed.

(** A page that loaded adds outcomes for its own URL, exactly one of
    them the verdict. *)
Lemma loaded_page_outcomes (url : string) (p : PageInfo) (bodyText : string)
    (rs : list TestResult) :
  exists extra : list TestResult,
    error_text_check url bodyText
      (content_check url p bodyText (console_checks url p rs))
    = rs ++ extra
    /\ Forall (fun r => page r = url) extra
    /\ map page (List.filter Shape.is_verdict extra) = [url].
Proof.
  destruct (console_checks_extra url p rs) as (e1 & -> & Hp1 & Hv1).
  destruct (content_check_extra url p bodyText (rs ++ e1)) as (v & -> & Hpv & Hv).
  destruct (error_text_check_extra url bodyText ((rs ++ e1) ++ [v]))
    as (e3 & -> & Hp3 & Hv3).
  exists (e1 ++ [v] ++ e3). rewrite <- !List.app_assoc. split; [reflexivity|].
  split.
  - apply Forall_app. split; [exact Hp1|].
    apply Forall_app. split; [now repeat constructor | exact Hp3].
  - rewrite !List.filter_app, Hv1, Hv3. cbn [List.filter]. rewrite Hv.
    cbn. now rewrite Hpv.
Qed.

(** The queue is extended, in link order, by the internal links whose
    normal form is not yet visited. *)
Lemma queue_links_filter (vis : gset string) (ls : list LinkInfo)
    (queue : list string) :
  queue_links newURL vis ls queue
  = queue
    ++ map href
         (List.filter
            (fun l => isInternal l
                      && negb (bool_decide (normalize (href l) ∈ vis)))
            ls).
Proof.
  unfold queue_links. revert queue.
  induction ls as [|l ls IH]; intros queue; cbn [fold_left List.filter map].
  - now rewrite List.app_nil_r.
  - rewrite IH.
    destruct (isInternal l && negb (bool_decide (normalize (href l) ∈ vis)));
      [|reflexivity].
    now rewrite <- List.app_assoc.
Qed.

Lemma linked_more (pages : list PageInfo) (p : PageInfo) (u : string) :
  Shape.linked pages u -> Shape.linked (pages ++ [p]) u.
Proof.
  intros (q & l & Hq & Hl). exists q, l. split; [|exact Hl].
  apply in_or_app. now left.
Qed.

Lemma accounted_step (baseUrl : string) (st : CrawlState) (s : Session W)
    (calls : list Call) :
  crawl_guard st = true ->
  Shape.accounted baseUrl calls st ->
  exists more : list Call,
    snd (snd (crawl_body newURL st s)) = snd s ++ more
    /\ Shape.accounted baseUrl (calls ++ more) (fst (crawl_body newURL st s)).
Proof.
  intros Hguard (Hverdicts & Hpages & Hprov & Hfirst).
  destruct (crawl_body_cases st s Hguard) as (url & queue & Hq & Hcases).
  rewrite Hq in Hprov.
  apply Forall_app in Hprov as [Hgone Hqueue].
  pose proof (Forall_inv Hqueue) as Hurl.
  pose proof (Forall_inv_tail Hqueue) as Hrest.
  destruct Hcases as [[Hseen Hbody] | [(Hfresh & Hbody & Htr)
                                      | (Hfresh & p & t & Hbody & Htr)]].
  - exists []. rewrite Hbody, !List.app_nil_r. split; [reflexivity|].
    cbn [fst st_results st_pages toVisit visited].
    repeat split; try assumption.
    + apply Forall_app. now split.
    + destruct Hfirst as [(_ & _ & Hempty) | Hfirst]; [|now right].
      apply bool_decide_eq_true in Hseen. rewrite Hempty in Hseen.
      now apply not_elem_of_empty in Hseen.
  - eexists. split; [exact Htr|]. rewrite Hbody.
    unfold Shape.accounted.
    cbn [st_results st_pages toVisit visited].
    rewrite gotos_app. cbn [Spec.gotos]. rewrite List.filter_app, map_app.
    rewrite Hverdicts. cbn [List.filter Shape.is_verdict test String.eqb
                            Ascii.eqb Bool.eqb orb andb map page].
    repeat split.
    + apply Forall_app. split.
      * eapply List.Forall_impl; [|exact Hpages].
        intros r Hr. apply in_or_app. now left.
      * repeat constructor. apply in_or_app. right. now left.
    + rewrite <- List.app_assoc. apply Forall_app. split; [exact Hgone|].
      now constructor.
    + right. destruct Hfirst as [(Hnone & Hbase & _) | [rest Hrest']].
      * rewrite Hnone. rewrite Hq in Hbase. injection Hbase as -> _.
        now exists [].
      * rewrite Hrest'. now exists (rest ++ [url]).
  - eexists. split; [exact Htr|]. rewrite Hbody.
    destruct (loaded_page_outcomes url p t (st_results st))
      as (extra & -> & Hextra & Hone).
    unfold Shape.accounted.
    cbn [st_results st_pages toVisit visited].
    rewrite gotos_app. cbn [Spec.gotos]. rewrite List.filter_app, map_app.
    rewrite Hverdicts, Hone, queue_links_filter.
    repeat split.
    + apply Forall_app. split.
      * eapply List.Forall_impl; [|exact Hpages].
        intros r Hr. apply in_or_app. now left.
      * eapply List.Forall_impl; [|exact Hextra].
        intros r ->. apply in_or_app. right. now left.
    + assert (Hweak : forall u, u = baseUrl \/ Shape.linked (st_pages st) u ->
                                u = baseUrl \/ Shape.linked (st_pages st ++ [p]) u).
      { intros u [-> | Hu]; [now left | right; now apply linked_more]. }
      rewrite <- List.app_assoc. apply Forall_app. split.
      { eapply List.Forall_impl; [exact Hweak | exact Hgone]. }
      apply Forall_app. split; [constructor; [now apply Hweak | constructor]|].
      apply Forall_app. split.
      { eapply List.Forall_impl; [exact Hweak | exact Hrest]. }
      apply List.Forall_forall. intros u Hu.
      apply in_map_iff in Hu as (l & <- & Hl).
      apply filter_In in Hl as [Hl Hok].
      apply andb_true_iff in Hok as [Hint _].
      right. exists p, l. repeat split; try assumption.
      apply in_or_app. right. now left.
    + right. destruct Hfirst as [(Hnone & Hbase & _) | [rest Hrest']].
      * rewrite Hnone. rewrite Hq in Hbase. injection Hbase as -> _.
        now exists [].
      * rewrite Hrest'. now exists (rest ++ [url]).
Qed.

Lemma accounted_initial (baseUrl : string) :
  Shape.accounted baseUrl [] (initial baseUrl).
Proof.
  unfold Shape.accounted. cbn. repeat split; try constructor; auto.
Qed.

Lemma crawl_accounted (fuel : nat) (baseUrl : string) (s : Session W)
    (st : CrawlState) :
  fst (crawl_loop newURL fuel (initial baseUrl) s) = Some st ->
  exists calls : list Call,
    snd (snd (crawl_loop newURL fuel (initial baseUrl) s)) = snd s ++ calls
    /\ Shape.accounted baseUrl calls st
    /\ exists rest, Spec.gotos calls = baseUrl :: rest.
Proof.
  intros Hrun.
  destruct (crawl_loop_invariant (Shape.accounted baseUrl)
              (accounted_step baseUrl) fuel _ s [] st
              (accounted_initial baseUrl) Hrun)
    as (calls & Htr & Hacc & Hend).
  rewrite List.app_nil_l in Hacc.
  exists calls. split; [exact Htr|]. split; [exact Hacc|].
  destruct Hacc as (_ & _ & _ & [(Hnone & Hq & Hvis) | Hfirst]); [|exact Hfirst].
  unfold crawl_guard in Hend. rewrite Hq, Hvis in Hend.
  rewrite size_empty in Hend. discriminate Hend.
Qed.

(** X5. In a run of the crawler the verdicts, the [page-load] and
    [has-content] outcomes, are in order about the URLs navigated to,
    in order: every navigation gets exactly one verdict, and it is
    about the URL navigated to.  Every other outcome is about a URL
    that was navigated to as well. *)
Theorem crawl_outcomes_accounted (fuel : nat) (baseUrl : string)
    (s : Session W) (r : list TestResult * list PageInfo) :
  fst (discoverAndTestPages newURL fuel baseUrl s) = Some r ->
  exists calls : list Call,
    snd (snd (discoverAndTestPages newURL fuel baseUrl s)) = snd s ++ calls
    /\ map page (List.filter Shape.is_verdict (fst r)) = Spec.gotos calls
    /\ Forall (fun o => In (page o) (Spec.gotos calls)) (fst r).
Proof.
  unfold discoverAndTestPages. rewrite bind_run. cbn [ret fst snd].
  destruct (fst (crawl_loop newURL fuel (initial baseUrl) s)) as [st|] eqn:Hrun;
    [|discriminate].
  intros [= <-].
  destruct (crawl_accounted fuel baseUrl s st Hrun)
    as (calls & Htr & (Hv & Hp & _) & _).
  exists calls. auto.
Qed.

(** X6. The crawler navigates to the base URL first, and after that
    only to targets of internal links found on pages it has loaded:
    an external link is never followed. *)
Theorem crawl_follows_internal_links (fuel : nat) (baseUrl : string)
    (s : Session W) (r : list TestResult * list PageInfo) :
  fst (discoverAndTestPages newURL fuel baseUrl s) = Some r ->
  exists (calls : list Call) (rest : list string),
    snd (snd (discoverAndTestPages newURL fuel baseUrl s)) = snd s ++ calls
    /\ Spec.gotos calls = baseUrl :: rest
    /\ Forall (fun u => u = baseUrl \/ Shape.linked (snd r) u) rest.
Proof.
  unfold discoverAndTestPages. rewrite bind_run. cbn [ret fst snd].
  destruct (fst (crawl_loop newURL fuel (initial baseUrl) s)) as [st|] eqn:Hrun;
    [|discriminate].
  intros [= <-].
  destruct (crawl_accounted fuel baseUrl s st Hrun)
    as (calls & Htr & (_ & _ & Hprov & _) & rest & Hfirst).
  exists calls, rest. repeat split; try assumption.
  apply Forall_app in Hprov as [Hgone _]. rewrite Hfirst in Hgone.
  exact (Forall_inv_tail Hgone).
Qed.

Lemma crawl_unreachable (fuel : nat) (baseUrl : string) (s : Session W) :
  fst (goto baseUrl (snd (newPage s))) = false ->
  fst (discoverAndTestPages newURL (S (S fuel)) baseUrl s)
  = Some ([ {| page := baseUrl;
               test := "page-load";
               status := Fail;
               message := "Page failed to load: " +:+ baseUrl;
               screenshot := None;
               details := None |} ], [])
  /\ snd (snd (discoverAndTestPages newURL (S (S fuel)) baseUrl s))
     = snd s ++ [CNewPage; CGoto baseUrl false].
Proof.
  intros Hfail.
  assert (Hfresh : bool_decide (normalize baseUrl ∈ visited (initial baseUrl))
                   = false)
    by (apply bool_decide_eq_false, not_elem_of_empty).
  pose proof (crawl_body_failed_load newURL (initial baseUrl) s baseUrl []
                eq_refl Hfresh Hfail) as Hbody.
  assert (Hguard : crawl_guard (initial baseUrl) = true).
  { unfold crawl_guard. cbn [initial toVisit visited]. now rewrite size_empty. }
  assert (Htrace : snd (snd (crawl_body newURL (initial baseUrl) s))
                   = snd s ++ [CNewPage; CGoto baseUrl false]).
  { destruct (crawl_body_cases (initial baseUrl) s Hguard)
      as (url & queue & Hq & Hcases).
    injection Hq as <- <-.
    destruct Hcases as [[Hseen _] | [(_ & _ & Htr)
                                    | (_ & p & t & Hloaded & _)]].
    - apply bool_decide_eq_true in Hseen. cbn [initial visited] in Hseen.
      now apply not_elem_of_empty in Hseen.
    - exact Htr.
    - rewrite Hbody in Hloaded.
      apply (f_equal (fun st => length (st_pages st))) in Hloaded.
      cbn in Hloaded. discriminate Hloaded. }
  unfold discoverAndTestPages. rewrite bind_run.
  change (crawl_loop newURL (S (S fuel)) (initial baseUrl) s)
    with (bind (crawl_body newURL (initial baseUrl))
               (fun st' => crawl_loop newURL (S fuel) st') s).
  rewrite bind_run, Hbody. cbn [crawl_loop crawl_guard toVisit length Nat.ltb
                                Nat.leb andb ret fst snd option_map st_results
                                st_pages].
  split; [reflexivity | exact Htrace].
Qed.

(** X7. When the base URL does not load, the crawl ends after that one
    navigation with the single [page-load] failure and no page. *)
Theorem crawl_base_unreachable (fuel : nat) (baseUrl : string) (s : Session W) :
  fst (goto baseUrl (snd (newPage s))) = false ->
  fst (discoverAndTestPages newURL (S (S fuel)) baseUrl s)
  = Some ([ {| page := baseUrl;
               test := "page-load";
               status := Fail;
               message := "Page failed to load: " +:+ baseUrl;
               screenshot := None;
               details := None |} ], [])
  /\ snd (snd (discoverAndTestPages newURL (S (S fuel)) baseUrl s))
     = snd s ++ [CNewPage; CGoto baseUrl false].
Proof. apply crawl_unreachable. Qed.

(** The crawler asks the driver for no interaction with a page. *)
Lemma crawl_no_actions (fuel : nat) (baseUrl : string) (s : Session W) :
  exists calls : list Call,
    snd (snd (discoverAndTestPages newURL fuel baseUrl s)) = snd s ++ calls
    /\ Spec.actions calls = [].
Proof.
  unfold discoverAndTestPages. rewrite bind_run. cbn [ret snd].
  assert (Hloop : forall fuel st s,
             exists calls,
               snd (snd (crawl_loop newURL fuel st s)) = snd s ++ calls
               /\ Spec.actions calls = []).
  { clear. induction fuel as [|fuel IH]; intros st s.
    - exists []. cbn. now rewrite List.app_nil_r.
    - cbn [crawl_loop]. destruct (crawl_guard st) eqn:Hguard.
      + rewrite bind_run.
        destruct (crawl_body_cases st s Hguard) as (url & queue & _ & Hcases).
        destruct (IH (fst (crawl_body newURL st s)) (snd (crawl_body newURL st s)))
          as (calls & Htr & Ha).
        assert (Hbody : exists c0, snd (snd (crawl_body newURL st s)) = snd s ++ c0
                                   /\ Spec.actions c0 = []).
        { destruct Hcases as [[_ Hb] | [(_ & _ & Hb) | (_ & p & t & _ & Hb)]].
          - exists []. rewrite Hb. now rewrite List.app_nil_r.
          - eexists. split; [exact Hb | reflexivity].
          - eexists. split; [exact Hb | reflexivity]. }
        destruct Hbody as (c0 & Htr0 & Ha0).
        exists (c0 ++ calls). rewrite Htr, Htr0, <- List.app_assoc.
        split; [reflexivity|]. now rewrite actions_app, Ha0, Ha.
      + exists []. cbn. now rewrite List.app_nil_r. }
  apply Hloop.
Qed.

End CrawlOutcomeFacts.

(** X5 on the crawl of the small site. *)
Lemma crawl_outcomes_accounted_witness :
  let run := NavigationTester.discoverAndTestPages UrlModel.newURL 20
               "http://a.com" Examples.small_site in
  let r := default ([], []) (fst run) in
  exists calls : list Call,
    snd (snd run) = snd Examples.small_site ++ calls
    /\ map page (List.filter Shape.is_verdict (fst r)) = Spec.gotos calls
    /\ Forall (fun o => In (page o) (Spec.gotos calls)) (fst r).
Proof.
  intros run r.
  assert (Hrun : fst run = Some r) by (vm_compute; reflexivity).
  exact (crawl_outcomes_accounted UrlModel.newURL 20 "http://a.com"
           Examples.small_site r Hrun).
Defined.

(** X6 on the crawl of the small site. *)
Lemma crawl_follows_internal_links_witness :
  let run := NavigationTester.discoverAndTestPages UrlModel.newURL 20
               "http://a.com" Examples.small_site in
  let r := default ([], []) (fst run) in
  exists (calls : list Call) (rest : list string),
    snd (snd run) = snd Examples.small_site ++ calls
    /\ Spec.gotos calls = "http://a.com" :: rest
    /\ Forall (fun u => u = "http://a.com" \/ Shape.linked (snd r) u) rest.
Proof.
  intros run r.
  assert (Hrun : fst run = Some r) by (vm_compute; reflexivity).
  exact (crawl_follows_internal_links UrlModel.newURL 20 "http://a.com"
           Examples.small_site r Hrun).
Defined.

(** X7 on a site without pages. *)
Lemma crawl_base_unreachable_witness :
  fst (NavigationTester.discoverAndTestPages UrlModel.newURL 2
         "http://nowhere.test" (StaticSite.start []))
  = Some ([ {| page := "http://nowhere.test";
               test := "page-load";
               status := Fail;
               message := "Page failed to load: " +:+ "http://nowhere.test";
               screenshot := None;
               details := None |} ], [])
  /\ snd (snd (NavigationTester.discoverAndTestPages UrlModel.newURL 2
                 "http://nowhere.test" (StaticSite.start [])))
     = snd (StaticSite.start [])
       ++ [CNewPage; CGoto "http://nowhere.test" false].
Proof.
  apply (crawl_base_unreachable UrlModel.newURL 0 "http://nowhere.test"
           (StaticSite.start [])).
  reflexivity.
Defined.

(** ** URL normalisation: query, fragment and trailing slash *)

Section UrlKeyFacts.

Import JSText NavigationTester.

Lemma dropTrailingSlash_slash (a : string) :
  dropTrailingSlash (a +:+ "/") = a.
Proof.
  rewrite dropTrailingSlash_app by discriminate. cbn. apply string_app_nil_r.
Qed.

Lemma dropTrailingSlash_keeps (s : string) :
  endsWith s "/" = false -> dropTrailingSlash s = s.
Proof.
  induction s as [|c rest IH]; [reflexivity|].
  cbn [endsWith]. intros [Hne Hrest]%orb_false_iff.
  destruct rest as [|c2 rest2].
  - cbn. destruct (Ascii.eqb c "/") eqn:Hc; [|reflexivity].
    apply Ascii.eqb_eq in Hc. subst c. discriminate Hne.
  - change (dropTrailingSlash (String c (String c2 rest2)))
      with (String c (dropTrailingSlash (String c2 rest2))).
    now rewrite IH.
Qed.

(** X9. Whatever the parser, two strings that it parses to the same
    origin and to pathnames that differ by one slash at the end get the
    same key: the crawler takes [/about] and [/about/] for one page. *)
Theorem normalizeUrl_trailing_slash (parse : string -> option URL)
    (a b : string) (ua ub : URL) :
  parse a = Some ua ->
  parse b = Some ub ->
  origin ub = origin ua ->
  pathname ub = pathname ua +:+ "/" ->
  endsWith (origin ua +:+ pathname ua) "/" = false ->
  normalizeUrl parse b = normalizeUrl parse a.
Proof.
  intros Ha Hb Ho Hp Hslash. unfold normalizeUrl. rewrite Ha, Hb, Ho, Hp.
  rewrite <- string_app_assoc, dropTrailingSlash_slash.
  symmetry. now apply dropTrailingSlash_keeps.
Qed.

End UrlKeyFacts.

(** X9 on a page with and without the slash. *)
Lemma normalizeUrl_trailing_slash_witness :
  NavigationTester.normalizeUrl UrlModel.newURL "http://a.com/docs/"
  = NavigationTester.normalizeUrl UrlModel.newURL "http://a.com/docs".
Proof.
  apply (normalizeUrl_trailing_slash UrlModel.newURL
           "http://a.com/docs" "http://a.com/docs/"
           {| origin := "http://a.com"; pathname := "/docs" |}
           {| origin := "http://a.com"; pathname := "/docs/" |});
    reflexivity.
Defined.

(** ** ClickTester: which buttons are clicked *)

Section ClickPlanFacts.

Context {W : Type} `{BrowserEngine W}.
Import ClickTester.

(** What the test of one button adds: one outcome, and the calls of a
    fresh navigation, one click and the readings around it. *)
Lemma testButton_calls (pageUrl : string) (results : list TestResult)
    (b : ButtonInfo) (s : Session W) :
  exists (r : TestResult) (block : list Call),
    fst (testButton pageUrl results b s) = results ++ [r]
    /\ test r = test_id b /\ page r = pageUrl
    /\ snd (snd (testButton pageUrl results b s)) = snd s ++ block
    /\ Shape.button_block pageUrl b block.
Proof.
  unfold testButton, Shape.button_block. rewrite !bind_run.
  unfold goto, getConsoleErrors, click. rewrite !logged_run. cbn [fst snd].
  match goal with
  | |- context [negb (success ?r)] => destruct (success r) eqn:Hok
  end; cbn [negb].
  - rewrite bind_run, logged_run. cbn [fst snd].
    destruct (0 <? _)%nat.
    + rewrite bind_run. unfold take_screenshot. rewrite logged_run.
      cbn [ret fst snd].
      eexists _, _. split; [reflexivity|]. split; [reflexivity|].
      split; [reflexivity|]. rewrite <- !List.app_assoc.
      split; [reflexivity|].
      eexists _, _, _. split; [reflexivity|]. now right.
    + cbn [ret fst snd].
      eexists _, _. split; [reflexivity|]. split; [reflexivity|].
      split; [reflexivity|]. rewrite <- !List.app_assoc.
      split; [reflexivity|].
      eexists _, _, _. split; [reflexivity|]. now left.
  - cbn [ret fst snd].
    eexists _, _. split; [reflexivity|]. split; [reflexivity|].
    split; [reflexivity|]. rewrite <- !List.app_assoc.
    split; [reflexivity|].
    eexists _, _, []. split; reflexivity.
Qed.

Lemma for_of_testButton_plan (pageUrl : string) (bs : list ButtonInfo)
    (results : list TestResult) (s : Session W) :
  exists (rs : list TestResult) (blocks : list (list Call)),
    fst (for_of bs (testButton pageUrl) results s) = results ++ rs
    /\ map test rs = map test_id bs
    /\ Forall (fun r => page r = pageUrl) rs
    /\ snd (snd (for_of bs (testButton pageUrl) results s))
       = snd s ++ concat blocks
    /\ Forall2 (Shape.button_block pageUrl) bs blocks.
Proof.
  revert results s. induction bs as [|b bs IH]; intros results s.
  - exists [], []. cbn. rewrite !List.app_nil_r. repeat split; auto.
  - cbn [for_of]. rewrite bind_run.
    destruct (testButton_calls pageUrl results b s)
      as (r & block & Hr & Ht & Hp & Htr1 & Hblock).
    destruct (IH (fst (testButton pageUrl results b s))
                 (snd (testButton pageUrl results b s)))
      as (rs & blocks & Hrs & Hts & Hps & Htr & Hblocks).
    exists (r :: rs), (block :: blocks).
    rewrite Hrs, Htr, Hr, Htr1, <- !List.app_assoc. split; [reflexivity|].
    cbn [map]. rewrite Ht, Hts. split; [reflexivity|].
    split; [now constructor|]. split; [reflexivity|].
    now constructor.
Qed.

(** A block is three to five calls. *)
Lemma button_block_length (pageUrl : string) (b : ButtonInfo)
    (block : list Call) :
  Shape.button_block pageUrl b block -> 3 <= length block <= 5.
Proof.
  intros (loaded & ok & after & -> & Hafter).
  destruct ok; [destruct Hafter as [-> | ->]|subst after]; cbn; lia.
Qed.

(** X10. [testButtons] gives one outcome per button that is not a
    submit button, not disabled and has a text, in the order of the
    list, each named after the button's text.  Its calls are one block
    per such button, in that order, and nothing else: a navigation to
    the page, a reading of the console and the click on the button's
    selector, after a click that was performed a second reading of the
    console, and then at most a screenshot.  So every such button is
    clicked once, right after a fresh navigation, at the cost of three
    to five calls, and without such a button no call is made. *)
Theorem testButtons_plan (pageUrl : string) (buttons : list ButtonInfo)
    (s : Session W) :
  exists blocks : list (list Call),
    map test (fst (testButtons pageUrl buttons s))
    = map test_id (List.filter testable buttons)
    /\ Forall (fun r => page r = pageUrl) (fst (testButtons pageUrl buttons s))
    /\ snd (snd (testButtons pageUrl buttons s)) = snd s ++ concat blocks
    /\ Forall2 (Shape.button_block pageUrl)
               (List.filter testable buttons) blocks
    /\ Forall (fun block => 3 <= length block <= 5) blocks.
Proof.
  assert (Hlen : forall bs blocks,
             Forall2 (Shape.button_block pageUrl) bs blocks ->
             Forall (fun block => 3 <= length block <= 5) blocks).
  { intros bs blocks Hall. induction Hall as [|b block bs blocks Hb _ IH];
      constructor; [|exact IH].
    exact (button_block_length _ _ _ Hb). }
  unfold testButtons.
  destruct (length (List.filter testable buttons) =? 0)%nat eqn:E.
  - apply Nat.eqb_eq in E. apply length_zero_iff_nil in E. rewrite E.
    exists []. cbn. rewrite List.app_nil_r. repeat split; auto.
  - destruct (for_of_testButton_plan pageUrl (List.filter testable buttons) [] s)
      as (rs & blocks & Hrs & Ht & Hp & Htr & Hblocks).
    exists blocks. rewrite Hrs, List.app_nil_l. eauto 10.
Qed.

(** X11. When the click on a button cannot be performed, its outcome is
    a fail that carries the driver's error as details and no
    screenshot, and nothing more is asked of the driver. *)
Theorem testButton_click_failed (pageUrl : string) (results : list TestResult)
    (button : ButtonInfo) (s : Session W) :
  let s1 := snd (goto pageUrl s) in
  let clicked := click (selector button) (snd (getConsoleErrors s1)) in
  success (fst clicked) = false ->
  fst (testButton pageUrl results button s)
  = results ++
    [ {| page := pageUrl;
         test := test_id button;
         status := Fail;
         message := "Button " +:+ JS.dquote +:+ button_text button
                    +:+ JS.dquote +:+ " could not be clicked";
         screenshot := None;
         details := error (fst clicked) |} ]
  /\ snd (testButton pageUrl results button s) = snd clicked.
Proof.
  intros s1 clicked Hfail. unfold testButton. rewrite !bind_run.
  fold s1. fold clicked. rewrite Hfail. split; reflexivity.
Qed.

End ClickPlanFacts.

(** X11 on the noisy page, for a button that is not there. *)
Lemma testButton_click_failed_witness :
  fst (ClickTester.testButton "http://localhost:3000" [] MoreExamples.ghost
         Examples.noisy_site)
  = [] ++
    [ {| page := "http://localhost:3000";
         test := ClickTester.test_id MoreExamples.ghost;
         status := Fail;
         message := "Button " +:+ JS.dquote +:+ "Ghost" +:+ JS.dquote
                    +:+ " could not be clicked";
         screenshot := None;
         details := Some "waiting for selector failed" |} ]
  /\ snd (ClickTester.testButton "http://localhost:3000" [] MoreExamples.ghost
            Examples.noisy_site)
     = snd (click "#ghost"
              (snd (getConsoleErrors
                      (snd (goto "http://localhost:3000" Examples.noisy_site))))).
Proof.
  exact (testButton_click_failed "http://localhost:3000" [] MoreExamples.ghost
           Examples.noisy_site eq_refl).
Defined.

(** ** FormTester: the checks and interactions of a form *)

Section FormPlanFacts.

Context {W : Type} `{BrowserEngine W}.
Import FormTester.

(** What one field adds to the trace and to the recorded errors. *)
Lemma fill_one_calls (st : FillState) (f : FieldInfo) (s : Session W) :
  exists (calls : list Call) (errs : list string),
    snd (snd (fill_one st f s)) = snd s ++ calls
    /\ Spec.actions calls = option_list (Spec.action_for f)
    /\ Spec.gotos calls = []
    /\ fieldErrors (fst (fill_one st f s)) = fieldErrors st ++ errs
    /\ length errs
       = (if Shape.unaddressable f then 1 else 0)
         + length (List.filter Shape.failed_call calls)
    /\ allFieldsFilled (fst (fill_one st f s))
       = allFieldsFilled st && (length errs =? 0)%nat.
Proof.
  unfold fill_one, Spec.action_for, Spec.kind_for, Shape.unaddressable.
  destruct (is_skipped f).
  { exists [], []. cbn. rewrite !List.app_nil_r, andb_true_r. auto 10. }
  destruct (selector_of f) as [sel|].
  2:{ eexists [], [_]. cbn. rewrite List.app_nil_r, andb_false_r. auto 10. }
  rewrite bool_decide_true by eauto. cbn [negb andb].
  destruct (is_select f); [|destruct (is_toggle f)];
    rewrite bind_run; unfold selectOption, click, fillField;
    rewrite logged_run; cbn [fst snd].
  - destruct (fst (be_selectOption sel EmptyString (fst s))) eqn:Hok;
      cbn [negb].
    + eexists [_], []. split; [reflexivity|]. cbn.
      rewrite ?Hok, ?List.app_nil_r, ?andb_true_r. auto 10.
    + eexists [_], [_]. split; [reflexivity|]. cbn.
      rewrite ?Hok, ?andb_false_r. auto 10.
  - destruct (success (fst (be_click sel (fst s)))) eqn:Hok; cbn [negb].
    + eexists [_], []. split; [reflexivity|]. cbn.
      rewrite ?Hok, ?List.app_nil_r, ?andb_true_r. auto 10.
    + eexists [_], [_]. split; [reflexivity|]. cbn.
      rewrite ?Hok, ?andb_false_r. auto 10.
  - destruct (fst (be_fillField sel (getTestValue f) (fst s))) eqn:Hok;
      cbn [negb].
    + eexists [_], []. split; [reflexivity|]. cbn.
      rewrite ?Hok, ?List.app_nil_r, ?andb_true_r. auto 10.
    + eexists [_], [_]. split; [reflexivity|]. cbn.
      rewrite ?Hok, ?andb_false_r. auto 10.
Qed.

Lemma fill_loop_calls (fs : list FieldInfo) (st : FillState) (s : Session W) :
  exists (calls : list Call) (errs : list string),
    snd (snd (for_of fs fill_one st s)) = snd s ++ calls
    /\ Spec.actions calls = omap Spec.action_for fs
    /\ Spec.gotos calls = []
    /\ fieldErrors (fst (for_of fs fill_one st s)) = fieldErrors st ++ errs
    /\ length errs
       = length (List.filter Shape.unaddressable fs)
         + length (List.filter Shape.failed_call calls)
    /\ allFieldsFilled (fst (for_of fs fill_one st s))
       = allFieldsFilled st && (length errs =? 0)%nat.
Proof.
  revert st s. induction fs as [|f fs IH]; intros st s.
  - exists [], []. cbn. rewrite !List.app_nil_r, andb_true_r. auto 10.
  - cbn [for_of]. rewrite bind_run.
    destruct (fill_one_calls st f s) as (c1 & e1 & Htr1 & Ha1 & Hg1 & He1 & Hn1 & Hall1).
    destruct (IH (fst (fill_one st f s)) (snd (fill_one st f s)))
      as (c2 & e2 & Htr2 & Ha2 & Hg2 & He2 & Hn2 & Hall2).
    exists (c1 ++ c2), (e1 ++ e2).
    split; [rewrite Htr2, Htr1; now rewrite <- List.app_assoc|].
    split.
    { rewrite actions_app, Ha1, Ha2. cbn [omap list_omap].
      now destruct (Spec.action_for f). }
    split; [now rewrite gotos_app, Hg1, Hg2|].
    split; [rewrite He2, He1; now rewrite <- List.app_assoc|].
    split.
    + rewrite List.filter_app, !length_app, Hn1, Hn2. cbn [List.filter].
      destruct (Shape.unaddressable f); cbn [length]; lia.
    + rewrite Hall2, Hall1, length_app, <- andb_assoc. f_equal.
      destruct (length e1), (length e2); reflexivity.
Qed.

(** What one field adds to the trace, and to the recorded errors as
    read off the field and the driver's answer. *)
Lemma fill_one_errors (st : FillState) (f : FieldInfo) (s : Session W) :
  exists (calls : list Call) (errs : list string),
    snd (snd (fill_one st f s)) = snd s ++ calls
    /\ Spec.gotos calls = []
    /\ fieldErrors (fst (fill_one st f s)) = fieldErrors st ++ errs
    /\ allFieldsFilled (fst (fill_one st f s))
       = allFieldsFilled st && (length errs =? 0)%nat
    /\ length errs
       = (if Shape.unaddressable f then 1 else 0)
         + length (List.filter Shape.failed_call calls)
    /\ (forall (fs : list FieldInfo) (later : list bool),
          Shape.fill_errors (f :: fs) (Shape.answers calls ++ later)
          = errs ++ Shape.fill_errors fs later).
Proof.
  unfold fill_one, Shape.unaddressable. cbn [Shape.fill_errors].
  unfold Shape.failed_line.
  destruct (is_skipped f).
  { exists [], []. cbn. rewrite !List.app_nil_r, andb_true_r. auto 10. }
  destruct (selector_of f) as [sel|].
  2:{ eexists [], [_]. cbn. rewrite List.app_nil_r, andb_false_r. auto 10. }
  rewrite bool_decide_true by eauto. cbn [negb andb].
  destruct (is_select f); [|destruct (is_toggle f)];
    rewrite bind_run; unfold selectOption, click, fillField;
    rewrite logged_run; cbn [fst snd].
  - destruct (fst (be_selectOption sel EmptyString (fst s))) eqn:Hok;
      cbn [negb].
    + eexists [_], []. split; [reflexivity|]. cbn.
      rewrite ?List.app_nil_r, ?andb_true_r. auto 10.
    + eexists [_], [_]. split; [reflexivity|]. cbn.
      rewrite ?andb_false_r. auto 10.
  - destruct (success (fst (be_click sel (fst s)))) eqn:Hok; cbn [negb].
    + eexists [_], []. split; [reflexivity|]. cbn.
      rewrite ?List.app_nil_r, ?andb_true_r. auto 10.
    + eexists [_], [_]. split; [reflexivity|]. cbn.
      rewrite ?andb_false_r. auto 10.
  - destruct (fst (be_fillField sel (getTestValue f) (fst s))) eqn:Hok;
      cbn [negb].
    + eexists [_], []. split; [reflexivity|]. cbn.
      rewrite ?List.app_nil_r, ?andb_true_r. auto 10.
    + eexists [_], [_]. split; [reflexivity|]. cbn.
      rewrite ?andb_false_r. auto 10.
Qed.

Lemma fill_loop_errors (fs : list FieldInfo) (st : FillState) (s : Session W) :
  exists calls : list Call,
    snd (snd (for_of fs fill_one st s)) = snd s ++ calls
    /\ Spec.gotos calls = []
    /\ fieldErrors (fst (for_of fs fill_one st s))
       = fieldErrors st ++ Shape.fill_errors fs (Shape.answers calls)
    /\ allFieldsFilled (fst (for_of fs fill_one st s))
       = allFieldsFilled st
         && (length (Shape.fill_errors fs (Shape.answers calls)) =? 0)%nat
    /\ length (Shape.fill_errors fs (Shape.answers calls))
       = length (List.filter Shape.unaddressable fs)
         + length (List.filter Shape.failed_call calls).
Proof.
  revert st s. induction fs as [|f fs IH]; intros st s.
  - exists []. cbn. rewrite !List.app_nil_r, andb_true_r. auto.
  - cbn [for_of]. rewrite bind_run.
    destruct (fill_one_errors st f s)
      as (c1 & e1 & Htr1 & Hg1 & He1 & Hall1 & Hn1 & Hsplit).
    destruct (IH (fst (fill_one st f s)) (snd (fill_one st f s)))
      as (c2 & Htr2 & Hg2 & He2 & Hall2 & Hn2).
    exists (c1 ++ c2).
    unfold Shape.answers. rewrite omap_app. fold (Shape.answers c1).
    fold (Shape.answers c2). rewrite Hsplit.
    split; [rewrite Htr2, Htr1; now rewrite <- List.app_assoc|].
    split; [now rewrite gotos_app, Hg1, Hg2|].
    split; [rewrite He2, He1; now rewrite <- List.app_assoc|].
    split.
    + rewrite Hall2, Hall1, length_app, <- andb_assoc. f_equal.
      destruct (length e1), (length (Shape.fill_errors fs (Shape.answers c2)));
        reflexivity.
    + rewrite List.filter_app, !length_app, Hn1, Hn2. cbn [List.filter].
      destruct (Shape.unaddressable f); cbn [length]; lia.
Qed.

(** X12. The fill phase navigates to the page once and then only
    interacts with the fields.  Its outcome is decided by the error
    lines read off the fields and the driver's answers: in field order
    one line for every field to exercise without id and name, and one
    for every interaction the driver answered with a failure.  Without
    such a line the outcome is a pass without details; otherwise it is
    a fail whose details are these lines joined by newlines. *)
Theorem fill_phase_verdict (pageUrl formId : string) (form : FormInfo)
    (results : list TestResult) (s : Session W) :
  exists (r : TestResult) (loaded : bool) (calls : list Call)
         (errs : list string),
    fst (fill_phase pageUrl formId form results s) = results ++ [r]
    /\ snd (snd (fill_phase pageUrl formId form results s))
       = snd s ++ CGoto pageUrl loaded :: calls
    /\ Spec.gotos calls = []
    /\ errs = Shape.fill_errors (fields form) (Shape.answers calls)
    /\ length errs
       = length (List.filter Shape.unaddressable (fields form))
         + length (List.filter Shape.failed_call calls)
    /\ test r = formId +:+ "-fill"
    /\ status r = (if (length errs =? 0)%nat then Pass else Fail)
    /\ details r
       = (if (length errs =? 0)%nat then None else Some (JS.join JS.nl errs)).
Proof.
  unfold fill_phase. rewrite !bind_run.
  destruct (fill_loop_errors (fields form)
              {| allFieldsFilled := true; fieldErrors := [] |}
              (snd (goto pageUrl s)))
    as (calls & Htr & Hg & He & Hall & Hn).
  cbn [fieldErrors allFieldsFilled andb] in He, Hall. rewrite List.app_nil_l in He.
  rewrite Hall, He.
  set (errs := Shape.fill_errors (fields form) (Shape.answers calls)) in *.
  exists (if (length errs =? 0)%nat
          then {| page := pageUrl;
                  test := formId +:+ "-fill";
                  status := Pass;
                  message := "All fields in " +:+ quoted formId
                             +:+ " were filled successfully";
                  screenshot := None;
                  details := None |}
          else {| page := pageUrl;
                  test := formId +:+ "-fill";
                  status := Fail;
                  message := "Some fields in " +:+ quoted formId
                             +:+ " could not be filled";
                  screenshot := None;
                  details := Some (JS.join JS.nl errs) |}),
         (fst (be_goto pageUrl (fst s))), calls, errs.
  split; [now destruct (length errs =? 0)%nat|].
  split.
  - assert (Hend : forall (A : Type) (b : bool) (x y : A) (s' : Session W),
               snd (snd ((if b then ret x else ret y) s')) = snd s')
      by (intros A b x y s'; now destruct b).
    rewrite Hend, Htr. unfold goto. rewrite logged_run. cbn [fst snd].
    now rewrite <- List.app_assoc.
  - split; [exact Hg|]. split; [reflexivity|]. split; [exact Hn|].
    now destruct (length errs =? 0)%nat.
Qed.

Lemma fill_phase_plan (pageUrl formId : string) (form : FormInfo)
    (results : list TestResult) (s : Session W) :
  exists (r : TestResult) (calls : list Call),
    fst (fill_phase pageUrl formId form results s) = results ++ [r]
    /\ test r = formId +:+ "-fill" /\ page r = pageUrl
    /\ snd (snd (fill_phase pageUrl formId form results s)) = snd s ++ calls
    /\ Spec.actions calls = omap Spec.action_for (fields form)
    /\ Spec.gotos calls = [pageUrl].
Proof.
  unfold fill_phase. rewrite !bind_run.
  destruct (fill_loop_calls (fields form)
              {| allFieldsFilled := true; fieldErrors := [] |}
              (snd (goto pageUrl s)))
    as (calls & errs & Htr & Ha & Hg & _).
  destruct (allFieldsFilled _); cbn [ret fst snd];
    eexists _, (CGoto pageUrl _ :: calls);
    (split; [reflexivity|]); (split; [reflexivity|]); (split; [reflexivity|]);
    rewrite Htr; unfold goto; rewrite logged_run; cbn [fst snd];
    rewrite <- List.app_assoc;
    (split; [reflexivity|]);
    (split; [rewrite <- Ha; reflexivity | cbn [Spec.gotos]; now rewrite Hg]).
Qed.

Lemma submit_phase_plan (pageUrl formId : string) (i : nat) (form : FormInfo)
    (results : list TestResult) (s : Session W) :
  exists (rs : list TestResult) (calls : list Call),
    fst (submit_phase pageUrl formId i form results s) = results ++ rs
    /\ map test rs
       = (if JS.truthy_opt (submitButton form) then [formId +:+ "-submit"]
          else [])
    /\ Forall (fun r => page r = pageUrl) rs
    /\ snd (snd (submit_phase pageUrl formId i form results s)) = snd s ++ calls
    /\ Spec.actions calls
       = (if JS.truthy_opt (submitButton form)
          then [Spec.Click (submit_selector_both i form)] else [])
    /\ Spec.gotos calls = [].
Proof.
  unfold submit_phase.
  destruct (JS.truthy_opt (submitButton form)).
  2:{ exists [], []. cbn. rewrite !List.app_nil_r. auto 10. }
  rewrite !bind_run. unfold getConsoleErrors, click. rewrite !logged_run.
  cbn [fst snd].
  destruct (negb _).
  - eexists [_], [_; _]. cbn [ret fst snd].
    split; [reflexivity|]. split; [reflexivity|].
    split; [now repeat constructor|].
    split; [now rewrite <- !List.app_assoc|]. split; reflexivity.
  - rewrite bind_run, logged_run. cbn [fst snd].
    destruct (0 <? _)%nat; rewrite bind_run; unfold take_screenshot;
      rewrite logged_run; cbn [ret fst snd];
      eexists [_], [_; _; _; _];
      (split; [reflexivity|]); (split; [reflexivity|]);
      (split; [now repeat constructor|]);
      (split; [now rewrite <- !List.app_assoc|]); split; reflexivity.
Qed.

Lemma validation_phase_plan (pageUrl formId : string) (i : nat)
    (form : FormInfo) (results : list TestResult) (s : Session W) :
  exists (rs : list TestResult) (calls : list Call),
    fst (validation_phase pageUrl formId i form results s) = results ++ rs
    /\ map test rs
       = (if (0 <? length (List.filter required (fields form)))%nat
             && JS.truthy_opt (submitButton form)
          then [formId +:+ "-validation"] else [])
    /\ Forall (fun r => page r = pageUrl) rs
    /\ snd (snd (validation_phase pageUrl formId i form results s))
       = snd s ++ calls
    /\ Spec.actions calls
       = (if (0 <? length (List.filter required (fields form)))%nat
             && JS.truthy_opt (submitButton form)
          then [Spec.Click (submit_selector_button i form)] else [])
    /\ Spec.gotos calls = [pageUrl].
Proof.
  unfold validation_phase. rewrite bind_run. unfold goto. rewrite logged_run.
  cbn [fst snd].
  destruct (_ && _).
  - rewrite !bind_run. unfold click, getCurrentUrl. rewrite !logged_run.
    cbn [fst snd].
    destruct (_ || _); cbn [ret fst snd];
      eexists [_], [_; _; _];
      (split; [reflexivity|]); (split; [reflexivity|]);
      (split; [now repeat constructor|]);
      (split; [now rewrite <- !List.app_assoc|]); split; reflexivity.
  - eexists [], [_]. cbn [ret fst snd]. rewrite List.app_nil_r.
    split; [reflexivity|]. split; [reflexivity|]. split; [constructor|].
    split; [reflexivity|]. split; reflexivity.
Qed.

Lemma testForm_plan (pageUrl : string) (i : nat) (form : FormInfo)
    (results : list TestResult) (s : Session W) :
  exists (rs : list TestResult) (calls : list Call),
    fst (testForm pageUrl i form results s) = results ++ rs
    /\ map test rs = Shape.tests_of_form i form
    /\ Forall (fun r => page r = pageUrl) rs
    /\ snd (snd (testForm pageUrl i form results s)) = snd s ++ calls
    /\ Spec.actions calls = Shape.actions_of_form i form
    /\ Spec.gotos calls
       = (if (length (fields form) =? 0)%nat then [] else [pageUrl; pageUrl]).
Proof.
  unfold testForm, Shape.tests_of_form, Shape.actions_of_form.
  destruct (length (fields form) =? 0)%nat eqn:Hnone.
  - apply Nat.eqb_eq in Hnone. rewrite Hnone. cbn [Nat.ltb Nat.leb andb].
    rewrite andb_false_r. eexists [_], []. cbn [ret fst snd].
    rewrite List.app_nil_r. split; [reflexivity|]. split; [reflexivity|].
    split; [now repeat constructor|]. auto.
  - assert (Hsome : (0 <? length (fields form))%nat = true).
    { apply Nat.ltb_lt. apply Nat.eqb_neq in Hnone. lia. }
    rewrite Hsome, andb_true_r, !bind_run.
    set (warned := if negb (JS.truthy_opt (submitButton form)) then _ else _).
    assert (Hwarned : exists w0,
               warned = results ++ w0
               /\ map test w0
                  = (if JS.truthy_opt (submitButton form) then []
                     else [formId_of i form +:+ "-submit-button"])
               /\ Forall (fun r => page r = pageUrl) w0).
    { subst warned. destruct (JS.truthy_opt (submitButton form)); cbn [negb].
      - exists []. rewrite List.app_nil_r. repeat split. constructor.
      - eexists [_]. split; [reflexivity|]. split; [reflexivity|].
        now repeat constructor. }
    destruct Hwarned as (w0 & Hw & Hwt & Hwp).
    destruct (fill_phase_plan pageUrl (formId_of i form) form warned s)
      as (r1 & c1 & Hr1 & Ht1 & Hp1 & Htr1 & Ha1 & Hg1).
    destruct (submit_phase_plan pageUrl (formId_of i form) i form
                (fst (fill_phase pageUrl (formId_of i form) form warned s))
                (snd (fill_phase pageUrl (formId_of i form) form warned s)))
      as (r2 & c2 & Hr2 & Ht2 & Hp2 & Htr2 & Ha2 & Hg2).
    destruct (validation_phase_plan pageUrl (formId_of i form) i form
                (fst (submit_phase pageUrl (formId_of i form) i form
                        (fst (fill_phase pageUrl (formId_of i form) form warned s))
                        (snd (fill_phase pageUrl (formId_of i form) form warned s))))
                (snd (submit_phase pageUrl (formId_of i form) i form
                        (fst (fill_phase pageUrl (formId_of i form) form warned s))
                        (snd (fill_phase pageUrl (formId_of i form) form warned s)))))
      as (r3 & c3 & Hr3 & Ht3 & Hp3 & Htr3 & Ha3 & Hg3).
    exists (w0 ++ [r1] ++ r2 ++ r3), (c1 ++ c2 ++ c3).
    rewrite Hr3, Htr3, Hr2, Htr2, Hr1, Htr1, Hw, <- !List.app_assoc.
    split; [reflexivity|].
    rewrite !map_app, Hwt, Ht2, Ht3. cbn [map]. rewrite Ht1.
    split; [reflexivity|].
    split.
    { apply Forall_app. split; [exact Hwp|].
      apply Forall_app. split; [now repeat constructor|].
      apply Forall_app. now split. }
    split; [reflexivity|].
    rewrite !actions_app, !gotos_app, Ha1, Ha2, Ha3, Hg1, Hg2, Hg3.
    split; reflexivity.
Qed.

Lemma forms_loop_plan (pageUrl : string) (forms : list FormInfo) :
  forall (i : nat) (results : list TestResult) (s : Session W),
  exists (rs : list TestResult) (calls : list Call),
    fst (forms_loop pageUrl i forms results s) = results ++ rs
    /\ map test rs = Shape.tests_of_forms i forms
    /\ Forall (fun r => page r = pageUrl) rs
    /\ snd (snd (forms_loop pageUrl i forms results s)) = snd s ++ calls
    /\ Spec.actions calls = Shape.actions_of_forms i forms.
Proof.
  induction forms as [|form forms IH]; intros i results s.
  - exists [], []. cbn. rewrite !List.app_nil_r. auto 10.
  - cbn [forms_loop]. rewrite bind_run.
    destruct (testForm_plan pageUrl i form results s)
      as (r1 & c1 & Hr1 & Ht1 & Hp1 & Htr1 & Ha1 & _).
    destruct (IH (S i) (fst (testForm pageUrl i form results s))
                 (snd (testForm pageUrl i form results s)))
      as (r2 & c2 & Hr2 & Ht2 & Hp2 & Htr2 & Ha2).
    exists (r1 ++ r2), (c1 ++ c2).
    rewrite Hr2, Htr2, Hr1, Htr1, <- !List.app_assoc.
    split; [reflexivity|].
    rewrite map_app, Ht1, Ht2. split; [reflexivity|].
    split; [apply Forall_app; now split|].
    split; [reflexivity|].
    now rewrite actions_app, Ha1, Ha2.
Qed.

(** X13. The test ids of the outcomes of [testForms], and their order,
    are fixed by the forms alone: per form the missing submit button,
    the fill, the submit and the validation check, or the single
    [-fields] warning of a form without fields; the driver's answers
    only decide the statuses.  Every outcome is about the page. *)
Theorem testForms_tests (pageUrl : string) (forms : list FormInfo)
    (s : Session W) :
  map test (fst (testForms pageUrl forms s))
  = (if (length forms =? 0)%nat then ["form-presence"]
     else Shape.tests_of_forms 0 forms)
  /\ Forall (fun r => page r = pageUrl) (fst (testForms pageUrl forms s)).
Proof.
  unfold testForms. destruct (length forms =? 0)%nat.
  - cbn. split; [reflexivity|]. now repeat constructor.
  - destruct (forms_loop_plan pageUrl forms 0 [] s)
      as (rs & calls & Hrs & Ht & Hp & _).
    rewrite Hrs, List.app_nil_l. now split.
Qed.

(** X14. The interactions of [testForms] with the page are fixed by the
    forms alone: for each form with fields the actions on its fields,
    then one click on the submit selector if it has a submit button,
    then one more such click for the empty submission if it also has a
    required field; a form without a submit button is never
    submitted and a form without fields is not touched. *)
Theorem testForms_actions (pageUrl : string) (forms : list FormInfo)
    (s : Session W) :
  exists calls : list Call,
    snd (snd (testForms pageUrl forms s)) = snd s ++ calls
    /\ Spec.actions calls = Shape.actions_of_forms 0 forms.
Proof.
  unfold testForms. destruct (length forms =? 0)%nat eqn:E.
  - apply Nat.eqb_eq, length_zero_iff_nil in E. subst forms.
    exists []. cbn. now rewrite List.app_nil_r.
  - destruct (forms_loop_plan pageUrl forms 0 [] s)
      as (rs & calls & _ & _ & _ & Htr & Ha).
    exists calls. now split.
Qed.

End FormPlanFacts.

(** ** FormTester: submission, validation, values and ids *)

Section FormVerdictFacts.

Context {W : Type} `{BrowserEngine W}.
Import FormTester.

(** X15. For a form with a submit button, the submit outcome is a fail
    with the driver's error and no screenshot when the click cannot be
    performed; after a click that was performed it is a fail with the
    texts of the new console errors when their number rose and a pass
    otherwise, with a screenshot in both cases. *)
Theorem submit_phase_outcome (pageUrl formId : string) (i : nat)
    (form : FormInfo) (results : list TestResult) (s : Session W) :
  let before := fst (getConsoleErrors s) in
  let clicked := click (submit_selector_both i form)
                       (snd (getConsoleErrors s)) in
  let after := fst (getConsoleErrors (snd clicked)) in
  JS.truthy_opt (submitButton form) = true ->
  exists r : TestResult,
    fst (submit_phase pageUrl formId i form results s) = results ++ [r]
    /\ test r = formId +:+ "-submit"
    /\ (if success (fst clicked) then
          is_Some (screenshot r)
          /\ (if (length before <? length after)%nat
              then status r = Fail
                   /\ details r
                      = Some (JS.join JS.nl
                                (map error_text (drop (length before) after)))
              else status r = Pass /\ details r = None)
        else status r = Fail /\ details r = error (fst clicked)
             /\ screenshot r = None).
Proof.
  intros before clicked after Hbutton.
  unfold submit_phase. rewrite Hbutton, !bind_run.
  fold before. fold clicked.
  destruct (success (fst clicked)); cbn [negb].
  2:{ eexists. cbn [ret fst]. split; [reflexivity|]. cbn. auto. }
  rewrite bind_run. fold after. unfold JS.slice.
  assert (Hlen : length (drop (length before) after)
                 = length after - length before) by apply length_drop.
  destruct (length before <? length after)%nat eqn:Hrise.
  - apply Nat.ltb_lt in Hrise.
    assert (Hpos : (0 <? length (drop (length before) after))%nat = true)
      by (apply Nat.ltb_lt; lia).
    rewrite Hpos, bind_run. cbn [ret fst]. eexists. split; [reflexivity|].
    cbn. eauto.
  - apply Nat.ltb_ge in Hrise.
    assert (Hpos : (0 <? length (drop (length before) after))%nat = false)
      by (apply Nat.ltb_ge; lia).
    rewrite Hpos, bind_run. cbn [ret fst]. eexists. split; [reflexivity|].
    cbn. eauto.
Qed.

(** X16. For a form with a required field and a submit button, the
    validation outcome is decided by the current URL after the empty
    submission alone: a pass when it is the page URL, with or without a
    slash after it, and a warning otherwise; it is never a fail, and
    the answer of the click is not looked at. *)
Theorem validation_phase_outcome (pageUrl formId : string) (i : nat)
    (form : FormInfo) (results : list TestResult) (s : Session W) :
  let clicked := click (submit_selector_button i form) (snd (goto pageUrl s)) in
  let currentUrl := fst (getCurrentUrl (snd clicked)) in
  (0 <? length (List.filter required (fields form)))%nat
  && JS.truthy_opt (submitButton form) = true ->
  exists r : TestResult,
    fst (validation_phase pageUrl formId i form results s) = results ++ [r]
    /\ test r = formId +:+ "-validation"
    /\ details r = None
    /\ status r
       = (if String.eqb currentUrl pageUrl
             || String.eqb currentUrl (pageUrl +:+ "/")
          then Pass else Warning).
Proof.
  intros clicked currentUrl Hreq.
  unfold validation_phase. rewrite bind_run, Hreq, !bind_run.
  fold clicked. fold currentUrl.
  destruct (_ || _); eexists; cbn [ret fst]; (split; [reflexivity|]);
    cbn; auto.
Qed.

End FormVerdictFacts.

Section FormValueFacts.

Import FormTester.

(** X17. The test value of a field is never the empty string, whatever
    its name, label, placeholder and type. *)
Theorem getTestValue_truthy (field : FieldInfo) :
  JS.truthy (getTestValue field) = true.
Proof.
  unfold getTestValue.
  repeat (match goal with
          | |- context [if ?b then _ else _] => destruct b; [reflexivity|]
          end).
  destruct (TEST_DATA !! field_type field) as [v|] eqn:Hv; [|reflexivity].
  unfold JS.or_else. now rewrite (TEST_DATA_truthy _ _ Hv), (TEST_DATA_truthy _ _ Hv).
Qed.

(** X18. Forms without an id are named after their position: two of
    them at different positions never share a form id. *)
Theorem formId_of_position (i j : nat) (f g : FormInfo) :
  JS.truthy_opt (form_id f) = false ->
  JS.truthy_opt (form_id g) = false ->
  i <> j ->
  formId_of i f <> formId_of j g.
Proof.
  assert (Hdefault : forall k h,
             JS.truthy_opt (form_id h) = false ->
             formId_of k h = "form-" +:+ JS.num (k + 1)).
  { intros k h Hh. unfold formId_of, JS.or_else.
    destruct (form_id h) as [id|]; cbn in *; now rewrite ?Hh. }
  intros Hf Hg Hij. rewrite (Hdefault i f Hf), (Hdefault j g Hg).
  intros Heq. apply (inj (String.append "form-")) in Heq.
  unfold JS.num in Heq. apply (inj pretty) in Heq. lia.
Qed.

End FormValueFacts.

(** X15 on the sign-up form, whose submit button is not on the page. *)
Lemma submit_phase_outcome_witness :
  exists r : TestResult,
    fst (FormTester.submit_phase "http://localhost:3000" "signup" 0
           Examples.signup_form [] Examples.form_site) = [] ++ [r]
    /\ test r = "signup" +:+ "-submit"
    /\ status r = Fail /\ details r = Some "waiting for selector failed"
    /\ screenshot r = None.
Proof.
  exact (submit_phase_outcome "http://localhost:3000" "signup" 0
           Examples.signup_form [] Examples.form_site eq_refl).
Defined.

(** X16 on the sign-up form: the page URL is unchanged, so the check
    passes although the click could not be performed. *)
Lemma validation_phase_outcome_witness :
  exists r : TestResult,
    fst (FormTester.validation_phase "http://localhost:3000" "signup" 0
           Examples.signup_form [] Examples.form_site) = [] ++ [r]
    /\ test r = "signup" +:+ "-validation"
    /\ details r = None
    /\ status r = Pass.
Proof.
  exact (validation_phase_outcome "http://localhost:3000" "signup" 0
           Examples.signup_form [] Examples.form_site eq_refl).
Defined.

(** X18 on a form without id at the first two positions. *)
Lemma formId_of_position_witness :
  FormTester.formId_of 0 Examples.anonymous_form
  <> FormTester.formId_of 1 Examples.anonymous_form.
Proof.
  apply (formId_of_position 0 1 Examples.anonymous_form Examples.anonymous_form).
  - reflexivity.
  - reflexivity.
  - lia.
Defined.

(** ** VisualChecker: overlaps and the page audit *)

Section OverlapBoundFacts.

Import VisualChecker.

(** X19. Every line of the overlap check comes from two of the
    elements whose rectangles both have a non-zero width and height
    and intersect. *)
Theorem checkOverlaps_solid_pairs (els : list Element) (line : string) :
  In line (checkOverlaps els) -> Spec.reported els line.
Proof. apply checkOverlaps_reported. Qed.

(** X20. The overlap check reports nothing when every element has a
    zero width or a zero height. *)
Theorem checkOverlaps_without_area (els : list Element) :
  (forall e, In e els ->
             (width (getBoundingClientRect e) =? 0)%Z
             || (height (getBoundingClientRect e) =? 0)%Z = true) ->
  checkOverlaps els = [].
Proof. apply checkOverlaps_zero_area. Qed.

Lemma inner_loop_bound (e1 : Element) (rest : list Element)
    (overlaps : list string) :
  length (fold_left (check_pair e1) rest overlaps)
  <= length overlaps + length rest.
Proof.
  revert overlaps. induction rest as [|e2 rest IH]; intros overlaps; [cbn; lia|].
  cbn [fold_left length]. etransitivity; [apply IH|].
  unfold check_pair. destruct (zero_area _ _); [lia|].
  destruct (overlap _ _); [|lia]. rewrite length_app. cbn. lia.
Qed.

Lemma overlaps_from_bound (els : list Element) (overlaps : list string) :
  length overlaps <= 5 ->
  length (overlaps_from els overlaps) <= 5 + (length els - 1).
Proof.
  revert overlaps. induction els as [|e1 rest IH]; intros overlaps Hstart;
    [cbn; lia|].
  cbn [overlaps_from length].
  pose proof (inner_loop_bound e1 rest overlaps) as Hrow.
  destruct (5 <? _)%nat eqn:Hfull; [lia|].
  apply Nat.ltb_ge in Hfull. specialize (IH _ Hfull). lia.
Qed.

(** X21. The list of the overlap check is never longer than five plus
    the number of elements after the first: the scan stops after the
    row that takes the list above five. *)
Theorem checkOverlaps_length (els : list Element) :
  length (checkOverlaps els) <= 5 + (length els - 1).
Proof. apply overlaps_from_bound. cbn. lia. Qed.

End OverlapBoundFacts.

(** X20 on two links without width. *)
Lemma checkOverlaps_without_area_witness :
  VisualChecker.checkOverlaps
    [ {| VisualChecker.tagName := "A"; VisualChecker.el_id := "x";
         VisualChecker.getBoundingClientRect :=
           {| VisualChecker.left := 0; VisualChecker.right := 0;
              VisualChecker.top := 0; VisualChecker.bottom := 10;
              VisualChecker.width := 0; VisualChecker.height := 10 |} |};
      {| VisualChecker.tagName := "A"; VisualChecker.el_id := "y";
         VisualChecker.getBoundingClientRect :=
           {| VisualChecker.left := 0; VisualChecker.right := 0;
              VisualChecker.top := 0; VisualChecker.bottom := 10;
              VisualChecker.width := 0; VisualChecker.height := 10 |} |} ]
  = [].
Proof.
  apply checkOverlaps_without_area.
  intros e [<- | [<- | []]]; reflexivity.
Defined.

(** X19 on the first line reported for the four stacked buttons. *)
Lemma checkOverlaps_solid_pairs_witness :
  Spec.reported Examples.four_stacked "BUTTON#a overlaps with BUTTON#b".
Proof.
  apply checkOverlaps_solid_pairs. left. reflexivity.
Defined.

Section AuditFacts.

Context {W : Type} `{BrowserEngine W} `{VisualAudit.PageEngine W}.
Import VisualAudit.

Lemma evaluate_run {A} (f : Document -> A) (s : Session W) :
  evaluate f s
  = (f (fst (pg_evaluate (fst s))), (snd (pg_evaluate (fst s)), snd s)).
Proof. unfold evaluate. now destruct (pg_evaluate (fst s)). Qed.

(** The mobile check: one verdict, one navigation, and the desktop
    viewport set last. *)
Lemma checkMobileView_shape (pageUrl : string) (s : Session W) :
  exists (mobile : TestResult) (w : W) (calls : list Call),
    fst (checkMobileView pageUrl s) = [mobile]
    /\ page mobile = pageUrl
    /\ ((test mobile = "mobile-overflow" /\ status mobile = Fail)
        \/ (test mobile = "mobile-responsive" /\ status mobile = Pass))
    /\ snd (checkMobileView pageUrl s) = (pg_setViewport 1280 800 w, snd s ++ calls)
    /\ Spec.gotos calls = [pageUrl].
Proof.
  unfold checkMobileView. rewrite !bind_run.
  unfold checkOverflow. rewrite evaluate_run. cbn [fst snd].
  destruct (_ >? _)%Z.
  - rewrite !bind_run. unfold take_screenshot, goto, setViewport.
    rewrite !logged_run. cbn [fst snd ret].
    eexists _, _, [_; _]. split; [reflexivity|]. split; [reflexivity|].
    split; [left; split; reflexivity|].
    split; [now rewrite <- !List.app_assoc | reflexivity].
  - unfold goto, setViewport. rewrite !logged_run. cbn [fst snd ret].
    eexists _, _, [_]. split; [reflexivity|]. split; [reflexivity|].
    split; [right; split; reflexivity|].
    split; reflexivity.
Qed.

(** X22. The audit of a page always ends with the verdict of the mobile
    check, a [mobile-overflow] fail or a [mobile-responsive] pass, after
    at most five outcomes of the desktop checks; every outcome is about
    the page. *)
Theorem checkPage_outcomes (pageUrl : string) (s : Session W) :
  exists (desktop : list TestResult) (mobile : TestResult),
    fst (checkPage pageUrl s) = desktop ++ [mobile]
    /\ length desktop <= 5
    /\ Forall (fun r => page r = pageUrl) (desktop ++ [mobile])
    /\ ((test mobile = "mobile-overflow" /\ status mobile = Fail)
        \/ (test mobile = "mobile-responsive" /\ status mobile = Pass)).
Proof.
  unfold checkPage. rewrite !bind_run.
  match goal with
  | |- context [checkMobileView pageUrl ?s0] =>
      destruct (checkMobileView_shape pageUrl s0)
        as (mobile & w & calls & -> & Hp & Hverdict & _)
  end.
  cbn [ret fst].
  set (r1 := if negb _ || _ || _ then _ else _).
  assert (H1 : length r1 <= 1 /\ Forall (fun r => page r = pageUrl) r1).
  { subst r1. destruct (_ || _); cbn; split; try lia; repeat constructor. }
  clearbody r1.
  match goal with
  | |- context [(if fst (checkOverflow ?x) then ?a else ?b) ?y] =>
      set (o := (if fst (checkOverflow x) then a else b) y)
  end.
  assert (H2 : length (fst o) <= 2 /\ Forall (fun r => page r = pageUrl) (fst o)).
  { subst o. destruct H1 as [Hl Hf]. destruct (fst (checkOverflow _)).
    - rewrite bind_run. cbn [ret fst]. rewrite length_app. cbn [length].
      split; [lia|]. apply Forall_app. split; [exact Hf | now repeat constructor].
    - cbn [ret fst]. split; [lia | exact Hf]. }
  clearbody o.
  set (r3 := if (0 <? length (fst (checkOverlaps _)))%nat then _ else _).
  assert (H3 : length r3 <= 3 /\ Forall (fun r => page r = pageUrl) r3).
  { subst r3. destruct H2 as [Hl Hf]. destruct (0 <? _)%nat.
    - rewrite length_app. cbn [length].
      split; [lia|]. apply Forall_app. split; [exact Hf | now repeat constructor].
    - split; [lia | exact Hf]. }
  clearbody r3.
  set (r4 := if (0 <? fst (checkImagesAlt _))%nat then _ else _).
  assert (H4 : length r4 <= 4 /\ Forall (fun r => page r = pageUrl) r4).
  { subst r4. destruct H3 as [Hl Hf]. destruct (0 <? _)%nat.
    - rewrite length_app. cbn [length].
      split; [lia|]. apply Forall_app. split; [exact Hf | now repeat constructor].
    - split; [lia | exact Hf]. }
  clearbody r4.
  set (r5 := if (0 <? length (fst (checkBrokenImages _)))%nat then _ else _).
  assert (H5 : length r5 <= 5 /\ Forall (fun r => page r = pageUrl) r5).
  { subst r5. destruct H4 as [Hl Hf]. destruct (0 <? _)%nat.
    - rewrite length_app. cbn [length].
      split; [lia|]. apply Forall_app. split; [exact Hf | now repeat constructor].
    - split; [lia | exact Hf]. }
  clearbody r5.
  exists r5, mobile. destruct H5 as [Hl Hf].
  split; [reflexivity|]. split; [exact Hl|]. split; [|exact Hverdict].
  apply Forall_app. split; [exact Hf | now repeat constructor].
Qed.

End AuditFacts.

(** ** The test runner *)

Section RunnerFacts.

Context {W : Type} `{BrowserEngine W} `{VisualAudit.PageEngine W}
        `{Index.BrowserLifecycle W}.
Variable newURL : string -> option URL.
Variable onProgress : option (string -> W -> W).
Import Index.

Lemma log_trace (msg : string) (s : Session W) :
  snd (snd (log onProgress msg s)) = snd s.
Proof. unfold log. now destruct onProgress. Qed.

(** X24. A request without a test type is crawled but not reported on:
    no tester is selected, the report has no outcome, and its summary
    is the success sentence. *)
Theorem runTests_without_type (fuel : nat) (now : string)
    (testReq : TestRequest) (s : Session W) (report : TestReport) :
  testType testReq = None ->
  fst (runTests newURL onProgress fuel now testReq s) = Some report ->
  report = Reporter.compile now (req_url testReq) []
  /\ results report = []
  /\ totalTests report = 0
  /\ summary report
     = Reporter.header (req_url testReq) 0 0 0 +:+ Reporter.successSentence.
Proof.
  intros Htype. unfold runTests, is_type. rewrite Htype. cbn [orb].
  rewrite !bind_run.
  destruct (fst (NavigationTester.discoverAndTestPages _ _ _ _))
    as [[navResults pages]|]; [|discriminate].
  rewrite !bind_run. cbn [ret fst]. intros [= <-]. repeat split.
Qed.

(** X25. When the base URL does not load, a full or a navigation run
    reports the single [page-load] failure; a forms, clicks or visual
    run, and a run without type, report no outcome at all. *)
Theorem runTests_unreachable (fuel : nat) (now : string)
    (testReq : TestRequest) (s : Session W) :
  let started :=
    snd (log onProgress
           ("📄 Discovering pages and checking for errors..." +:+ JS.nl)
           (snd (launch s))) in
  fst (goto (req_url testReq) (snd (newPage started))) = false ->
  fst (runTests newURL onProgress (S (S fuel)) now testReq s)
  = Some (Reporter.compile now (req_url testReq)
            (if is_type testReq Full || is_type testReq Navigation
             then [ {| page := req_url testReq;
                       test := "page-load";
                       status := Fail;
                       message := "Page failed to load: " +:+ req_url testReq;
                       screenshot := None;
                       details := None |} ]
             else [])).
Proof.
  intros started Hfail. unfold runTests. rewrite !bind_run. fold started.
  destruct (crawl_unreachable newURL fuel (req_url testReq) started Hfail)
    as [-> _].
  rewrite !bind_run. cbn [for_of].
  destruct (is_type testReq Full || is_type testReq Navigation),
           (is_type testReq Full || is_type testReq Forms),
           (is_type testReq Full || is_type testReq Clicks),
           (is_type testReq Full || is_type testReq Visual);
    reflexivity.
Qed.

(** X26. A navigation run, and a run without type, only look at
    pages: the driver is never asked to click, fill or select. *)
Theorem runTests_navigation_only (fuel : nat) (now : string)
    (testReq : TestRequest) (s : Session W) :
  testType testReq = None \/ testType testReq = Some Navigation ->
  exists calls : list Call,
    snd (snd (runTests newURL onProgress fuel now testReq s)) = snd s ++ calls
    /\ Spec.actions calls = [].
Proof.
  intros Htype.
  assert (Hsel : is_type testReq Full || is_type testReq Forms = false
                 /\ is_type testReq Full || is_type testReq Clicks = false
                 /\ is_type testReq Full || is_type testReq Visual = false).
  { unfold is_type. destruct Htype as [-> | ->]; repeat split. }
  destruct Hsel as (Hforms & Hclicks & Hvisual).
  unfold runTests. rewrite Hforms, Hclicks, Hvisual. rewrite !bind_run.
  set (started := snd (log onProgress _ (snd (launch s)))).
  destruct (crawl_no_actions newURL fuel (req_url testReq) started)
    as (calls & Htr & Ha).
  assert (Hstarted : snd started = snd s)
    by (subst started; now rewrite log_trace).
  exists calls. split; [|exact Ha].
  destruct (fst (NavigationTester.discoverAndTestPages _ _ _ _))
    as [[navResults pages]|].
  - unfold log, close, bind; destruct onProgress; cbn [fst snd ret];
      now rewrite Htr, Hstarted.
  - cbn [ret snd]. now rewrite Htr, Hstarted.
Qed.

End RunnerFacts.

(** X24 on the small site, requested without a test type. *)
Lemma runTests_without_type_witness :
  let testReq := {| Index.req_url := "http://a.com";
                    Index.context := None;
                    Index.testType := None |} in
  let run := Index.runTests UrlModel.newURL None 20
               "2024-01-01T00:00:00.000Z" testReq Examples.small_site in
  let report := default (Reporter.compile EmptyString EmptyString [])
                        (fst run) in
  report = Reporter.compile "2024-01-01T00:00:00.000Z" "http://a.com" []
  /\ results report = []
  /\ totalTests report = 0
  /\ summary report
     = Reporter.header "http://a.com" 0 0 0 +:+ Reporter.successSentence.
Proof.
  intros testReq run report.
  assert (Hrun : fst run = Some report) by (vm_compute; reflexivity).
  exact (runTests_without_type UrlModel.newURL None 20
           "2024-01-01T00:00:00.000Z" testReq Examples.small_site report
           eq_refl Hrun).
Defined.

(** X25 on a full run against a site without pages. *)
Lemma runTests_unreachable_witness :
  let testReq := {| Index.req_url := "http://nowhere.test";
                    Index.context := None;
                    Index.testType := Some Index.Full |} in
  fst (Index.runTests UrlModel.newURL None 2 "2024-01-01T00:00:00.000Z"
         testReq (StaticSite.start []))
  = Some (Reporter.compile "2024-01-01T00:00:00.000Z" "http://nowhere.test"
            [ {| page := "http://nowhere.test";
                 test := "page-load";
                 status := Fail;
                 message := "Page failed to load: " +:+ "http://nowhere.test";
                 screenshot := None;
                 details := None |} ]).
Proof.
  intros testReq.
  exact (runTests_unreachable UrlModel.newURL None 0
           "2024-01-01T00:00:00.000Z" testReq (StaticSite.start []) eq_refl).
Defined.

(** X26 on a navigation run of the small site. *)
Lemma runTests_navigation_only_witness :
  let testReq := {| Index.req_url := "http://a.com";
                    Index.context := None;
                    Index.testType := Some Index.Navigation |} in
  exists calls : list Call,
    snd (snd (Index.runTests UrlModel.newURL None 20
                "2024-01-01T00:00:00.000Z" testReq Examples.small_site))
    = snd Examples.small_site ++ calls
    /\ Spec.actions calls = [].
Proof.
  intros testReq.
  exact (runTests_navigation_only UrlModel.newURL None 20
           "2024-01-01T00:00:00.000Z" testReq Examples.small_site
           (or_intror eq_refl)).
Defined.

(** ** The request parser *)

Section RequestFacts.

Variable urlPattern : string -> option string.
Variable contextPattern : string -> option string.
Import Index Request.

(** X27. The URL of a parsed request always starts with [http]: it is
    the text the URL pattern found, behind [http://] unless that text
    starts with [http] itself; and a parsed request always has a test
    type. *)
Theorem parseRequest_scheme (message : string) (r : TestRequest) :
  parseRequest urlPattern contextPattern message = Some r ->
  startsWith (req_url r) "http" = true
  /\ testType r <> None
  /\ exists found : string,
       urlPattern message = Some found
       /\ req_url r = if startsWith found "http" then found
                      else "http://" +:+ found.
Proof.
  unfold parseRequest.
  destruct (urlPattern message) as [found|]; [|discriminate].
  intros [= <-]. cbn [req_url testType]. split; [|split].
  - destruct (startsWith found "http") eqn:Hhttp; [exact Hhttp|reflexivity].
  - discriminate.
  - exists found. split; reflexivity.
Qed.

(** X28. A message with the word [form] in it, in any case and at any
    place, also inside another word, asks for the forms test, whatever
    else it mentions. *)
Theorem parseRequest_form_wins (before word after : string) (r : TestRequest) :
  JS.toLowerCase word = "form" ->
  parseRequest urlPattern contextPattern (before +:+ word +:+ after) = Some r ->
  testType r = Some Forms.
Proof.
  intros Hword. unfold parseRequest.
  destruct (urlPattern _) as [found|]; [|discriminate].
  rewrite !toLowerCase_app, Hword.
  rewrite (includes_app_r _ _ "form")
    by (apply includes_app_l; reflexivity).
  now intros [= <-].
Qed.

(** X29. A parsed request asks for the full test exactly when the
    message has none of the seven words that select a test type. *)
Theorem parseRequest_full (message : string) (r : TestRequest) :
  parseRequest urlPattern contextPattern message = Some r ->
  testType r = Some Full
  <-> Forall (fun word => JS.includes (JS.toLowerCase message) word = false)
             type_words.
Proof.
  unfold parseRequest.
  destruct (urlPattern message) as [found|]; [|discriminate].
  intros [= <-]. cbn [testType]. unfold type_words.
  rewrite !Forall_cons, Forall_nil.
  destruct (JS.includes _ "form"), (JS.includes _ "click"),
           (JS.includes _ "button"), (JS.includes _ "visual"),
           (JS.includes _ "layout"), (JS.includes _ "design"),
           (JS.includes _ "nav"); cbn [orb];
    split; intros Hx; try discriminate Hx; try tauto;
    repeat match goal with H : _ /\ _ |- _ => destruct H end;
    discriminate.
Qed.

End RequestFacts.

(** X27 on a message that names a local server. *)
Lemma parseRequest_scheme_witness :
  let message := "test the page at localhost:3000/app please" in
  let r := {| Index.req_url := "http://localhost:3000/app";
              Index.context := None;
              Index.testType := Some Index.Full |} in
  Request.startsWith (Index.req_url r) "http" = true
  /\ Index.testType r <> None
  /\ exists found : string,
       AsciiPatterns.urlPattern message = Some found
       /\ Index.req_url r = if Request.startsWith found "http" then found
                            else "http://" +:+ found.
Proof.
  intros message r.
  assert (Hparse : Request.parseRequest AsciiPatterns.urlPattern
                     AsciiPatterns.contextPattern message = Some r)
    by (vm_compute; reflexivity).
  exact (parseRequest_scheme AsciiPatterns.urlPattern
           AsciiPatterns.contextPattern message r Hparse).
Defined.

(** X28 on a message that asks for the navigation of a page about
    information. *)
Lemma parseRequest_form_wins_witness :
  let message := "Check the navigation of the In" +:+ "FORM"
                 +:+ "ation page https://a.com/info context: new menu " in
  let r := default {| Index.req_url := EmptyString;
                      Index.context := None;
                      Index.testType := None |}
                   (Request.parseRequest AsciiPatterns.urlPattern
                      AsciiPatterns.contextPattern message) in
  Index.testType r = Some Index.Forms.
Proof.
  intros message r.
  assert (Hparse : Request.parseRequest AsciiPatterns.urlPattern
                     AsciiPatterns.contextPattern message = Some r)
    by (vm_compute; reflexivity).
  exact (parseRequest_form_wins AsciiPatterns.urlPattern
           AsciiPatterns.contextPattern "Check the navigation of the In"
           "FORM" "ation page https://a.com/info context: new menu " r
           eq_refl Hparse).
Defined.

(** X29 on a message without any of the words. *)
Lemma parseRequest_full_witness :
  let message := "test http://a.com" in
  let r := {| Index.req_url := "http://a.com";
              Index.context := None;
              Index.testType := Some Index.Full |} in
  Index.testType r = Some Index.Full
  <-> Forall (fun word => JS.includes (JS.toLowerCase message) word = false)
             Request.type_words.
Proof.
  intros message r.
  assert (Hparse : Request.parseRequest AsciiPatterns.urlPattern
                     AsciiPatterns.contextPattern message = Some r)
    by (vm_compute; reflexivity).
  exact (parseRequest_full AsciiPatterns.urlPattern
           AsciiPatterns.contextPattern message r Hparse).
Defined.
